(** * S3.py: delivery of local files to a date-partitioned S3 prefix

    A shallow embedding of [S3.py] and the properties of its key
    construction, sheet expansion, dry-run mode, error handling and
    credential loading.

    Conventions of the embedding.
    - A Python [str] is a Rocq [string], read as the UTF-8 bytes of the text.
      The characters the script looks for ('/', '\', ' ', '.') are ASCII, and
      no byte of a multi-byte UTF-8 sequence is ASCII, so replacing, stripping
      and searching them byte-wise agrees with Python's code-point view;
      [encode('utf-8')] is the identity on this representation.
    - Effects (log records, calls of the S3 client, reads of the clock,
      exceptions and [sys.exit]) are explicit: a command is a function from
      the counters of the oracles it consults to the events it emits, the
      new counters and the way it ends.
    - What the script asks of the file system (what a path designates, what
      [resolve()] makes of it) and what depends on the version of Python
      are answers of the world the command runs in. *)

From Stdlib Require Import String Ascii List Bool Arith ZArith Lia.
Import ListNotations.
Open Scope list_scope.
Open Scope string_scope.

Set Implicit Arguments.

(* ================================================================== *)
(** ** Strings as Python uses them *)

Module PyStr.

(** [s.replace(old, new)] for one-character [old] and [new]. *)
Fixpoint replace (old new : ascii) (s : string) : string :=
  match s with
  | EmptyString => EmptyString
  | String c r =>
      String (if Ascii.eqb c old then new else c) (replace old new r)
  end.

(** [s.lstrip(c)] for a one-character set. *)
Fixpoint lstrip (c : ascii) (s : string) : string :=
  match s with
  | EmptyString => EmptyString
  | String a r => if Ascii.eqb a c then lstrip c r else s
  end.

(** [s.lower()] on the ASCII letters; no character outside ASCII lowers to
    one of the letters of ".xlsx", the only use the script makes of it. *)
Definition lower_ascii (c : ascii) : ascii :=
  let n := nat_of_ascii c in
  if ((65 <=? n) && (n <=? 90))%nat then ascii_of_nat (n + 32) else c.

Fixpoint lower (s : string) : string :=
  match s with
  | EmptyString => EmptyString
  | String c r => String (lower_ascii c) (lower r)
  end.

(** [s.rfind(c)]: the index of the last occurrence, [-1] when there is
    none.  [i] is the index of the head of [s], [found] the answer so far. *)
Fixpoint rfind_from (c : ascii) (s : string) (i found : Z) : Z :=
  match s with
  | EmptyString => found
  | String a r =>
      rfind_from c r (i + 1)%Z (if Ascii.eqb a c then i else found)
  end.

Definition rfind (c : ascii) (s : string) : Z := rfind_from c s 0 (-1).

Definition len (s : string) : Z := Z.of_nat (String.length s).

(** [s[:i]] and [s[i:]] for [0 <= i]. *)
Definition take (i : Z) (s : string) : string :=
  String.substring 0 (Z.to_nat i) s.
Definition drop (i : Z) (s : string) : string :=
  String.substring (Z.to_nat i) (String.length s - Z.to_nat i) s.

(** [sep.join(parts)]. *)
Definition join (sep : string) (parts : list string) : string :=
  String.concat sep parts.

(** [x in l] for a list of strings. *)
Definition mem (x : string) (l : list string) : bool :=
  existsb (String.eqb x) l.

(** [sub] occurs in [s]. *)
Definition occurs (sub s : string) : Prop :=
  exists pre post, s = pre ++ sub ++ post.

(** Decidable version of [occurs], by scanning. *)
Fixpoint occursb (sub s : string) : bool :=
  String.prefix sub s
  || match s with
     | EmptyString => false
     | String _ r => occursb sub r
     end.

(** [str(n)] for a non-negative integer. *)
Definition digit (n : nat) : ascii := ascii_of_nat (48 + n mod 10).

Fixpoint of_nat_aux (fuel n : nat) (acc : string) : string :=
  match fuel with
  | O => acc
  | S fuel' =>
      let acc' := String (digit n) acc in
      if (n <? 10)%nat then acc' else of_nat_aux fuel' (n / 10) acc'
  end.

Definition of_nat (n : nat) : string := of_nat_aux (S n) n EmptyString.

End PyStr.

(* ================================================================== *)
(** ** Constants and the dataset enumeration *)

Definition S3_BUCKET_NAME : string := "symphony-client-shared-atlanta-ga".
Definition S3_REGION : string := "us-east-1".
Definition CONFIG_FILE : string := "S3.ini".

(** [class Dataset(str, enum.Enum)]. *)
Inductive Dataset : Type := WINISTRY | SPARKLOFT.

Definition value (d : Dataset) : string :=
  match d with
  | WINISTRY => "winistry"
  | SPARKLOFT => "sparkloft"
  end.

(* ================================================================== *)
(** ** The date and the key prefix *)

(** What [datetime.datetime.now()] contributes to the script: a calendar
    date. *)
Record Date : Type := mkDate { year : nat; month : nat; day : nat }.

(** The dates the clock of a running system gives: [datetime] keeps
    [year <= 9999], [1 <= month <= 12] and [1 <= day <= 31]; a year of four
    digits is what every platform's [%Y] prints alike (below 1000 some C
    libraries pad with zeros and some do not). *)
Definition valid_date (d : Date) : Prop :=
  1000 <= year d < 10 * 1000 /\ 1 <= month d <= 12 /\ 1 <= day d <= 31.

(** Zero-padded decimal fields of [strftime]. *)
Definition pad2 (n : nat) : string :=
  String (PyStr.digit (n / 10)) (String (PyStr.digit n) EmptyString).

Definition pad4 (n : nat) : string :=
  String (PyStr.digit (n / 1000))
    (String (PyStr.digit (n / 100))
       (String (PyStr.digit (n / 10)) (String (PyStr.digit n) EmptyString))).

(** [d.strftime(r'%Y-%m-%d')]. *)
Definition strftime_Ymd (d : Date) : string :=
  pad4 (year d) ++ "-" ++ pad2 (month d) ++ "-" ++ pad2 (day d).

(** The f-string of lines 284 and 328:
    [f"delivery/dataset={dataset}/status=staged/delivery-date={...}/"]. *)
Definition s3_path_for (dataset : string) (now : Date) : string :=
  "delivery/dataset=" ++ dataset ++ "/status=staged/delivery-date="
    ++ strftime_Ymd now ++ "/".

(** Reading a decimal field back, to say what the digits of a key denote. *)
Definition digit_value (c : ascii) : nat := nat_of_ascii c - 48.

Fixpoint decimal_value_from (acc : nat) (s : string) : nat :=
  match s with
  | EmptyString => acc
  | String c r => decimal_value_from (10 * acc + digit_value c) r
  end.

Definition decimal_value (s : string) : nat := decimal_value_from 0 s.

Definition is_digit (c : ascii) : bool :=
  let n := nat_of_ascii c in ((48 <=? n) && (n <=? 57))%nat.

(* ================================================================== *)
(** ** Sheet-name sanitization *)

(** [sheet_name.replace('/', '_').replace('\\', '_').replace(' ', '_')]. *)
Definition safe_sheet_name (sheet_name : string) : string :=
  PyStr.replace " " "_" (PyStr.replace "\" "_" (PyStr.replace "/" "_" sheet_name)).

(** The three characters the sanitization rewrites. *)
Definition is_unsafe (c : ascii) : bool :=
  (Ascii.eqb c "/" || Ascii.eqb c "\" || Ascii.eqb c " ")%char.

(* ================================================================== *)
(** ** Paths *)

(** A [pathlib] path: an anchor (["/"], ["C:\"], or [""] for a relative
    path), the components below it, and the separator of its flavour.
    What [resolve()] makes of a path is a question to the file system: the
    world answers it ([resolve] in [Env] below). *)
Record Path : Type := mkPath {
  anchor : string;
  parts : list string;
  sep : string
}.

Definition posix (ps : list string) : Path := mkPath "/" ps "/".
Definition relative (ps : list string) : Path := mkPath "" ps "/".

(** [str(p)]. *)
Definition path_str (p : Path) : string :=
  anchor p ++ PyStr.join (sep p) (parts p).

(** [p.as_posix()]. *)
Definition as_posix (p : Path) : string :=
  anchor p ++ PyStr.join "/" (parts p).

(** [p.name]: the final component. *)
Definition name (p : Path) : string := last (parts p) "".

(** [p.parent]. *)
Definition parent (p : Path) : Path :=
  mkPath (anchor p) (removelast (parts p)) (sep p).

(** [p / rel]. *)
Definition joinpath (p : Path) (rel : list string) : Path :=
  mkPath (anchor p) (parts p ++ rel)%list (sep p).

(** [p.relative_to(base)]: the components of [p] below [base]; [None]
    stands for the [ValueError] raised when [base] is not an ancestor.
    Components are compared as they are written: the script compares paths
    that [resolve()] has put in the spelling the file system records. *)
Fixpoint strip_prefix (base ps : list string) : option (list string) :=
  match base, ps with
  | [], _ => Some ps
  | b :: base', x :: ps' =>
      if String.eqb b x then strip_prefix base' ps' else None
  | _ :: _, [] => None
  end.

Definition relative_to (p base : Path) : option Path :=
  if String.eqb (anchor p) (anchor base) then
    option_map (fun ps => mkPath "" ps (sep p))
      (strip_prefix (parts base) (parts p))
  else None.

(** [PurePath.suffix] and [PurePath.stem] (Python 3.10 to 3.13):
    [i = name.rfind('.')], and the suffix starts at [i] when
    [0 < i < len(name) - 1]. *)
Definition suffix_of_name (n : string) : string :=
  let i := PyStr.rfind "." n in
  if ((0 <? i) && (i <? PyStr.len n - 1))%Z then PyStr.drop i n else "".

Definition stem_of_name (n : string) : string :=
  let i := PyStr.rfind "." n in
  if ((0 <? i) && (i <? PyStr.len n - 1))%Z then PyStr.take i n else n.

Definition suffix (p : Path) : string := suffix_of_name (name p).
Definition stem (p : Path) : string := stem_of_name (name p).

(** [is_excel_file]. *)
Definition is_excel_file (file_path : Path) : bool :=
  PyStr.mem (PyStr.lower (suffix file_path)) [".xlsx"; ".xls"].

(* ================================================================== *)
(** ** What the script observes and what it does *)

(** A Python exception object of a class derived from [Exception]: its
    class name and its message. *)
Record exn : Type := Exn { exc_class : string; exc_message : string }.

(** The result of an operation of a library that may raise. *)
Inductive Read (A : Type) : Type :=
| ReadOk (a : A)
| ReadFails (e : exn).
Arguments ReadOk {A} a.
Arguments ReadFails {A} e.

(** A [pandas.DataFrame] as [read_excel] returns it: the column labels of
    the header row and the data rows, cells already rendered as text.  The
    row index is the default [RangeIndex]. *)
Record DataFrame : Type := mkDataFrame {
  columns : list string;
  rows : list (list string)
}.

(** [df.empty]: some axis has length zero. *)
Definition empty (df : DataFrame) : bool :=
  match columns df, rows df with
  | [], _ => true
  | _, [] => true
  | _, _ => false
  end.

(** One sheet of a workbook: its name and what [pd.read_excel] does with
    it.  Sheet names are unique within a workbook. *)
Record Sheet : Type := mkSheet {
  sheet_title : string;
  sheet_read : Read DataFrame
}.

(** What [pd.ExcelFile] does with a file: it raises, or lists the sheets. *)
Definition Workbook : Type := Read (list Sheet).

(** The directory tree below a path as [glob] and [is_file] show it: a
    regular file, with what pandas makes of it, or a directory with its
    named entries.  [is_file] follows symbolic links, so a link to a regular
    file is a file here, under the name of the link; where it leads is what
    [resolve] tells.  The recursion of [**] does not enter a link to a
    directory, and [is_file] refuses it like every entry that is neither a
    file nor a directory: such entries are left out of the tree. *)
#[warnings="-register-all"]
Inductive Entry : Type :=
| EFile (wb : Workbook)
| EDir (children : list (string * Entry)).

(** Induction over a tree, with the property for every entry of a
    directory, which the generated principle lacks. *)
Section EntryInduction.

Variable P : Entry -> Prop.
Hypothesis Hfile : forall wb, P (EFile wb).
Hypothesis Hdir :
  forall children, Forall (fun c => P (snd c)) children -> P (EDir children).

Fixpoint Entry_nested_ind (e : Entry) : P e :=
  match e with
  | EFile wb => Hfile wb
  | EDir children =>
      Hdir
        ((fix all (l : list (string * Entry)) : Forall (fun c => P (snd c)) l :=
            match l with
            | [] => Forall_nil _
            | c :: l' =>
                Forall_cons c
                  (match c as c0 return P (snd c0) with
                   | (_, e') => Entry_nested_ind e'
                   end)
                  (all l')
            end) children)
  end.

End EntryInduction.

(** [S3.ini] as [configparser] sees it.  Option names are stored the way
    the parser stores them (through [optionxform], lower case); values are
    given with the outcome of their interpolation. *)
Inductive ConfigFile : Type :=
| NoConfigFile
| Unparsable (e : exn)
| Ini (sections : list (string * list (string * Read string)))
      (defaults : list (string * Read string)).

(** What depends on the version of Python and not on the script: whether
    the CSV writer quotes a field for a carriage return or a line feed that
    is not a character of its line terminator (it does from Python 3.13 on),
    and the text of the [ValueError] of [relative_to]. *)
Record Library : Type := mkLibrary {
  csv_quotes_newlines : bool;
  not_in_subpath : Path -> Path -> string
}.

(** The world around one invocation. *)
Record Env : Type := mkEnv {
  config_file : ConfigFile;          (* [S3.ini] next to the script *)
  script_dir : Path;                 (* [Path(__file__).parent] *)
  disk : Path -> option Entry;       (* what a path designates, if anything *)
  resolve : Path -> Path;            (* [p.resolve()]: absolute, links followed *)
  clock : nat -> Date;               (* the n-th reading of [datetime.now()] *)
  put_outcome : nat -> option exn;   (* the n-th call of the store: raises? *)
  linesep : string;                  (* [os.linesep] *)
  library : Library                  (* the Python the script runs on *)
}.

Record Counters : Type := mkCounters { now_calls : nat; put_calls : nat }.

Inductive Level : Type := DEBUG | INFO | WARNING | ERROR.

Record LogRecord : Type := mkLog {
  levelname : Level;
  message : string;
  exc_info : option exn;
  stack_info : bool
}.

Record S3Client : Type := mkClient {
  region_name : string;
  aws_access_key_id : string;
  aws_secret_access_key : string
}.

Inductive Event : Type :=
| Log (r : LogRecord)
| Boto3Client (c : S3Client)                         (* [boto3.client("s3", ...)] *)
| UploadFile (Bucket Key : string) (Filename : Path) (* [s3_client.upload_file] *)
| UploadFileobj (Fileobj : string) (Bucket Key : string).

(** How a computation ends: it returns, an exception propagates, or
    [sys.exit(code)] unwinds it ([SystemExit] is not an [Exception]). *)
Inductive Ending (A : Type) : Type :=
| Returns (a : A)
| Raises (e : exn)
| Exits (code : Z).
Arguments Returns {A} a.
Arguments Raises {A} e.
Arguments Exits {A} code.

Record Run (A : Type) : Type := mkRun {
  events : list Event;
  counters : Counters;
  ending : Ending A
}.

Definition M (A : Type) : Type := Env -> Counters -> Run A.

Definition ret {A} (a : A) : M A := fun _ c => mkRun [] c (Returns a).

Definition bind {A B} (m : M A) (f : A -> M B) : M B :=
  fun env c =>
    let r := m env c in
    match ending r with
    | Returns a =>
        let r' := f a env (counters r) in
        mkRun (events r ++ events r')%list (counters r') (ending r')
    | Raises e => mkRun (events r) (counters r) (Raises e)
    | Exits n => mkRun (events r) (counters r) (Exits n)
    end.

Notation "x <- c1 ;; c2" := (bind c1 (fun x => c2))
  (at level 61, c1 at next level, right associativity).
Notation "c1 ;; c2" := (bind c1 (fun _ => c2))
  (at level 61, right associativity).

Definition raise {A} (e : exn) : M A := fun _ c => mkRun [] c (Raises e).
Definition sys_exit {A} (code : Z) : M A := fun _ c => mkRun [] c (Exits code).
Definition emit (ev : Event) : M unit := fun _ c => mkRun [ev] c (Returns tt).
Definition ask : M Env := fun env c => mkRun [] c (Returns env).

(** [try: body except Exception as e: handler(e)]. *)
Definition try_except {A} (body : M A) (handler : exn -> M A) : M A :=
  fun env c =>
    let r := body env c in
    match ending r with
    | Raises e =>
        let r' := handler e env (counters r) in
        mkRun (events r ++ events r')%list (counters r') (ending r')
    | _ => r
    end.

(** [for x in xs: body(x)]. *)
Fixpoint for_each {A} (xs : list A) (body : A -> M unit) : M unit :=
  match xs with
  | [] => ret tt
  | x :: xs' => body x ;; for_each xs' body
  end.

(** [logger.info], [logger.warning], [logger.error]. *)
Definition logger_info (msg : string) : M unit :=
  emit (Log (mkLog INFO msg None false)).
Definition logger_warning (msg : string) : M unit :=
  emit (Log (mkLog WARNING msg None false)).
Definition logger_error (msg : string) (exc : option exn) (stack : bool) : M unit :=
  emit (Log (mkLog ERROR msg exc stack)).

(** [datetime.datetime.now()]. *)
Definition datetime_now : M Date :=
  fun env c =>
    mkRun [] (mkCounters (S (now_calls c)) (put_calls c))
      (Returns (clock env (now_calls c))).

(** The answer of the store to the call that has just been issued. *)
Definition store_answer : M unit :=
  fun env c =>
    mkRun [] (mkCounters (now_calls c) (S (put_calls c)))
      match put_outcome env (put_calls c) with
      | None => Returns tt
      | Some e => Raises e
      end.

(** [s3_client.upload_file(Bucket=, Key=, Filename=)]. *)
Definition upload_file_call (s3_client : S3Client) (Bucket Key : string)
    (Filename : Path) : M unit :=
  emit (UploadFile Bucket Key Filename) ;; store_answer.

(** [s3_client.upload_fileobj(Fileobj=, Bucket=, Key=)]. *)
Definition upload_fileobj_call (s3_client : S3Client) (Fileobj : string)
    (Bucket Key : string) : M unit :=
  emit (UploadFileobj Fileobj Bucket Key) ;; store_answer.

(** Turning the result of a library call into control flow. *)
Definition of_read {A} (r : Read A) : M A :=
  match r with
  | ReadOk a => ret a
  | ReadFails e => raise e
  end.

(** The exit status of the process for an ending of the command. *)
Definition exit_status {A} (e : Ending A) : Z :=
  match e with
  | Returns _ => 0
  | Raises _ => 1
  | Exits code => code
  end.

(* ================================================================== *)
(** ** [get_s3_client] *)

Definition NoSectionError (section : string) : exn :=
  Exn "NoSectionError" ("No section: '" ++ section ++ "'").
Definition NoOptionError (option section : string) : exn :=
  Exn "NoOptionError"
    ("No option '" ++ option ++ "' in section: '" ++ section ++ "'").

Definition is_config_lookup_error (e : exn) : bool :=
  PyStr.mem (exc_class e) ["NoSectionError"; "NoOptionError"].

Fixpoint assoc {V} (k : string) (l : list (string * V)) : option V :=
  match l with
  | [] => None
  | (k', v) :: l' => if String.eqb k k' then Some v else assoc k l'
  end.

(** [config.get(section, option)]: the section must exist (unless it is the
    default section); the option is looked up, through [optionxform], in
    the section and then in the defaults; the value is interpolated. *)
Definition config_get
    (sections : list (string * list (string * Read string)))
    (defaults : list (string * Read string))
    (section option : string) : Read string :=
  match assoc section sections with
  | None =>
      if String.eqb section "DEFAULT" then
        match assoc (PyStr.lower option) defaults with
        | Some v => v
        | None => ReadFails (NoOptionError (PyStr.lower option) section)
        end
      else ReadFails (NoSectionError section)
  | Some sectiondict =>
      match assoc (PyStr.lower option) sectiondict with
      | Some v => v
      | None =>
          match assoc (PyStr.lower option) defaults with
          | Some v => v
          | None => ReadFails (NoOptionError (PyStr.lower option) section)
          end
      end
  end.

(** The [try] block of [get_s3_client]: [config.read] and the two
    [config.get]. *)
Definition read_credentials (cfg : ConfigFile) : M (string * string) :=
  match cfg with
  | Unparsable e => raise e
  | _ =>
      (* [config.read] skips a file it cannot open: the parser stays empty *)
      let (sections, defaults) :=
        match cfg with
        | Ini sections defaults => (sections, defaults)
        | _ => ([], [])
        end in
      aws_access_key_id <- of_read
        (config_get sections defaults "AWS" "AWS_ACCESS_KEY_ID") ;;
      aws_secret_access_key <- of_read
        (config_get sections defaults "AWS" "AWS_SECRET_ACCESS_KEY") ;;
      ret (aws_access_key_id, aws_secret_access_key)
  end.

Definition config_exists (cfg : ConfigFile) : bool :=
  match cfg with
  | NoConfigFile => false
  | _ => true
  end.

Definition get_s3_client : M S3Client :=
  env <- ask ;;
  if negb (config_exists (config_file env)) then
    logger_error ("Configuration file '" ++ CONFIG_FILE ++ "' not found in "
                  ++ path_str (script_dir env) ++ ".") None false ;;
    sys_exit 1
  else
    creds <- try_except (read_credentials (config_file env))
      (fun e =>
         if is_config_lookup_error e then
           logger_error ("Error reading '" ++ CONFIG_FILE ++ "': "
             ++ exc_message e
             ++ ". Ensure it has an [AWS] section with AWS_ACCESS_KEY_ID and AWS_SECRET_ACCESS_KEY.")
             None false ;;
           sys_exit 1
         else
           logger_error ("An unexpected error occurred reading '"
             ++ CONFIG_FILE ++ "'") (Some e) false ;;
           sys_exit 1) ;;
    let (aws_access_key_id, aws_secret_access_key) := creds in
    if (String.eqb aws_access_key_id "" || String.eqb aws_secret_access_key "")%bool
    then
      logger_error ("AWS credentials not found or incomplete in '"
        ++ CONFIG_FILE ++ "'. Please check the file.") None false ;;
      sys_exit 1
    else
      logger_info ("Using credentials from '" ++ CONFIG_FILE
        ++ "' for S3 access.") ;;
      let client := mkClient S3_REGION aws_access_key_id aws_secret_access_key in
      emit (Boto3Client client) ;;
      ret client.

(* ================================================================== *)
(** ** The uploader *)

(** The destination key of a file: line 164. *)
Definition file_key (s3_path : string) (path_relative_to_parent : Path) : string :=
  s3_path ++ PyStr.lstrip "/" (PyStr.lstrip "." (as_posix path_relative_to_parent)).

Definition upload_file_to_s3 (s3_client : S3Client) (file_path : Path)
    (s3_path : string) (dry_run : bool) (path_relative_to_parent : Path)
    : M unit :=
  let full_s3_path := file_key s3_path path_relative_to_parent in
  try_except
    (if dry_run then
       logger_info ("Would upload '" ++ path_str file_path ++ "' to '"
                    ++ full_s3_path ++ "'.")
     else
       upload_file_call s3_client S3_BUCKET_NAME full_s3_path file_path ;;
       logger_info ("Uploaded '" ++ path_str file_path ++ "' to 's3://"
                    ++ S3_BUCKET_NAME ++ "/" ++ full_s3_path ++ "'."))
    (fun e =>
       logger_error ("Error uploading '" ++ path_str file_path ++ "'")
         (Some e) true).

(** The destination key of a sheet: lines 179 to 181. *)
Definition sheet_key (s3_path original_filename sheet_name : string) : string :=
  let base_filename := stem_of_name original_filename in
  s3_path ++ base_filename ++ "_" ++ safe_sheet_name sheet_name ++ ".csv".

Definition upload_csv_buffer_to_s3 (s3_client : S3Client) (buffer : string)
    (s3_path original_filename sheet_name : string) (dry_run : bool)
    : M unit :=
  let full_s3_path := sheet_key s3_path original_filename sheet_name in
  try_except
    (if dry_run then
       logger_info ("Would upload sheet '" ++ sheet_name ++ "' from '"
                    ++ original_filename ++ "' to '" ++ full_s3_path ++ "'.")
     else
       upload_fileobj_call s3_client buffer S3_BUCKET_NAME full_s3_path ;;
       logger_info ("Uploaded sheet '" ++ sheet_name ++ "' from '"
                    ++ original_filename ++ "' to 's3://" ++ S3_BUCKET_NAME
                    ++ "/" ++ full_s3_path ++ "'."))
    (fun e =>
       logger_error ("Error uploading sheet '" ++ sheet_name ++ "' from '"
                     ++ original_filename ++ "'") (Some e) true).

(* ================================================================== *)
(** ** The workbook expander *)

Definition dquote : ascii := Ascii.ascii_of_nat 34.

Fixpoint has_char (p : ascii -> bool) (s : string) : bool :=
  match s with
  | EmptyString => false
  | String c r => p c || has_char p r
  end.

Fixpoint double_quotes (s : string) : string :=
  match s with
  | EmptyString => EmptyString
  | String c r =>
      if Ascii.eqb c dquote then String c (String c (double_quotes r))
      else String c (double_quotes r)
  end.

(** The CSV writer as pandas sets it up: the comma as delimiter, the double
    quote as quote character, [doublequote], no escape character,
    [QUOTE_MINIMAL], line terminator [eol].  A character makes the writer quote its field when it
    is the delimiter, the quote character or a character of the line
    terminator; with [newlines] set, also when it is a carriage return or a
    line feed. *)
Definition csv_special (eol : string) (newlines : bool) (c : ascii) : bool :=
  (Ascii.eqb c "," || Ascii.eqb c dquote || has_char (Ascii.eqb c) eol
   || (newlines && (Ascii.eqb c "010" || Ascii.eqb c "013")))%char.

Definition csv_field (eol : string) (newlines : bool) (s : string) : string :=
  if has_char (csv_special eol newlines) s
  then String dquote (double_quotes s ++ String dquote EmptyString)
  else s.

(** One record: the fields joined by the delimiter, then the line
    terminator.  A record that would come out empty, which is that of one
    empty field, is written as a quoted empty field. *)
Definition csv_line (eol : string) (newlines : bool) (fields : list string)
    : string :=
  match fields with
  | [EmptyString] => String dquote (String dquote EmptyString)
  | _ => PyStr.join "," (map (csv_field eol newlines) fields)
  end ++ eol.

(** The label of row [i] when the index column is written. *)
Fixpoint with_index (i : nat) (rs : list (list string)) : list (list string) :=
  match rs with
  | [] => []
  | r :: rs' => (PyStr.of_nat i :: r) :: with_index (S i) rs'
  end.

(** [df.to_csv(index=..., header=...)] returning the text: pandas hands
    the labels, then each row, to the writer. *)
Definition to_csv (eol : string) (newlines : bool) (index header : bool)
    (df : DataFrame) : string :=
  let head := if index then EmptyString :: columns df else columns df in
  let body := if index then with_index 0 (rows df) else rows df in
  String.concat ""
    (map (csv_line eol newlines) (if header then head :: body else body)).

(** [df.to_csv(index=False)] in a world. *)
Definition csv_text (env : Env) (df : DataFrame) : string :=
  to_csv (linesep env) (csv_quotes_newlines (library env)) false true df.

(** A file the script has in hand: where it is and what pandas reads. *)
Record LocalFile : Type := mkLocalFile {
  file_path : Path;
  workbook : Workbook
}.

(** The body of the loop over the sheets: lines 215 to 239. *)
Definition process_sheet (s3_client : S3Client) (file : LocalFile)
    (s3_path : string) (dry_run : bool) (sheet : Sheet) : M unit :=
  let sheet_name := sheet_title sheet in
  try_except
    (df <- of_read (sheet_read sheet) ;;
     if empty df then
       logger_warning ("Sheet '" ++ sheet_name ++ "' in '"
         ++ path_str (file_path file) ++ "' is empty. Skipping.")
     else
       env <- ask ;;
       let csv_str := csv_text env df in
       let csv_buffer := csv_str in
       upload_csv_buffer_to_s3 s3_client csv_buffer s3_path
         (name (file_path file)) sheet_name dry_run)
    (fun e =>
       logger_error ("Error processing sheet '" ++ sheet_name ++ "' in '"
         ++ path_str (file_path file) ++ "'") (Some e) false).

Definition process_excel_file (s3_client : S3Client) (file : LocalFile)
    (s3_path : string) (dry_run : bool) : M unit :=
  try_except
    (logger_info ("Processing Excel file '" ++ path_str (file_path file)
       ++ "' and uploading individual sheets.") ;;
     xl <- of_read (workbook file) ;;
     let sheet_names := map sheet_title xl in
     match sheet_names with
     | [] =>
         logger_warning ("No sheets found in '" ++ path_str (file_path file)
                         ++ "'.")
     | _ =>
         logger_info ("Found " ++ PyStr.of_nat (List.length sheet_names)
           ++ " sheets: " ++ PyStr.join ", " sheet_names) ;;
         for_each xl (process_sheet s3_client file s3_path dry_run)
     end)
    (fun e =>
       logger_error ("Error processing Excel file '"
         ++ path_str (file_path file) ++ "'") (Some e) true).

(* ================================================================== *)
(** ** The worker pool *)

Definition ValueError (msg : string) : exn := Exn "ValueError" msg.

(** One task of the pool: its exception, if any, is kept for the caller. *)
Definition run_task (task : M unit) : M (option exn) :=
  try_except (task ;; ret None) (fun e => ret (Some e)).

(** The tasks of a [starmap].  They share nothing but the client, and
    [starmap] returns when all are done: the pool is modelled by running
    the tasks in the order of submission.  The first exception of a task
    is raised again in the caller once every task has run. *)
Fixpoint pool_run (tasks : list (M unit)) : M (option exn) :=
  match tasks with
  | [] => ret None
  | t :: ts =>
      r <- run_task t ;;
      rs <- pool_run ts ;;
      ret (match r with Some e => Some e | None => rs end)
  end.

Definition starmap {A} (f : A -> M unit) (args : list A) : M unit :=
  r <- pool_run (map f args) ;;
  match r with
  | Some e => raise e
  | None => ret tt
  end.

(** [with mpp.ThreadPool(processes) as pool: body]: the constructor
    refuses a size below one. *)
Definition with_ThreadPool (processes : Z) (body : M unit) : M unit :=
  if (processes <? 1)%Z then
    raise (ValueError "Number of processes must be at least 1")
  else body.

Fixpoint map_m {A B} (f : A -> M B) (xs : list A) : M (list B) :=
  match xs with
  | [] => ret []
  | x :: xs' => y <- f x ;; ys <- map_m f xs' ;; ret (y :: ys)
  end.

(** The [ValueError] of [p.relative_to(base)]. *)
Definition NotInSubpath (env : Env) (p base : Path) : exn :=
  ValueError (not_in_subpath (library env) p base).

(** [p.relative_to(base)] as a computation. *)
Definition relative_to_m (p base : Path) : M Path :=
  match relative_to p base with
  | Some rel => ret rel
  | None => env <- ask ;; raise (NotInSubpath env p base)
  end.

(* ================================================================== *)
(** ** Enumerating a directory *)

(** [path.glob("**/*")]: for the directory and then each directory below it,
    in turn, the entries of that directory; paths are relative to the root. *)
Fixpoint glob_all (here : list string) (e : Entry) : list (list string * Entry) :=
  match e with
  | EFile _ => []
  | EDir children =>
      (map (fun c => ((here ++ [fst c])%list, snd c)) children
       ++ flat_map (fun c => glob_all (here ++ [fst c])%list (snd c)) children)%list
  end.

(** What pandas is given when it opens an entry. *)
Definition pandas_view (e : Entry) : Workbook :=
  match e with
  | EFile wb => wb
  | EDir _ => ReadFails (Exn "OSError" "not a regular file")
  end.

(** [[f for f in path.glob("**/*") if f.is_file()]]. *)
Definition list_files (path : Path) (target : Entry) : list LocalFile :=
  flat_map (fun pe =>
              match snd pe with
              | EFile wb => [mkLocalFile (joinpath path (fst pe)) wb]
              | EDir _ => []
              end)
    (glob_all [] target).

(* ================================================================== *)
(** ** The commands *)

Record Mapping : Type := mkMapping {
  mapping_file_path : Path;
  mapping_dataset : string;
  mapping_description : string
}.

Definition dashboard_dir : list string :=
  ["Users"; "research";
   "OneDrive - Atlanta Convention & Visitors Bureau";
   "Marketing Dashboard Data"; "Documents - ACVB Research"].

Definition windows (ps : list string) : Path := mkPath "C:\" ps "\".

Definition file_mappings : list Mapping :=
  [ mkMapping
      (windows (dashboard_dir ++ ["Discover Atlanta KPI Dashboard.xlsx"])%list)
      "winistry" "Discover Atlanta KPI Dashboard";
    mkMapping
      (windows (dashboard_dir ++ ["Discover Atlanta - Monthly Data Report.xlsx"])%list)
      "sparkloft" "Discover Atlanta Monthly Data Report" ].

(** The end of the body of the loop of [upload_dashboard], once the file is
    known to exist and its prefix is built: lines 286 to 292. *)
Definition upload_mapping_file (s3_client : S3Client) (dry_run : bool)
    (mapping : Mapping) (entry : Entry) (s3_path : string) : M unit :=
  let file_path := mapping_file_path mapping in
  let dataset := mapping_dataset mapping in
  if is_excel_file file_path then
    logger_info ("Processing Excel file '" ++ path_str file_path
                 ++ "' for '" ++ dataset ++ "' dataset.") ;;
    process_excel_file s3_client
      (mkLocalFile file_path (pandas_view entry)) s3_path dry_run
  else
    logger_info ("Uploading file '" ++ path_str file_path ++ "' for '"
                 ++ dataset ++ "' dataset.") ;;
    rel <- relative_to_m file_path (parent file_path) ;;
    upload_file_to_s3 s3_client file_path s3_path dry_run rel.

(** The body of the loop of [upload_dashboard]: lines 272 to 292. *)
Definition upload_mapping (s3_client : S3Client) (dry_run : bool)
    (mapping : Mapping) : M unit :=
  let file_path := mapping_file_path mapping in
  let dataset := mapping_dataset mapping in
  let description := mapping_description mapping in
  logger_info ("Processing " ++ description ++ " for " ++ dataset
               ++ " dataset...") ;;
  env <- ask ;;
  match disk env file_path with
  | None => logger_error ("File not found: " ++ path_str file_path) None false
  | Some entry =>
      now <- datetime_now ;;
      let s3_path := s3_path_for dataset now in
      upload_mapping_file s3_client dry_run mapping entry s3_path
  end.

Definition upload_dashboard (processes : Z) (dry_run : bool) : M unit :=
  s3_client <- get_s3_client ;;
  logger_info "Starting predefined dashboard file uploads..." ;;
  for_each file_mappings (upload_mapping s3_client dry_run) ;;
  logger_info "Dashboard file uploads completed.".

(** The directory branch of [upload]: lines 331 to 350.  The arguments of
    the tasks are built, file by file, inside the [with] block and before
    [starmap] is called. *)
Definition upload_directory (s3_client : S3Client) (dataset : Dataset)
    (path : Path) (target : Entry) (s3_path : string)
    (processes : Z) (dry_run : bool) : M unit :=
  env <- ask ;;
  let files := list_files path target in
  logger_info ("Uploading " ++ PyStr.of_nat (List.length files)
    ++ " files from '" ++ path_str (resolve env path) ++ "' for '"
    ++ value dataset ++ "'.") ;;
  let excel_files := filter (fun f => is_excel_file (file_path f)) files in
  let regular_files :=
    filter (fun f => negb (is_excel_file (file_path f))) files in
  logger_info ("Found " ++ PyStr.of_nat (List.length excel_files)
    ++ " Excel files and " ++ PyStr.of_nat (List.length regular_files)
    ++ " regular files.") ;;
  for_each excel_files
    (fun excel_file =>
       process_excel_file s3_client
         (mkLocalFile (resolve env (file_path excel_file)) (workbook excel_file))
         s3_path dry_run) ;;
  match regular_files with
  | [] => ret tt
  | _ =>
      with_ThreadPool processes
        (args <- map_m
           (fun file =>
              rel <- relative_to_m (resolve env (file_path file))
                       (resolve env path) ;;
              ret (resolve env (file_path file), rel))
           regular_files ;;
         starmap
           (fun a => upload_file_to_s3 s3_client (fst a) s3_path dry_run (snd a))
           args)
  end.

(** The single-file branch of [upload]: lines 352 to 357. *)
Definition upload_single (s3_client : S3Client) (dataset : Dataset)
    (path : Path) (target : Entry) (s3_path : string) (dry_run : bool)
    : M unit :=
  env <- ask ;;
  if is_excel_file path then
    logger_info ("Processing Excel file '" ++ path_str (resolve env path)
                 ++ "' for '" ++ value dataset ++ "'.") ;;
    process_excel_file s3_client
      (mkLocalFile (resolve env path) (pandas_view target)) s3_path dry_run
  else
    logger_info ("Uploading file '" ++ path_str (resolve env path) ++ "' for '"
                 ++ value dataset ++ "'.") ;;
    rel <- relative_to_m (resolve env path) (resolve env (parent path)) ;;
    upload_file_to_s3 s3_client (resolve env path) s3_path dry_run rel.

(** [upload].  [click.Path(exists=True)] rejects a path that designates
    nothing before the body runs (a usage error, status 2). *)
Definition upload (dataset : Dataset) (path : Path) (processes : Z)
    (dry_run : bool) : M unit :=
  env <- ask ;;
  match disk env path with
  | None => sys_exit 2
  | Some target =>
      s3_client <- get_s3_client ;;
      now <- datetime_now ;;
      let s3_path := s3_path_for (value dataset) now in
      match target with
      | EDir _ =>
          upload_directory s3_client dataset path target s3_path processes dry_run
      | EFile _ => upload_single s3_client dataset path target s3_path dry_run
      end
  end.

(** Running a command from the start of the process. *)
Definition run {A} (m : M A) (env : Env) : Run A := m env (mkCounters 0 0).

(* ================================================================== *)
(** ** Vocabulary of the properties *)

(** An upload the script intends: a file under a key, or the CSV of one
    sheet under a key. *)
Inductive Target : Type :=
| FileTarget (file : Path) (key : string)
| SheetTarget (buffer original_filename sheet_name key : string).

Definition target_key (t : Target) : string :=
  match t with
  | FileTarget _ key => key
  | SheetTarget _ _ _ key => key
  end.

(** The call of the store for a target. *)
Definition put_of (t : Target) : Event :=
  match t with
  | FileTarget file key => UploadFile S3_BUCKET_NAME key file
  | SheetTarget buffer _ _ key => UploadFileobj buffer S3_BUCKET_NAME key
  end.

(** The line a dry run logs for a target. *)
Definition would_message (t : Target) : string :=
  match t with
  | FileTarget file key =>
      "Would upload '" ++ path_str file ++ "' to '" ++ key ++ "'."
  | SheetTarget _ original_filename sheet_name key =>
      "Would upload sheet '" ++ sheet_name ++ "' from '" ++ original_filename
        ++ "' to '" ++ key ++ "'."
  end.

Definition would_of (t : Target) : Event :=
  Log (mkLog INFO (would_message t) None false).

Definition act (dry_run : bool) (t : Target) : Event :=
  if dry_run then would_of t else put_of t.

(** Calls of the store among the events. *)
Definition is_put (ev : Event) : bool :=
  match ev with
  | UploadFile _ _ _ | UploadFileobj _ _ _ => true
  | _ => false
  end.

(** Lines of a dry run that stand for an upload. *)
Definition is_info (r : LogRecord) : bool :=
  match levelname r with
  | INFO => true
  | _ => false
  end.

Definition is_would (ev : Event) : bool :=
  match ev with
  | Log r => is_info r && String.prefix "Would upload " (message r)
  | _ => false
  end.

Definition is_action (ev : Event) : bool := is_put ev || is_would ev.

(** Uploads of plain files and uploads of sheets, real or announced. *)
Definition is_file_action (ev : Event) : bool :=
  match ev with
  | UploadFile _ _ _ => true
  | Log r => is_info r && String.prefix "Would upload '" (message r)
  | _ => false
  end.


Definition is_client (ev : Event) : bool :=
  match ev with
  | Boto3Client _ => true
  | _ => false
  end.


Definition actions {A} (r : Run A) : list Event := filter is_action (events r).

(** The targets of one sheet, of one workbook, of one plain file. *)
Definition sheet_targets (env : Env) (s3_path : string) (file : LocalFile)
    (sheet : Sheet) : list Target :=
  match sheet_read sheet with
  | ReadOk df =>
      if empty df then []
      else [SheetTarget (csv_text env df) (name (file_path file))
              (sheet_title sheet)
              (sheet_key s3_path (name (file_path file)) (sheet_title sheet))]
  | ReadFails _ => []
  end.

Definition excel_targets (env : Env) (s3_path : string) (file : LocalFile)
    : list Target :=
  match workbook file with
  | ReadOk xl => flat_map (sheet_targets env s3_path file) xl
  | ReadFails _ => []
  end.

Definition file_target (s3_path : string) (file rel : Path) : Target :=
  FileTarget file (file_key s3_path rel).

(** A computation that always returns [a], whose uploads (real or
    announced) are [out] whatever the counters, and which leaves the clock
    alone. *)
Definition acts {A} (m : M A) (env : Env) (a : A) (out : list Event) : Prop :=
  forall c,
    ending (m env c) = Returns a
    /\ filter is_action (events (m env c)) = out
    /\ now_calls (counters (m env c)) = now_calls c.

(** The same with any ending [e], for computations that stop early. *)
Definition ends {A} (m : M A) (env : Env) (e : Ending A) (out : list Event) : Prop :=
  forall c,
    ending (m env c) = e
    /\ filter is_action (events (m env c)) = out
    /\ now_calls (counters (m env c)) = now_calls c.

(** Counting over a directory tree, by the name of each file. *)
Definition excel_name (n : string) : bool :=
  PyStr.mem (PyStr.lower (suffix_of_name n)) [".xlsx"; ".xls"].

Definition sum_list (l : list nat) : nat := fold_right Nat.add 0 l.



(** Summing a quantity of the files below an entry, by name and content. *)
Fixpoint tree_sum (g : string -> Workbook -> nat) (n : string) (e : Entry) : nat :=
  match e with
  | EFile wb => g n wb
  | EDir children =>
      sum_list (map (fun c => tree_sum g (fst c) (snd c)) children)
  end.

(** [N]: the files below an entry that are not spreadsheets by name. *)
Definition plain_files : string -> Entry -> nat :=
  tree_sum (fun n _ => if excel_name n then 0 else 1).


(** The regular files below a directory, by relative path. *)
Definition glob_files (target : Entry) : list (list string * Workbook) :=
  flat_map (fun pe =>
              match snd pe with
              | EFile wb => [(fst pe, wb)]
              | EDir _ => []
              end)
    (glob_all [] target).

Definition is_excel_rel (rw : list string * Workbook) : bool :=
  excel_name (last (fst rw) "").

(** The targets of the directory branch of [upload]: the sheets of the
    spreadsheets, each under its resolved path, then the plain files. *)
Definition directory_sheet_targets (env : Env) (s3_path : string) (path : Path)
    (target : Entry) : list Target :=
  flat_map (fun rw => excel_targets env s3_path
                        (mkLocalFile (resolve env (joinpath path (fst rw)))
                           (snd rw)))
    (filter is_excel_rel (glob_files target)).

Definition plain_rels (target : Entry) : list (list string * Workbook) :=
  filter (fun rw => negb (is_excel_rel rw)) (glob_files target).

(** The file resolves to a place below the resolved directory. *)
Definition inside (env : Env) (path : Path) (rw : list string * Workbook)
    : bool :=
  match relative_to (resolve env (joinpath path (fst rw))) (resolve env path) with
  | Some _ => true
  | None => false
  end.

(** The arguments of the tasks of the pool, one per plain file: the
    resolved file and its path relative to the resolved directory; or the
    [ValueError] of the first file that resolves to a place outside it. *)
Fixpoint file_args (env : Env) (path : Path)
    (rels : list (list string * Workbook)) : exn + list (Path * Path) :=
  match rels with
  | [] => inr []
  | rw :: rels' =>
      let file := resolve env (joinpath path (fst rw)) in
      match relative_to file (resolve env path) with
      | None => inl (NotInSubpath env file (resolve env path))
      | Some rel =>
          match file_args env path rels' with
          | inl e => inl e
          | inr args => inr ((file, rel) :: args)
          end
      end
  end.

Definition directory_file_targets (env : Env) (s3_path : string) (path : Path)
    (target : Entry) : list Target :=
  match file_args env path (plain_rels target) with
  | inr args => map (fun a => file_target s3_path (fst a) (snd a)) args
  | inl _ => []
  end.

(** The targets of a single file: [path] decides whether it is a
    spreadsheet, [file] is what is opened or uploaded, and [rel] its path
    relative to its parent when [relative_to] gives one. *)
Definition single_targets (env : Env) (s3_path : string) (path file : Path)
    (rel : option Path) (target : Entry) : list Target :=
  if is_excel_file path then
    excel_targets env s3_path (mkLocalFile file (pandas_view target))
  else
    match rel with
    | Some rel => [file_target s3_path file rel]
    | None => []
    end.

(** The single-file branch of [upload] works on the resolved path. *)
Definition upload_single_targets (env : Env) (s3_path : string) (path : Path)
    (target : Entry) : list Target :=
  single_targets env s3_path path (resolve env path)
    (relative_to (resolve env path) (resolve env (parent path))) target.

(** [upload_dashboard] works on the path as it is written. *)
Definition mapping_file_targets (env : Env) (s3_path : string) (path : Path)
    (target : Entry) : list Target :=
  single_targets env s3_path path path (relative_to path (parent path)) target.

(** How the [try] block of [get_s3_client] ends. *)
Definition credentials_read (cfg : ConfigFile) : Ending (string * string) :=
  match cfg with
  | Unparsable e => Raises e
  | NoConfigFile => Raises (NoSectionError "AWS")
  | Ini sections defaults =>
      match config_get sections defaults "AWS" "AWS_ACCESS_KEY_ID" with
      | ReadFails e => Raises e
      | ReadOk k =>
          match config_get sections defaults "AWS" "AWS_SECRET_ACCESS_KEY" with
          | ReadFails e => Raises e
          | ReadOk s => Returns (k, s)
          end
      end
  end.

(** The credentials [get_s3_client] ends up with, when it does. *)
Definition credentials (cfg : ConfigFile) : option (string * string) :=
  match cfg with
  | Ini sections defaults =>
      match config_get sections defaults "AWS" "AWS_ACCESS_KEY_ID",
            config_get sections defaults "AWS" "AWS_SECRET_ACCESS_KEY" with
      | ReadOk k, ReadOk s =>
          if (String.eqb k "" || String.eqb s "")%bool then None else Some (k, s)
      | _, _ => None
      end
  | _ => None
  end.

(** The targets of one run of [upload]: none when the path designates
    nothing or the credentials are refused; the plain files of a directory
    are reached only when the pool can be built. *)
Definition upload_targets (env : Env) (dataset : Dataset) (path : Path)
    (processes : Z) : list Target :=
  match disk env path, credentials (config_file env) with
  | Some target, Some _ =>
      let s3_path := s3_path_for (value dataset) (clock env 0) in
      match target with
      | EDir _ =>
          (directory_sheet_targets env s3_path path target
           ++ (if (processes <? 1)%Z then []
               else directory_file_targets env s3_path path target))%list
      | EFile _ => upload_single_targets env s3_path path target
      end
  | _, _ => []
  end.

(** How the directory branch ends: the pool is built only when there are
    plain files, and the arguments of its tasks only once it is built. *)
Definition directory_ending (env : Env) (path : Path) (target : Entry)
    (processes : Z) : Ending unit :=
  match plain_rels target with
  | [] => Returns tt
  | _ =>
      if (processes <? 1)%Z then
        Raises (ValueError "Number of processes must be at least 1")
      else
        match file_args env path (plain_rels target) with
        | inl e => Raises e
        | inr _ => Returns tt
        end
  end.

(** How the single-file branch ends. *)
Definition single_ending (env : Env) (path : Path) : Ending unit :=
  if is_excel_file path then Returns tt
  else
    match relative_to (resolve env path) (resolve env (parent path)) with
    | Some _ => Returns tt
    | None =>
        Raises (NotInSubpath env (resolve env path) (resolve env (parent path)))
    end.

(** How one run of [upload] ends. *)
Definition upload_ending (env : Env) (path : Path) (processes : Z) : Ending unit :=
  match disk env path with
  | None => Exits 2
  | Some target =>
      match credentials (config_file env) with
      | None => Exits 1
      | Some _ =>
          match target with
          | EFile _ => single_ending env path
          | EDir _ => directory_ending env path target processes
          end
      end
  end.

(** The targets of the mappings of [upload_dashboard], the clock having
    been read [n] times before. *)
Fixpoint mapping_targets (env : Env) (n : nat) (ms : list Mapping) : list Target :=
  match ms with
  | [] => []
  | m :: ms' =>
      match disk env (mapping_file_path m) with
      | None => mapping_targets env n ms'
      | Some entry =>
          (mapping_file_targets env
             (s3_path_for (mapping_dataset m) (clock env n))
             (mapping_file_path m) entry
           ++ mapping_targets env (S n) ms')%list
      end
  end.

Definition dashboard_targets (env : Env) : list Target :=
  match credentials (config_file env) with
  | Some _ => mapping_targets env 0 file_mappings
  | None => []
  end.

(** The world with other answers of the store. *)
Definition with_put_outcome (env : Env) (o : nat -> option exn) : Env :=
  mkEnv (config_file env) (script_dir env) (disk env) (resolve env) (clock env)
    o (linesep env) (library env).

(** The world with another clock. *)
Definition with_clock (env : Env) (k : nat -> Date) : Env :=
  mkEnv (config_file env) (script_dir env) (disk env) (resolve env) k
    (put_outcome env) (linesep env) (library env).

(** The sum of a quantity over the files found by the enumeration is the
    sum over the tree. *)
Definition files_sum (g : string -> Workbook -> nat)
    (l : list (list string * Entry)) : nat :=
  sum_list (map (fun pe => match snd pe with
                           | EFile wb => g (last (fst pe) "") wb
                           | EDir _ => 0
                           end) l).

(** Every character of [s] is a decimal digit. *)
Definition all_digits (s : string) : bool :=
  negb (has_char (fun c => negb (is_digit c)) s).

(** The sanitization seen character by character. *)
Fixpoint map_chars (f : ascii -> ascii) (s : string) : string :=
  match s with
  | EmptyString => EmptyString
  | String c r => String (f c) (map_chars f r)
  end.

Definition sanitize_char (c : ascii) : ascii :=
  if is_unsafe c then "_"%char else c.

(** The configurations under which no credentials can be had: the file is
    missing; it has no [AWS] section; one of the two options is found
    neither in the section nor in the defaults; one of the two values is
    empty. *)
Definition credential_options : list string :=
  ["AWS_ACCESS_KEY_ID"; "AWS_SECRET_ACCESS_KEY"].

Inductive credentials_unusable : ConfigFile -> Prop :=
| file_missing : credentials_unusable NoConfigFile
| section_missing sections defaults :
    assoc "AWS" sections = None ->
    credentials_unusable (Ini sections defaults)
| field_missing sections defaults sectiondict option :
    In option credential_options ->
    assoc "AWS" sections = Some sectiondict ->
    assoc (PyStr.lower option) sectiondict = None ->
    assoc (PyStr.lower option) defaults = None ->
    credentials_unusable (Ini sections defaults)
| value_empty sections defaults option :
    In option credential_options ->
    config_get sections defaults "AWS" option = ReadOk "" ->
    credentials_unusable (Ini sections defaults).

(** Calls of [upload_file] among the events, and the key of a call. *)
Definition is_upload_file (ev : Event) : bool :=
  match ev with
  | UploadFile _ _ _ => true
  | _ => false
  end.

Definition put_keys (evs : list Event) : list string :=
  flat_map (fun ev => match ev with
                      | UploadFile _ key _ => [key]
                      | UploadFileobj _ _ key => [key]
                      | _ => []
                      end) evs.

Definition begins_with (c : ascii) (s : string) : bool :=
  match s with
  | EmptyString => false
  | String a _ => Ascii.eqb a c
  end.


(* ================================================================== *)
(** ** A small world to run the commands in *)

Module Example.

Definition newline : string := String "010"%char EmptyString.

Definition config : ConfigFile :=
  Ini [("AWS", [("aws_access_key_id", ReadOk "AKIAEXAMPLE");
                ("aws_secret_access_key", ReadOk "secret")])] [].

Definition client : S3Client := mkClient S3_REGION "AKIAEXAMPLE" "secret".

Definition frame : DataFrame :=
  mkDataFrame ["month"; "visits"] [["Jan"; "10"]; ["Feb"; "12"]].

Definition header_only : DataFrame := mkDataFrame ["month"; "visits"] [].

(** [q.xlsx] of the specification: sheet [Jan] with data, sheet
    [Feb 2024] without. *)
Definition q_xlsx : Workbook :=
  ReadOk [mkSheet "Jan" (ReadOk frame);
          mkSheet "Feb 2024" (ReadOk header_only)].

Definition one_sheet : Workbook := ReadOk [mkSheet "KPI 2024" (ReadOk frame)].

Definition not_a_workbook : Workbook :=
  ReadFails (Exn "BadZipFile" "File is not a zip file").

Definition tree : Entry :=
  EDir [("report.txt", EFile not_a_workbook);
        ("q.xlsx", EFile q_xlsx);
        ("archive", EDir [("notes.md", EFile not_a_workbook)])].

Definition hidden_tree : Entry := EDir [(".env", EFile not_a_workbook)].

Definition data : Path := posix ["data"].

Definition may_17 : Date := mkDate 2024 5 17.

Definition prefix : string :=
  "delivery/dataset=winistry/status=staged/delivery-date=2024-05-17/".

(** Python 3.12: line feeds and carriage returns are quoted only as
    characters of the line terminator. *)
Definition python : Library :=
  mkLibrary false
    (fun p base => "'" ++ path_str p ++ "' is not in the subpath of '"
                   ++ path_str base ++ "'").

(** A disk without links, asked about absolute paths. *)
Definition no_links : Path -> Path := fun p => p.

(** A world with usable credentials, [tree] at every path, a clock that
    stands still and a store that accepts every call. *)
Definition env : Env :=
  mkEnv config (posix ["opt"; "delivery"]) (fun _ => Some tree) no_links
    (fun _ => may_17) (fun _ => None) newline python.

(** The same with only a hidden file in the directory. *)
Definition hidden_env : Env :=
  mkEnv config (posix ["opt"; "delivery"]) (fun _ => Some hidden_tree)
    no_links (fun _ => may_17) (fun _ => None) newline python.

(** Both dashboard workbooks are on disk, and midnight passes between
    the first and the second reading of the clock. *)
Definition midnight_env : Env :=
  mkEnv config (posix ["opt"; "delivery"]) (fun _ => Some (EFile one_sheet))
    no_links
    (fun n => match n with
              | O => mkDate 2024 12 31
              | S _ => mkDate 2025 1 1
              end)
    (fun _ => None) newline python.

(** [report.txt] alone is what the path designates. *)
Definition report_env : Env :=
mkEnv config (posix ["opt"; "delivery"]) (fun _ => Some (EFile not_a_workbook))
  no_links (fun _ => may_17) (fun _ => None) newline python.

(** [q.xlsx] alone is what the path designates. *)
Definition q_env : Env :=
mkEnv config (posix ["opt"; "delivery"]) (fun _ => Some (EFile q_xlsx))
  no_links (fun _ => may_17) (fun _ => None) newline python.

(** No [S3.ini] next to the script. *)
Definition no_config_env : Env :=
  mkEnv NoConfigFile (posix ["opt"; "delivery"]) (fun _ => Some tree)
    no_links (fun _ => may_17) (fun _ => None) newline python.

End Example.

(* ================================================================== *)
(** * Further vocabulary *)

(** No character of [s] is [c]. *)
Definition free_of (c : ascii) (s : string) : bool :=
  negb (has_char (fun a => Ascii.eqb a c) s).

(** The CSV text in the words of the specification: the header row, then
    the data rows, each the cells of the row (and no row index before them)
    separated by commas and ended by the line terminator. *)
Definition header_and_rows (eol : string) (df : DataFrame) : string :=
  String.concat ""
    (map (fun cells => PyStr.join "," cells ++ eol) (columns df :: rows df)).

(** A cell that needs no quoting under any version of the writer: it holds
    no comma, double quote, carriage return, line feed or character of the
    line terminator.  A record is plain when its cells are and it is not
    the one empty cell. *)
Definition plain_field (eol : string) (s : string) : bool :=
  negb (has_char (fun c => Ascii.eqb c "," || Ascii.eqb c dquote
                           || Ascii.eqb c "010" || Ascii.eqb c "013"
                           || has_char (Ascii.eqb c) eol)%char s).

Definition plain_record (eol : string) (cells : list string) : bool :=
  forallb (plain_field eol) cells
  && negb match cells with
          | [EmptyString] => true
          | _ => false
          end.

(** A relative path as [glob] gives it for a regular file: at least one
    component, every component a file name (not empty, without a slash). *)
Definition is_file_name (n : string) : bool :=
  negb (String.eqb n "") && free_of "/" n.

Definition is_relative_path (rel : list string) : bool :=
  match rel with
  | [] => false
  | _ => forallb is_file_name rel
  end.

(** The path is not hidden at its top: its first component does not begin
    with a dot. *)
Definition visible (rel : list string) : bool :=
  negb (begins_with "." (hd "" rel)).

(* ================================================================== *)
(** ** The command line: [configure_logging] and [cli] *)

(** [logging] levels as numbers. *)
Definition levelno (l : Level) : nat :=
  match l with
  | DEBUG => 10
  | INFO => 20
  | WARNING => 30
  | ERROR => 40
  end.

Definition level_text (l : Level) : string :=
  match l with
  | DEBUG => "DEBUG"
  | INFO => "INFO"
  | WARNING => "WARNING"
  | ERROR => "ERROR"
  end.

(** A [StreamHandler(sys.stdout)] with its level; the formatter the script
    gives it is [format] below. *)
Record Handler : Type := mkHandler { handler_level : nat }.

(** The logger ["s3_uploads"]: its level ([0] is [NOTSET]) and its
    handlers.  The root logger is left as the library makes it: level
    [WARNING], no handler. *)
Record Logger : Type := mkLogger {
  logger_level : nat;
  handlers : list Handler
}.

(** [logger = logging.getLogger("s3_uploads")], line 110. *)
Definition logger : Logger := mkLogger 0 [].

(** [configure_logging], lines 119 to 125. *)
Definition configure_logging (verbose : bool) (lg : Logger) : Logger :=
  let level := if verbose then levelno DEBUG else levelno INFO in
  mkLogger level (handlers lg ++ [mkHandler level])%list.

(** [logger.isEnabledFor(level)]: against the level of the logger, or of
    the root when the logger has none. *)
Definition effective_level (lg : Logger) : nat :=
  match logger_level lg with
  | O => levelno WARNING
  | n => n
  end.

(** What the formatter cannot take from the record: the time of the record
    and the texts of a traceback and of the stack. *)
Record Rendering : Type := mkRendering {
  asctime : nat -> string;        (* of the n-th record of the run *)
  traceback : exn -> string;
  stack : string
}.

(** [str.ljust(width)]. *)
Fixpoint ljust (width : nat) (s : string) : string :=
  match width, s with
  | O, _ => s
  | S w, EmptyString => String " " (ljust w EmptyString)
  | S w, String c r => String c (ljust w r)
  end.

Fixpoint ends_with_newline (s : string) : bool :=
  match s with
  | EmptyString => false
  | String c EmptyString => Ascii.eqb c "010"
  | String _ r => ends_with_newline r
  end.

(** [if s[-1:] != "\n": s = s + "\n"], then the text. *)
Definition on_new_line (s text : string) : string :=
  (if ends_with_newline s then s else s ++ String "010"%char EmptyString)
  ++ text.

(** [Formatter.format] with ['[%(asctime)s] %(levelname)-8s | %(message)s']:
    the line, then the traceback when the record has an exception (and its
    text is not empty), then the stack when the record asks for it. *)
Definition format (rd : Rendering) (n : nat) (r : LogRecord) : string :=
  let s := "[" ++ asctime rd n ++ "] " ++ ljust 8 (level_text (levelname r))
           ++ " | " ++ message r in
  let s := match exc_info r with
           | Some e =>
               if String.eqb (traceback rd e) "" then s
               else on_new_line s (traceback rd e)
           | None => s
           end in
  if stack_info r then on_new_line s (stack rd) else s.

(** What one record puts on standard output: nothing when the logger is not
    enabled for its level, else one text per handler whose level lets it through. *)
Definition handle (lg : Logger) (rd : Rendering) (n : nat) (r : LogRecord)
    : list string :=
  if (effective_level lg <=? levelno (levelname r))%nat then
    flat_map (fun h => if (handler_level h <=? levelno (levelname r))%nat
                       then [format rd n r] else [])
      (handlers lg)
  else [].

(** Standard output of a run: the records in order, [n] counting them. *)
Fixpoint stdout_from (lg : Logger) (rd : Rendering) (n : nat)
    (evs : list Event) : list string :=
  match evs with
  | [] => []
  | Log r :: evs' => (handle lg rd n r ++ stdout_from lg rd (S n) evs')%list
  | _ :: evs' => stdout_from lg rd n evs'
  end.

(** [cli]: the group callback configures the logger, then the command
    runs; what the user gets is standard output and the exit status. *)
Definition cli {A} (verbose : bool) (command : M A) (env : Env)
    (rd : Rendering) : list string * Z :=
  let lg := configure_logging verbose logger in
  let r := run command env in
  (stdout_from lg rd 0 (events r), exit_status (ending r)).

(* ================================================================== *)
(** ** Invariants of the events *)

Definition is_debug (r : LogRecord) : bool :=
  match levelname r with
  | DEBUG => true
  | _ => false
  end.

(** An event of the work after the client is built: a record above
    [DEBUG], or a call of the store on the bucket of the script. *)
Definition ordinary (ev : Event) : bool :=
  match ev with
  | Log r => negb (is_debug r)
  | UploadFile b _ _ => String.eqb b S3_BUCKET_NAME
  | UploadFileobj _ b _ => String.eqb b S3_BUCKET_NAME
  | Boto3Client _ => false
  end.

(** Every event of the computation, whatever the counters, satisfies [q]. *)
Definition emits {A} (env : Env) (q : Event -> bool) (m : M A) : Prop :=
  forall c, forallb q (events (m env c)) = true.

Definition log_records (evs : list Event) : list LogRecord :=
  flat_map (fun ev => match ev with Log r => [r] | _ => [] end) evs.

(** Every record of the events formatted once, [n] counting them. *)
Fixpoint printed (rd : Rendering) (n : nat) (evs : list Event) : list string :=
  match evs with
  | [] => []
  | Log r :: evs' => format rd n r :: printed rd (S n) evs'
  | _ :: evs' => printed rd n evs'
  end.

(** The events of a whole run: those of the work, and the client. *)
Definition expected (ev : Event) : bool := ordinary ev || is_client ev.

(** A store call goes to the bucket of the script under a key that starts
    with [s3_path]. *)
Definition call_within (s3_path : string) (ev : Event) : Prop :=
  match ev with
  | UploadFile b key _ | UploadFileobj _ b key =>
      b = S3_BUCKET_NAME /\ exists rest, key = s3_path ++ rest
  | _ => True
  end.


(** The exit status of [upload] by case: the command line refuses a path
    that designates nothing; then the credentials; then, for a directory
    with plain files, the pool, and [relative_to] for a plain file that
    resolves to a place outside the directory; for a single plain file,
    [relative_to] when the file does not resolve to a place in what its
    parent resolves to. *)
Definition upload_exit_status (env : Env) (path : Path) (processes : Z) : Z :=
  match disk env path with
  | None => 2
  | Some target =>
      match credentials (config_file env) with
      | None => 1
      | Some _ =>
          match target with
          | EFile _ =>
              if is_excel_file path then 0
              else
                match relative_to (resolve env path)
                        (resolve env (parent path)) with
                | Some _ => 0
                | None => 1
                end
          | EDir _ =>
              match plain_rels target with
              | [] => 0
              | _ =>
                  if (processes <? 1)%Z then 1
                  else if forallb (inside env path) (plain_rels target) then 0
                  else 1
              end
          end
      end
  end%Z.

(** Counting the files below an entry whose name satisfies [p]. *)
Definition count_names (p : string -> bool) : string -> Entry -> nat :=
  tree_sum (fun n _ => if p n then 1 else 0).

(** More small worlds. *)
Module Edge.


(** Both options in [DEFAULT], an [AWS] section without options. *)
Definition defaults_config : ConfigFile :=
Ini [("AWS", [])]
  [("aws_access_key_id", ReadOk "AKIAEXAMPLE");
   ("aws_secret_access_key", ReadOk "secret")].

Definition defaults_env : Env :=
mkEnv defaults_config (posix ["opt"; "delivery"]) (fun _ => None)
  Example.no_links (fun _ => Example.may_17) (fun _ => None) Example.newline Example.python.

(** Both options in [DEFAULT] and no [AWS] section. *)
Definition only_defaults_config : ConfigFile :=
Ini []
  [("aws_access_key_id", ReadOk "AKIAEXAMPLE");
   ("aws_secret_access_key", ReadOk "secret")].

Definition only_defaults_env : Env :=
mkEnv only_defaults_config (posix ["opt"; "delivery"]) (fun _ => None)
  Example.no_links (fun _ => Example.may_17) (fun _ => None) Example.newline Example.python.

(** A workbook whose second sheet cannot be read. *)
Definition broken_sheet : Sheet :=
mkSheet "Feb" (ReadFails (Exn "ValueError" "bad cell")).

Definition q_file : LocalFile :=
mkLocalFile (posix ["data"; "q.xlsx"])
  (ReadOk ([mkSheet "Jan" (ReadOk Example.frame)]
           ++ broken_sheet :: [mkSheet "Mar" (ReadOk Example.frame)])%list).

Definition corrupt_file : LocalFile :=
mkLocalFile (posix ["data"; "q.xlsx"]) Example.not_a_workbook.

(** [/data] holds [report.txt] and [out.txt], a link to [/srv/out.txt]. *)
Definition link_tree : Entry :=
EDir [("report.txt", EFile Example.not_a_workbook);
      ("out.txt", EFile Example.not_a_workbook)].

Definition follow_link (p : Path) : Path :=
if String.eqb (path_str p) "/data/out.txt" then posix ["srv"; "out.txt"] else p.

Definition link_env : Env :=
mkEnv Example.config (posix ["opt"; "delivery"]) (fun _ => Some link_tree)
  follow_link (fun _ => Example.may_17) (fun _ => None) Example.newline
  Example.python.

(** The same link given to the command as a single file. *)
Definition link_file_env : Env :=
mkEnv Example.config (posix ["opt"; "delivery"])
  (fun _ => Some (EFile Example.not_a_workbook))
  follow_link (fun _ => Example.may_17) (fun _ => None) Example.newline
  Example.python.

(** [/data] holds [report.txt] and [alias.txt], a link to it. *)
Definition alias_tree : Entry :=
EDir [("report.txt", EFile Example.not_a_workbook);
      ("alias.txt", EFile Example.not_a_workbook)].

Definition follow_alias (p : Path) : Path :=
if String.eqb (path_str p) "/data/alias.txt" then posix ["data"; "report.txt"]
else p.

Definition alias_env : Env :=
mkEnv Example.config (posix ["opt"; "delivery"]) (fun _ => Some alias_tree)
  follow_alias (fun _ => Example.may_17) (fun _ => None) Example.newline
  Example.python.

End Edge.

(* ================================================================== *)
(** * Properties *)

(** ** The pure functions on small inputs *)

Example suffix_xlsx : suffix (posix ["data"; "Q.Report.XLSX"]) = ".XLSX".
Proof. reflexivity. Qed.
Example stem_xlsx : stem (posix ["data"; "q.xlsx"]) = "q".
Proof. reflexivity. Qed.
Example stem_dotfile : stem (posix [".bashrc"]) = ".bashrc".
Proof. reflexivity. Qed.
Example excel_upper : is_excel_file (posix ["a"; "B.XlSx"]) = true.
Proof. reflexivity. Qed.
Example excel_txt : is_excel_file (posix ["a"; "report.txt"]) = false.
Proof. reflexivity. Qed.
Example fmt_date : s3_path_for (value WINISTRY) (mkDate 2024 5 7)
  = "delivery/dataset=winistry/status=staged/delivery-date=2024-05-07/".
Proof. reflexivity. Qed.
Example sanitize_ex : safe_sheet_name "Feb 2024/a\b" = "Feb_2024_a_b".
Proof. reflexivity. Qed.
Example of_nat_ex : PyStr.of_nat 1203 = "1203".
Proof. reflexivity. Qed.

(** ** The combinators *)

Ltac unfold_m :=
  unfold upload_file_call, upload_fileobj_call, logger_info, logger_warning,
    logger_error, of_read;
  unfold try_except, bind, store_answer, datetime_now, emit, ret, raise,
    sys_exit, ask.

Section Combinators.

Variable env : Env.

Lemma bind_returns {A B} (m : M A) (f : A -> M B) c a :
  ending (m env c) = Returns a ->
  bind m f env c =
    mkRun (events (m env c) ++ events (f a env (counters (m env c))))%list
      (counters (f a env (counters (m env c))))
      (ending (f a env (counters (m env c)))).
Proof. intros E. unfold bind. rewrite E. reflexivity. Qed.

Lemma acts_ret {A} (a : A) : acts (ret a) env a [].
Proof. intros c. cbn. auto. Qed.

Lemma acts_ask : acts ask env env [].
Proof. intros c. cbn. auto. Qed.

Lemma acts_bind {A B} (m : M A) (f : A -> M B) a b o1 o2 :
  acts m env a o1 -> acts (f a) env b o2 ->
  acts (bind m f) env b (o1 ++ o2)%list.
Proof.
  intros Hm Hf c.
  destruct (Hm c) as (E & F & N).
  destruct (Hf (counters (m env c))) as (E' & F' & N').
  rewrite (bind_returns m f c E). cbn.
  rewrite filter_app, F, F', N', N. auto.
Qed.

Lemma acts_bind_silent {A B} (m : M A) (f : A -> M B) a b out :
  acts m env a [] -> acts (f a) env b out -> acts (bind m f) env b out.
Proof. intros Hm Hf. apply (acts_bind _ Hm Hf). Qed.

Lemma acts_try {A} (body : M A) handler a out :
  acts body env a out -> acts (try_except body handler) env a out.
Proof.
  intros Hb c. destruct (Hb c) as (E & F & N).
  unfold try_except. rewrite E. auto.
Qed.

Lemma acts_for_each {A} (body : A -> M unit) (g : A -> list Event) xs :
  (forall x, In x xs -> acts (body x) env tt (g x)) ->
  acts (for_each xs body) env tt (flat_map g xs).
Proof.
  induction xs as [|x xs IH]; intros H; cbn [for_each flat_map].
  - apply acts_ret.
  - apply acts_bind with (a := tt).
    + apply H. now left.
    + apply IH. intros y Hy. apply H. now right.
Qed.

Lemma acts_log lvl msg exc stack :
  String.prefix "Would upload " msg = false ->
  acts (emit (Log (mkLog lvl msg exc stack))) env tt [].
Proof. intros P c. cbn. rewrite P, andb_false_r. auto. Qed.

End Combinators.

(** ** The uploader *)

Lemma upload_file_to_s3_acts env s3_client file s3_path dry_run rel :
  acts (upload_file_to_s3 s3_client file s3_path dry_run rel) env tt
    [act dry_run (file_target s3_path file rel)].
Proof.
  intros c. unfold upload_file_to_s3, file_target.
  destruct dry_run; unfold_m; cbn.
  - auto.
  - destruct (put_outcome env (put_calls c)); cbn; auto.
Qed.

Lemma upload_csv_buffer_to_s3_acts env s3_client buffer s3_path orig sheet dry_run :
  acts (upload_csv_buffer_to_s3 s3_client buffer s3_path orig sheet dry_run)
    env tt
    [act dry_run (SheetTarget buffer orig sheet (sheet_key s3_path orig sheet))].
Proof.
  intros c. unfold upload_csv_buffer_to_s3.
  destruct dry_run; unfold_m; cbn.
  - auto.
  - destruct (put_outcome env (put_calls c)); cbn; auto.
Qed.

(** ** The workbook expander *)

Lemma process_sheet_acts env s3_client file s3_path dry_run sheet :
  acts (process_sheet s3_client file s3_path dry_run sheet) env tt
    (map (act dry_run) (sheet_targets env s3_path file sheet)).
Proof.
  unfold process_sheet, sheet_targets.
  destruct (sheet_read sheet) as [df|e].
  - apply acts_try.
    apply acts_bind_silent with (a := df); [apply acts_ret|].
    destruct (empty df).
    + apply acts_log. reflexivity.
    + apply acts_bind_silent with (a := env); [apply acts_ask|].
      apply upload_csv_buffer_to_s3_acts.
  - intros c. unfold_m. cbn. auto.
Qed.

Lemma map_flat_map {A B C} (f : B -> C) (g : A -> list B) l :
  map f (flat_map g l) = flat_map (fun x => map f (g x)) l.
Proof.
  induction l as [|x l IH]; cbn; [reflexivity|].
  now rewrite map_app, IH.
Qed.

Lemma process_excel_file_acts env s3_client file s3_path dry_run :
  acts (process_excel_file s3_client file s3_path dry_run) env tt
    (map (act dry_run) (excel_targets env s3_path file)).
Proof.
  unfold process_excel_file, excel_targets.
  destruct (workbook file) as [xl|e].
  - apply acts_try.
    apply acts_bind_silent with (a := tt); [apply acts_log; reflexivity|].
    apply acts_bind_silent with (a := xl); [apply acts_ret|].
    destruct xl as [|s xl'].
    + apply acts_log. reflexivity.
    + cbn [map sheet_title].
      apply acts_bind_silent with (a := tt); [apply acts_log; reflexivity|].
      rewrite map_flat_map.
      apply acts_for_each. intros x _. apply process_sheet_acts.
  - intros c. unfold_m. cbn. auto.
Qed.

(** ** Credentials *)

Lemma read_credentials_run cfg env c :
  read_credentials cfg env c = mkRun [] c (credentials_read cfg).
Proof.
  destruct cfg as [|e|sections defaults]; try reflexivity.
  unfold read_credentials, credentials_read. unfold_m.
  destruct (config_get sections defaults "AWS" "AWS_ACCESS_KEY_ID");
    [|reflexivity].
  destruct (config_get sections defaults "AWS" "AWS_SECRET_ACCESS_KEY");
    reflexivity.
Qed.

Lemma get_s3_client_loaded env c k s :
  credentials (config_file env) = Some (k, s) ->
  get_s3_client env c =
    mkRun [Log (mkLog INFO ("Using credentials from '" ++ CONFIG_FILE
                            ++ "' for S3 access.") None false);
           Boto3Client (mkClient S3_REGION k s)]
      c (Returns (mkClient S3_REGION k s)).
Proof.
  unfold credentials, get_s3_client. unfold_m.
  cbn beta iota delta [events counters ending].
  destruct (config_file env) as [|e|sections defaults]; try discriminate.
  cbn beta iota delta [config_exists negb].
  rewrite !read_credentials_run. cbn beta iota delta [events counters ending].
  unfold credentials_read.
  destruct (config_get sections defaults "AWS" "AWS_ACCESS_KEY_ID") as [k'|];
    try discriminate.
  destruct (config_get sections defaults "AWS" "AWS_SECRET_ACCESS_KEY") as [s'|];
    try discriminate.
  destruct (String.eqb k' "" || String.eqb s' "")%bool eqn:Hempty;
    try discriminate.
  intros [= <- <-]. cbn. rewrite Hempty. reflexivity.
Qed.

Ltac names_config_file pre :=
  eexists _, _; split; [reflexivity | exists pre; eexists; reflexivity].

Lemma get_s3_client_refuses env c :
  credentials (config_file env) = None ->
  exists msg exc,
    get_s3_client env c = mkRun [Log (mkLog ERROR msg exc false)] c (Exits 1)
    /\ PyStr.occurs CONFIG_FILE msg.
Proof.
  unfold credentials, get_s3_client. unfold_m.
  cbn beta iota delta [events counters ending].
  destruct (config_file env) as [|e|sections defaults];
    cbn beta iota delta [config_exists negb];
    rewrite ?read_credentials_run;
    cbn beta iota delta [events counters ending].
  - intros _. cbn. names_config_file "Configuration file '".
  - intros _. cbn -[is_config_lookup_error].
    destruct (is_config_lookup_error e); cbn.
    + names_config_file "Error reading '".
    + names_config_file "An unexpected error occurred reading '".
  - unfold credentials_read.
    destruct (config_get sections defaults "AWS" "AWS_ACCESS_KEY_ID") as [k|e].
    + destruct (config_get sections defaults "AWS" "AWS_SECRET_ACCESS_KEY")
        as [s|e].
      * cbn. destruct (String.eqb k "" || String.eqb s "")%bool;
          [|discriminate].
        intros _. cbn.
        names_config_file "AWS credentials not found or incomplete in '".
      * intros _. cbn -[is_config_lookup_error].
        destruct (is_config_lookup_error e); cbn.
        -- names_config_file "Error reading '".
        -- names_config_file "An unexpected error occurred reading '".
    + intros _. cbn -[is_config_lookup_error].
      destruct (is_config_lookup_error e); cbn.
      * names_config_file "Error reading '".
      * names_config_file "An unexpected error occurred reading '".
Qed.

(** ** Paths and the directory tree *)

Lemma strip_prefix_app base rel :
  strip_prefix base (base ++ rel)%list = Some rel.
Proof.
  induction base as [|b base IH]; cbn; [reflexivity|].
  now rewrite String.eqb_refl.
Qed.

Lemma relative_to_joinpath path rel :
  relative_to (joinpath path rel) path = Some (mkPath "" rel (sep path)).
Proof.
  unfold relative_to, joinpath. cbn.
  now rewrite String.eqb_refl, strip_prefix_app.
Qed.

Lemma relative_to_parent path :
  relative_to path (parent path)
  = Some (mkPath "" (match parts path with [] => [] | _ => [name path] end)
            (sep path)).
Proof.
  unfold relative_to, parent, name. cbn. rewrite String.eqb_refl.
  destruct (parts path) as [|x l] eqn:E; [reflexivity|].
  rewrite (app_removelast_last "" (l := x :: l)) at 2 by discriminate.
  now rewrite strip_prefix_app.
Qed.

Lemma last_snoc (l : list string) x d : last (l ++ [x])%list d = x.
Proof. apply last_last. Qed.

Lemma last_app_nonempty (l rel : list string) d :
  rel <> [] -> last (l ++ rel)%list d = last rel d.
Proof.
  intros H. destruct (exists_last H) as (rel' & x & ->).
  now rewrite app_assoc, !last_last.
Qed.

Lemma is_excel_file_joinpath path rel :
  rel <> [] -> is_excel_file (joinpath path rel) = excel_name (last rel "").
Proof.
  intros H. unfold is_excel_file, excel_name, suffix, name, joinpath. cbn [parts].
  now rewrite last_app_nonempty.
Qed.

Lemma glob_all_nonempty e here rel e' :
  In (rel, e') (glob_all here e) -> rel <> [].
Proof.
  revert here. induction e as [wb|children IH] using Entry_nested_ind;
    intros here; cbn [glob_all]; [tauto|].
  rewrite in_app_iff, in_map_iff, in_flat_map.
  intros [(c & [= <- _] & _)|(c & Hc & Hin)].
  - now destruct here.
  - rewrite Forall_forall in IH. exact (IH c Hc _ Hin).
Qed.

Lemma glob_files_nonempty target rel wb :
  In (rel, wb) (glob_files target) -> rel <> [].
Proof.
  unfold glob_files. rewrite in_flat_map. intros ([rel' e'] & Hin & H).
  cbn in H. destruct e'; cbn in H; [|tauto].
  destruct H as [[= <- <-]|[]]. eapply glob_all_nonempty; eauto.
Qed.

Lemma list_files_glob_files path target :
  list_files path target
  = map (fun rw => mkLocalFile (joinpath path (fst rw)) (snd rw))
      (glob_files target).
Proof.
  unfold list_files, glob_files.
  induction (glob_all [] target) as [|[rel e] l IH]; cbn; [reflexivity|].
  destruct e; cbn; now rewrite IH.
Qed.

Lemma sum_list_app l1 l2 : sum_list (l1 ++ l2) = sum_list l1 + sum_list l2.
Proof. unfold sum_list. induction l1; cbn; lia. Qed.

Lemma files_sum_app g l1 l2 :
  files_sum g (l1 ++ l2) = files_sum g l1 + files_sum g l2.
Proof. unfold files_sum. now rewrite map_app, sum_list_app. Qed.

Lemma files_sum_cons g rel e l :
  files_sum g ((rel, e) :: l)
  = match e with EFile wb => g (last rel "") wb | EDir _ => 0 end
    + files_sum g l.
Proof. reflexivity. Qed.

Lemma sum_list_cons x l : sum_list (x :: l) = x + sum_list l.
Proof. reflexivity. Qed.

Lemma files_sum_glob_all g e here :
  files_sum g (glob_all here e)
  = match e with
    | EFile _ => 0
    | EDir children =>
        sum_list (map (fun c => tree_sum g (fst c) (snd c)) children)
    end.
Proof.
  revert here. induction e as [wb|children IH] using Entry_nested_ind;
    intros here; cbn [glob_all]; [reflexivity|].
  rewrite files_sum_app.
  induction children as [|[n e] cs IHcs]; [reflexivity|].
  inversion IH as [|? ? He Hcs]; subst. specialize (IHcs Hcs).
  cbn [map flat_map fst snd] in *.
  rewrite files_sum_app, files_sum_cons, sum_list_cons, last_snoc.
  rewrite (He (here ++ [n])%list).
  destruct e; cbn [tree_sum]; lia.
Qed.

(** ** The worker pool and the directory branch *)

Lemma acts_run_task env task out :
  acts task env tt out -> acts (run_task task) env None out.
Proof.
  intros H. unfold run_task. apply acts_try.
  rewrite <- (app_nil_r out). apply acts_bind with (a := tt); [exact H|].
  apply acts_ret.
Qed.

Lemma acts_pool_run env {A} (f : A -> M unit) (g : A -> list Event) args :
  (forall a, In a args -> acts (f a) env tt (g a)) ->
  acts (pool_run (map f args)) env None (flat_map g args).
Proof.
  induction args as [|a args IH]; intros H; cbn [map pool_run flat_map].
  - apply acts_ret.
  - apply acts_bind with (a := None).
    + apply acts_run_task, H. now left.
    + rewrite <- (app_nil_r (flat_map g args)).
      apply acts_bind with (a := None).
      * apply IH. intros y Hy. apply H. now right.
      * apply acts_ret.
Qed.

Lemma acts_starmap env {A} (f : A -> M unit) (g : A -> list Event) args :
  (forall a, In a args -> acts (f a) env tt (g a)) ->
  acts (starmap f args) env tt (flat_map g args).
Proof.
  intros H. unfold starmap. rewrite <- (app_nil_r (flat_map g args)).
  apply acts_bind with (a := None); [now apply acts_pool_run|].
  apply acts_ret.
Qed.

Lemma filter_map_comm {A B} (p : B -> bool) (h : A -> B) l :
  filter p (map h l) = map h (filter (fun x => p (h x)) l).
Proof.
  induction l as [|x l IH]; cbn; [reflexivity|].
  destruct (p (h x)); cbn; now rewrite IH.
Qed.

Lemma flat_map_map_inner {A B C} (g : B -> list C) (h : A -> B) l :
  flat_map g (map h l) = flat_map (fun x => g (h x)) l.
Proof. induction l as [|x l IH]; cbn; [reflexivity|]. now rewrite IH. Qed.

Lemma excel_files_of_directory path target :
  filter (fun f => is_excel_file (file_path f)) (list_files path target)
  = map (fun rw => mkLocalFile (joinpath path (fst rw)) (snd rw))
      (filter is_excel_rel (glob_files target)).
Proof.
  rewrite list_files_glob_files, filter_map_comm. f_equal.
  apply filter_ext_in. intros [rel wb] Hin. cbn.
  apply is_excel_file_joinpath. eapply glob_files_nonempty; eauto.
Qed.

Lemma regular_files_of_directory path target :
  filter (fun f => negb (is_excel_file (file_path f))) (list_files path target)
  = map (fun rw => mkLocalFile (joinpath path (fst rw)) (snd rw))
      (filter (fun rw => negb (is_excel_rel rw)) (glob_files target)).
Proof.
  rewrite list_files_glob_files, filter_map_comm. f_equal.
  apply filter_ext_in. intros [rel wb] Hin. cbn. f_equal.
  apply is_excel_file_joinpath. eapply glob_files_nonempty; eauto.
Qed.

Lemma relative_to_m_run env p base c :
  relative_to_m p base env c
  = mkRun [] c match relative_to p base with
               | Some rel => Returns rel
               | None => Raises (NotInSubpath env p base)
               end.
Proof. unfold relative_to_m. destruct (relative_to p base); reflexivity. Qed.

Lemma bind_run env {A B} (m : M A) (f : A -> M B) c r :
  m env c = r ->
  bind m f env c
  = match ending r with
    | Returns a =>
        mkRun (events r ++ events (f a env (counters r)))%list
          (counters (f a env (counters r))) (ending (f a env (counters r)))
    | Raises e => mkRun (events r) (counters r) (Raises e)
    | Exits n => mkRun (events r) (counters r) (Exits n)
    end.
Proof. intros <-. reflexivity. Qed.

(** Building the arguments of the tasks emits nothing and ends as
    [file_args] says. *)
Lemma map_m_file_args env path regular c :
  map_m
    (fun file =>
       rel <- relative_to_m (resolve env (file_path file)) (resolve env path) ;;
       ret (resolve env (file_path file), rel))
    (map (fun rw => mkLocalFile (joinpath path (fst rw)) (snd rw)) regular)
    env c
  = mkRun [] c match file_args env path regular with
               | inl e => Raises e
               | inr args => Returns args
               end.
Proof.
  revert c. induction regular as [|rw regular IH]; intros c; [reflexivity|].
  cbn [map map_m file_args file_path].
  rewrite (bind_run env _ _ c
             (bind_run env _ _ c (relative_to_m_run env _ _ c))).
  cbn [events counters ending].
  destruct (relative_to (resolve env (joinpath path (fst rw))) (resolve env path))
    as [rel|]; [|reflexivity].
  cbn [ret events counters ending app].
  rewrite (bind_run env _ _ c (IH c)). cbn [events counters ending].
  destruct (file_args env path regular); reflexivity.
Qed.

Lemma flat_map_singleton {A B} (f : A -> B) l :
  flat_map (fun x => [f x]) l = map f l.
Proof. induction l as [|x l IH]; cbn; [reflexivity|]. now rewrite IH. Qed.

Lemma acts_ends env {A} (m : M A) a out :
  acts m env a out -> ends m env (Returns a) out.
Proof. intros H c. exact (H c). Qed.

Lemma ends_bind env {A B} (m : M A) (f : A -> M B) a e o1 o2 :
  acts m env a o1 -> ends (f a) env e o2 ->
  ends (bind m f) env e (o1 ++ o2)%list.
Proof.
  intros Hm Hf c.
  destruct (Hm c) as (E & F & N).
  destruct (Hf (counters (m env c))) as (E' & F' & N').
  rewrite (bind_returns env m f c E). cbn.
  rewrite filter_app, F, F', N', N. auto.
Qed.

Lemma ends_bind_silent env {A B} (m : M A) (f : A -> M B) a e out :
  acts m env a [] -> ends (f a) env e out -> ends (bind m f) env e out.
Proof. intros Hm Hf. exact (@ends_bind env _ _ m f a e [] out Hm Hf). Qed.

(** The tasks of the pool, once it is built. *)
Lemma pool_tasks_ends env s3_client path s3_path dry_run regular :
  ends
    (args <- map_m
       (fun file =>
          rel <- relative_to_m (resolve env (file_path file))
                   (resolve env path) ;;
          ret (resolve env (file_path file), rel))
       (map (fun rw => mkLocalFile (joinpath path (fst rw)) (snd rw)) regular) ;;
     starmap
       (fun a => upload_file_to_s3 s3_client (fst a) s3_path dry_run (snd a))
       args)
    env
    match file_args env path regular with
    | inl e => Raises e
    | inr _ => Returns tt
    end
    (map (act dry_run)
       match file_args env path regular with
       | inr args => map (fun a => file_target s3_path (fst a) (snd a)) args
       | inl _ => []
       end).
Proof.
  intros c. rewrite (bind_run env _ _ c (map_m_file_args env path regular c)).
  cbn [events counters ending].
  destruct (file_args env path regular) as [e|args]; [cbn; auto|].
  rewrite map_map.
  rewrite <- (flat_map_singleton
                (fun a => act dry_run (file_target s3_path (fst a) (snd a)))).
  cbn [app].
  apply (@acts_starmap env _
           (fun a => upload_file_to_s3 s3_client (fst a) s3_path dry_run (snd a))
           (fun a => [act dry_run (file_target s3_path (fst a) (snd a))]) args).
  intros a _. apply upload_file_to_s3_acts.
Qed.

(** The directory branch: the spreadsheets are processed; then, when there
    are plain files, the pool is built, the arguments of its tasks are, and
    the tasks run. *)
Lemma upload_directory_ends env s3_client dataset path target s3_path
    processes dry_run :
  ends (upload_directory s3_client dataset path target s3_path processes dry_run)
    env (directory_ending env path target processes)
    (map (act dry_run)
       (directory_sheet_targets env s3_path path target
        ++ (if (processes <? 1)%Z then []
            else directory_file_targets env s3_path path target))).
Proof.
  unfold upload_directory.
  apply ends_bind_silent with (a := env); [apply acts_ask|].
  rewrite excel_files_of_directory, regular_files_of_directory.
  apply ends_bind_silent with (a := tt); [apply acts_log; reflexivity|].
  apply ends_bind_silent with (a := tt); [apply acts_log; reflexivity|].
  rewrite map_app. apply ends_bind with (a := tt).
  - unfold directory_sheet_targets. rewrite map_flat_map.
    rewrite <- (flat_map_map_inner
      (fun f => map (act dry_run)
                  (excel_targets env s3_path
                     (mkLocalFile (resolve env (file_path f)) (workbook f))))
      (fun rw => mkLocalFile (joinpath path (fst rw)) (snd rw))).
    apply acts_for_each. intros f _. apply process_excel_file_acts.
  - unfold directory_ending, directory_file_targets, plain_rels.
    generalize (filter (fun rw => negb (is_excel_rel rw)) (glob_files target)).
    intros regular.
    assert (Hmatch : forall (l : list LocalFile) (x y : M unit),
               l <> [] -> match l with [] => x | _ :: _ => y end = y).
    { intros [|f l] x y H; [now contradiction H | reflexivity]. }
    destruct regular as [|rw regs].
    + cbn [map file_args]. destruct (processes <? 1)%Z; apply acts_ends, acts_ret.
    + rewrite Hmatch by (cbn [map]; discriminate). unfold with_ThreadPool.
      destruct (processes <? 1)%Z.
      * intros c. cbn. auto.
      * apply pool_tasks_ends.
Qed.

(** ** The commands *)

Lemma upload_single_ends env s3_client dataset path target s3_path dry_run :
  ends (upload_single s3_client dataset path target s3_path dry_run) env
    (single_ending env path)
    (map (act dry_run) (upload_single_targets env s3_path path target)).
Proof.
  unfold upload_single, single_ending, upload_single_targets, single_targets.
  apply ends_bind_silent with (a := env); [apply acts_ask|].
  destruct (is_excel_file path).
  - apply ends_bind_silent with (a := tt); [apply acts_log; reflexivity|].
    apply acts_ends, process_excel_file_acts.
  - apply ends_bind_silent with (a := tt); [apply acts_log; reflexivity|].
    intros c. unfold bind. rewrite relative_to_m_run.
    cbn [events counters ending].
    destruct (relative_to (resolve env path) (resolve env (parent path)))
      as [rel|]; [|cbn; auto].
    cbn [app map]. apply upload_file_to_s3_acts.
Qed.

(** The whole of one run of [upload]: how it ends, what it uploads or
    announces, and how often it reads the clock. *)
Ltac drop_prelude :=
  match goal with
  | |- context [filter is_action (?a :: ?b :: nil)] =>
      change (filter is_action (a :: b :: nil)) with (@nil Event)
  end;
  change (filter is_action (@nil Event)) with (@nil Event);
  cbn [app].

Lemma upload_run env dataset path processes dry_run :
  let r := run (upload dataset path processes dry_run) env in
  ending r = upload_ending env path processes
  /\ actions r = map (act dry_run) (upload_targets env dataset path processes)
  /\ now_calls (counters r) <= 1.
Proof.
  unfold run, actions, upload_ending, upload_targets, upload.
  unfold_m. cbn [events counters ending].
  destruct (disk env path) as [target|]; [|cbn; auto].
  destruct (credentials (config_file env)) as [[k s]|] eqn:Hcred.
  - rewrite (get_s3_client_loaded env _ Hcred).
    cbn [events counters ending now_calls put_calls].
    set (s3_path := s3_path_for (value dataset) (clock env 0)).
    set (client := mkClient S3_REGION k s).
    set (c1 := mkCounters 1 0).
    destruct target as [wb|children].
    + destruct (upload_single_ends env client dataset path (EFile wb) s3_path
                  dry_run c1) as (E & F & N).
      rewrite E, N.
      destruct (single_ending env path); cbn [events counters ending];
        rewrite ?filter_app, F; drop_prelude; auto.
    + destruct (upload_directory_ends env client dataset path (EDir children)
                  s3_path processes dry_run c1) as (E & F & N).
      rewrite E, N.
      destruct (directory_ending env path (EDir children) processes);
        cbn [events counters ending];
        rewrite ?filter_app, F; drop_prelude; auto.
  - destruct (get_s3_client_refuses env (mkCounters 0 0) Hcred)
      as (msg & exc & -> & _).
    cbn. auto.
Qed.

Lemma upload_mapping_file_acts env s3_client dry_run mapping entry s3_path :
  acts (upload_mapping_file s3_client dry_run mapping entry s3_path) env tt
    (map (act dry_run)
       (mapping_file_targets env s3_path (mapping_file_path mapping) entry)).
Proof.
  unfold upload_mapping_file, mapping_file_targets, single_targets.
  destruct (is_excel_file (mapping_file_path mapping)).
  - apply acts_bind_silent with (a := tt); [apply acts_log; reflexivity|].
    apply process_excel_file_acts.
  - apply acts_bind_silent with (a := tt); [apply acts_log; reflexivity|].
    rewrite relative_to_parent.
    apply acts_bind_silent
      with (a := mkPath "" (match parts (mapping_file_path mapping) with
                            | [] => []
                            | _ => [name (mapping_file_path mapping)]
                            end) (sep (mapping_file_path mapping))).
    + unfold relative_to_m. rewrite relative_to_parent. apply acts_ret.
    + apply upload_file_to_s3_acts.
Qed.

Lemma upload_mapping_run env s3_client dry_run mapping c :
  let r := upload_mapping s3_client dry_run mapping env c in
  ending r = Returns tt
  /\ filter is_action (events r)
     = map (act dry_run) (mapping_targets env (now_calls c) [mapping])
  /\ now_calls (counters r)
     = match disk env (mapping_file_path mapping) with
       | None => now_calls c
       | Some _ => S (now_calls c)
       end.
Proof.
  unfold upload_mapping. unfold_m. cbn [events counters ending mapping_targets].
  destruct (disk env (mapping_file_path mapping)) as [entry|].
  - cbn [events counters ending now_calls put_calls].
    destruct (upload_mapping_file_acts env s3_client dry_run mapping entry
                (s3_path_for (mapping_dataset mapping) (clock env (now_calls c)))
                (mkCounters (S (now_calls c)) (put_calls c))) as (E & F & N).
    rewrite E, N, !filter_app, F, app_nil_r. cbn. auto.
  - cbn. auto.
Qed.

Lemma for_each_mappings_run env s3_client dry_run ms c :
  let r := for_each ms (upload_mapping s3_client dry_run) env c in
  ending r = Returns tt
  /\ filter is_action (events r)
     = map (act dry_run) (mapping_targets env (now_calls c) ms)
  /\ now_calls (counters r) <= now_calls c + List.length ms.
Proof.
  revert c. induction ms as [|m ms IH]; intros c; cbn [for_each mapping_targets].
  - cbn. auto with arith.
  - destruct (upload_mapping_run env s3_client dry_run m c) as (E & F & N).
    cbn zeta in *. rewrite (bind_returns env _ _ c E).
    cbn [events counters ending].
    destruct (IH (counters (upload_mapping s3_client dry_run m env c)))
      as (E' & F' & N').
    cbn zeta in *. rewrite E', filter_app, F, F'. cbn [mapping_targets] in *.
    rewrite N in *.
    destruct (disk env (mapping_file_path m)); cbn [List.length];
      rewrite ?app_nil_r, ?map_app; repeat split; auto; lia.
Qed.

(** ** The key prefix *)

Lemma digit_code n : nat_of_ascii (PyStr.digit n) = 48 + n mod 10.
Proof.
  unfold PyStr.digit. apply nat_ascii_embedding.
  pose proof (Nat.mod_upper_bound n 10). lia.
Qed.

Lemma digit_is_digit n : is_digit (PyStr.digit n) = true.
Proof.
  unfold is_digit. rewrite digit_code.
  pose proof (Nat.mod_upper_bound n 10).
  apply andb_true_intro. split; apply Nat.leb_le; lia.
Qed.

Lemma digit_value_digit n : digit_value (PyStr.digit n) = n mod 10.
Proof. unfold digit_value. rewrite digit_code. lia. Qed.

Lemma digit_not_slash n : PyStr.digit n <> "/"%char.
Proof.
  intros H. apply (f_equal nat_of_ascii) in H. rewrite digit_code in H.
  cbn in H. lia.
Qed.

Lemma decimal_value_pad4 n : n < 10 * 1000 -> decimal_value (pad4 n) = n.
Proof.
  intros H. unfold decimal_value, pad4. cbn [decimal_value_from].
  rewrite !digit_value_digit.
  change 1000 with (10 * (10 * 10)). change 100 with (10 * 10).
  rewrite <- !Nat.Div0.div_div.
  pose proof (Nat.div_mod_eq n 10) as E1.
  pose proof (Nat.div_mod_eq (n / 10) 10) as E2.
  pose proof (Nat.div_mod_eq (n / 10 / 10) 10) as E3.
  assert (L : n / 10 / 10 / 10 < 10).
  { repeat (apply Nat.Div0.div_lt_upper_bound). cbn. cbn in H. lia. }
  rewrite (Nat.mod_small _ _ L).
  generalize dependent (n / 10 / 10 / 10). intros q3.
  generalize dependent (n / 10 / 10 mod 10). intros r2.
  generalize dependent (n / 10 / 10). intros q2.
  generalize dependent (n / 10 mod 10). intros r1.
  generalize dependent (n / 10). intros q1.
  generalize dependent (n mod 10). intros r0.
  intros. lia.
Qed.

Lemma decimal_value_pad2 n : n < 100 -> decimal_value (pad2 n) = n.
Proof.
  intros H. unfold decimal_value, pad2. cbn [decimal_value_from].
  rewrite !digit_value_digit.
  pose proof (Nat.div_mod_eq n 10) as E1.
  assert (L : n / 10 < 10) by (apply Nat.Div0.div_lt_upper_bound; lia).
  rewrite (Nat.mod_small _ _ L).
  generalize dependent (n / 10). intros q1.
  generalize dependent (n mod 10). intros r0.
  intros. lia.
Qed.

Lemma all_digits_pad4 n : all_digits (pad4 n) = true.
Proof.
  unfold all_digits, pad4. cbn [has_char]. now rewrite !digit_is_digit.
Qed.

Lemma all_digits_pad2 n : all_digits (pad2 n) = true.
Proof.
  unfold all_digits, pad2. cbn [has_char]. now rewrite !digit_is_digit.
Qed.

(** Scanning for "//": a character other than '/' cannot start an
    occurrence, and neither can a '/' followed by such a character. *)
Lemma occursb_skip c s :
  c <> "/"%char ->
  PyStr.occursb "//" (String c s) = PyStr.occursb "//" s.
Proof.
  intros H. cbn [PyStr.occursb String.prefix].
  destruct (ascii_dec "/" c) as [E|_]; [now contradiction H|].
  cbn -[ascii_dec]. reflexivity.
Qed.

Lemma occursb_slash c s :
  c <> "/"%char ->
  PyStr.occursb "//" (String "/" (String c s)) = PyStr.occursb "//" s.
Proof.
  intros H. cbn [PyStr.occursb String.prefix].
  destruct (ascii_dec "/" c) as [E|_]; [now contradiction H|].
  cbn -[ascii_dec]. reflexivity.
Qed.

Lemma occursb_last_slash : PyStr.occursb "//" "/" = false.
Proof. reflexivity. Qed.

Ltac not_a_slash := solve [discriminate | apply digit_not_slash].

Lemma s3_path_for_no_double_slash dataset now :
  PyStr.occursb "//" (s3_path_for (value dataset) now) = false.
Proof.
  unfold s3_path_for, strftime_Ymd, pad4, pad2.
  destruct dataset; cbn [value append];
    repeat first [ rewrite occursb_skip by not_a_slash
                 | rewrite occursb_slash by not_a_slash ];
    reflexivity.
Qed.

(** The whole of one run of [upload_dashboard]. *)
Lemma upload_dashboard_run env processes dry_run :
  let r := run (upload_dashboard processes dry_run) env in
  ending r = match credentials (config_file env) with
             | Some _ => Returns tt
             | None => Exits 1
             end
  /\ actions r = map (act dry_run) (dashboard_targets env)
  /\ now_calls (counters r) <= 2.
Proof.
  unfold run, actions, dashboard_targets, upload_dashboard.
  unfold_m. cbn [events counters ending].
  destruct (credentials (config_file env)) as [[k s]|] eqn:Hcred.
  - rewrite (get_s3_client_loaded env _ Hcred).
    cbn [events counters ending now_calls put_calls].
    destruct (for_each_mappings_run env (mkClient S3_REGION k s) dry_run
                file_mappings (mkCounters 0 0)) as (E & F & N).
    cbn zeta in E, F, N. rewrite E. cbn [events counters ending].
    rewrite !filter_app, F. drop_prelude. rewrite app_nil_r.
    cbn [now_calls List.length file_mappings] in *. auto.
  - destruct (get_s3_client_refuses env (mkCounters 0 0) Hcred)
      as (msg & exc & -> & _).
    cbn. auto.
Qed.

(** When the credentials are refused nothing else happens. *)
Lemma upload_refused env dataset path processes dry_run target :
  disk env path = Some target ->
  credentials (config_file env) = None ->
  exists msg exc,
    run (upload dataset path processes dry_run) env
    = mkRun [Log (mkLog ERROR msg exc false)] (mkCounters 0 0) (Exits 1)
    /\ PyStr.occurs CONFIG_FILE msg.
Proof.
  intros Hdisk Hcred. unfold run, upload. unfold_m.
  cbn [events counters ending]. rewrite Hdisk.
  destruct (get_s3_client_refuses env (mkCounters 0 0) Hcred)
    as (msg & exc & -> & Hocc).
  exists msg, exc. split; [reflexivity | exact Hocc].
Qed.

Lemma upload_dashboard_refused env processes dry_run :
  credentials (config_file env) = None ->
  exists msg exc,
    run (upload_dashboard processes dry_run) env
    = mkRun [Log (mkLog ERROR msg exc false)] (mkCounters 0 0) (Exits 1)
    /\ PyStr.occurs CONFIG_FILE msg.
Proof.
  intros Hcred. unfold run, upload_dashboard. unfold_m.
  cbn [events counters ending].
  destruct (get_s3_client_refuses env (mkCounters 0 0) Hcred)
    as (msg & exc & -> & Hocc).
  exists msg, exc. split; [reflexivity | exact Hocc].
Qed.

(** ** C1: the key prefix *)

(** C1.  For each dataset of the enumeration and each date the clock can
    give, the prefix built by the commands is
    [delivery/dataset=<dataset>/status=staged/delivery-date=<YYYY>-<MM>-<DD>/]
    where the three fields are the zero-padded decimal year, month and day
    of that date; it ends with one slash and contains no double slash. *)
Theorem s3_path_for_format (dataset : Dataset) (now : Date) :
  valid_date now ->
  exists Y M D,
    s3_path_for (value dataset) now
    = "delivery/dataset=" ++ value dataset ++ "/status=staged/delivery-date="
      ++ Y ++ "-" ++ M ++ "-" ++ D ++ "/"
    /\ (String.length Y = 4 /\ String.length M = 2 /\ String.length D = 2)
    /\ (all_digits Y = true /\ all_digits M = true /\ all_digits D = true)
    /\ (decimal_value Y = year now /\ decimal_value M = month now
        /\ decimal_value D = day now)
    /\ PyStr.occursb "//" (s3_path_for (value dataset) now) = false.
Proof.
  intros (Hy & Hm & Hd).
  exists (pad4 (year now)), (pad2 (month now)), (pad2 (day now)).
  split; [destruct dataset; reflexivity|].
  split; [auto|].
  split; [auto using all_digits_pad4, all_digits_pad2|].
  split.
  - repeat split.
    + apply decimal_value_pad4. lia.
    + apply decimal_value_pad2. lia.
    + apply decimal_value_pad2. lia.
  - apply s3_path_for_no_double_slash.
Qed.

Lemma s3_path_for_format_witness :
  exists Y M D,
    s3_path_for (value SPARKLOFT) (mkDate 2024 5 7)
    = "delivery/dataset=" ++ value SPARKLOFT ++ "/status=staged/delivery-date="
      ++ Y ++ "-" ++ M ++ "-" ++ D ++ "/"
    /\ (String.length Y = 4 /\ String.length M = 2 /\ String.length D = 2)
    /\ (all_digits Y = true /\ all_digits M = true /\ all_digits D = true)
    /\ (decimal_value Y = year (mkDate 2024 5 7)
        /\ decimal_value M = month (mkDate 2024 5 7)
        /\ decimal_value D = day (mkDate 2024 5 7))
    /\ PyStr.occursb "//" (s3_path_for (value SPARKLOFT) (mkDate 2024 5 7))
       = false.
Proof.
  apply (@s3_path_for_format SPARKLOFT (mkDate 2024 5 7)).
  unfold valid_date. cbn. lia.
Defined.

(** ** C9: sheet names *)

Lemma safe_sheet_name_map_chars s :
  safe_sheet_name s = map_chars sanitize_char s.
Proof.
  unfold safe_sheet_name. induction s as [|c s IH]; [reflexivity|].
  cbn [PyStr.replace map_chars]. rewrite IH. f_equal.
  unfold sanitize_char, is_unsafe.
  destruct (Ascii.eqb c "/") eqn:E1; [reflexivity|].
  destruct (Ascii.eqb c "\") eqn:E2; [reflexivity|].
  destruct (Ascii.eqb c " ") eqn:E3; reflexivity.
Qed.

Lemma sanitize_char_idempotent c :
  sanitize_char (sanitize_char c) = sanitize_char c.
Proof.
  unfold sanitize_char. destruct (is_unsafe c) eqn:E; [reflexivity|].
  now rewrite E.
Qed.

(** C9.  Sanitizing a sanitized sheet name changes nothing. *)
Theorem safe_sheet_name_idempotent (s : string) :
  safe_sheet_name (safe_sheet_name s) = safe_sheet_name s.
Proof.
  rewrite !safe_sheet_name_map_chars.
  induction s as [|c s IH]; [reflexivity|].
  cbn [map_chars]. now rewrite sanitize_char_idempotent, IH.
Qed.

Example sheet_key_example :
  sheet_key Example.prefix "q.xlsx" "Feb 2024/a"
  = "delivery/dataset=winistry/status=staged/delivery-date=2024-05-17/q_Feb_2024_a.csv".
Proof. reflexivity. Qed.

Example to_csv_example :
  to_csv Example.newline false false true Example.frame
  = "month,visits" ++ Example.newline ++ "Jan,10" ++ Example.newline
    ++ "Feb,12" ++ Example.newline.
Proof. reflexivity. Qed.

Example to_csv_with_index_example :
  to_csv Example.newline false true true Example.frame
  = ",month,visits" ++ Example.newline ++ "0,Jan,10" ++ Example.newline
    ++ "1,Feb,12" ++ Example.newline.
Proof. reflexivity. Qed.

(** A cell with a comma or a double quote is quoted, its quotes doubled; an
    empty cell is written as nothing between its commas. *)
Example to_csv_quoting_example :
  to_csv Example.newline false false true
    (mkDataFrame ["name"; "note"]
       [["Smith, J"; ""]; ["6" ++ String dquote " nail"; "x"]])
  = "name,note" ++ Example.newline
    ++ String dquote "Smith, J" ++ String dquote "," ++ Example.newline
    ++ String dquote "6" ++ String dquote (String dquote " nail")
    ++ String dquote ",x" ++ Example.newline.
Proof. reflexivity. Qed.

(** A frame of one column: an empty cell is written as a quoted empty
    field, the writer leaving no record empty. *)
Example to_csv_one_empty_cell_example :
  to_csv Example.newline false false true
    (mkDataFrame ["a"] [["x"]; [""]; ["z"]])
  = "a" ++ Example.newline ++ "x" ++ Example.newline
    ++ String dquote (String dquote Example.newline)
    ++ "z" ++ Example.newline.
Proof. reflexivity. Qed.

(** A carriage return alone, with the line feed as line terminator: left as
    it is up to Python 3.12, quoted from 3.13 on; with [\r\n] as line
    terminator it is quoted by both. *)
Example to_csv_carriage_return_example :
  let cr := String "013"%char EmptyString in
  let df := mkDataFrame ["a"; "b"] [["x" ++ cr ++ "y"; "z"]] in
  to_csv Example.newline false false true df
  = "a,b" ++ Example.newline ++ "x" ++ cr ++ "y,z" ++ Example.newline
  /\ to_csv Example.newline true false true df
     = "a,b" ++ Example.newline
       ++ String dquote ("x" ++ cr ++ "y") ++ String dquote ",z"
       ++ Example.newline
  /\ to_csv (cr ++ Example.newline) false false true df
     = "a,b" ++ cr ++ Example.newline
       ++ String dquote ("x" ++ cr ++ "y") ++ String dquote ",z"
       ++ cr ++ Example.newline.
Proof. repeat split; reflexivity. Qed.

(** ** C2: how many uploads a directory gives *)




Lemma filter_through {A} (p q : A -> bool) l :
  (forall x, p x = true -> q x = true) ->
  filter p l = filter p (filter q l).
Proof.
  intros H. induction l as [|x l IH]; cbn; [reflexivity|].
  destruct (q x) eqn:Q; cbn.
  - destruct (p x); now rewrite IH.
  - destruct (p x) eqn:P; [|exact IH]. apply H in P. congruence.
Qed.

Lemma length_filter_map {A B} (p : B -> bool) (q : A -> bool) (f : A -> B) l :
  (forall x, p (f x) = q x) ->
  List.length (filter p (map f l)) = List.length (filter q l).
Proof.
  intros H. rewrite filter_map_comm, length_map.
  now rewrite (filter_ext _ _ H).
Qed.




Lemma off_mode_actions (dry_run : bool) ts :
  filter (if dry_run then is_put else is_would) (map (act dry_run) ts) = [].
Proof.
  apply length_zero_iff_nil.
  rewrite (@length_filter_map Target Event
             (if dry_run then is_put else is_would) (fun _ => false)
             (act dry_run) ts).
  - induction ts; auto.
  - now intros []; destruct dry_run.
Qed.




Lemma plain_rels_count target :
  List.length (plain_rels target)
  = files_sum (fun n _ => if excel_name n then 0 else 1) (glob_all [] target).
Proof.
  unfold plain_rels, glob_files.
  induction (glob_all [] target) as [|[rel e] l IH]; [auto|].
  rewrite files_sum_cons. cbn [flat_map fst snd].
  destruct e as [wb|cs]; cbn [app filter]; [|auto].
  change (is_excel_rel (rel, wb)) with (excel_name (last rel "")).
  destruct (excel_name (last rel "")); cbn [negb List.length]; auto.
Qed.




Lemma filter_all {A} (p : A -> bool) l :
  filter (fun x => negb (p x)) l = [] -> filter p l = l.
Proof.
  induction l as [|x l IH]; cbn; [reflexivity|].
  destruct (p x); cbn; [|discriminate]. intros H. now rewrite IH.
Qed.





(** ** C3: the dry run *)

Lemma filter_map_all {A B} (p : B -> bool) (f : A -> B) l :
  (forall x, p (f x) = true) -> filter p (map f l) = map f l.
Proof.
  intros H. induction l as [|x l IH]; cbn; [reflexivity|].
  now rewrite H, IH.
Qed.

Lemma put_is_action ev : is_put ev = true -> is_action ev = true.
Proof. unfold is_action. now intros ->. Qed.

Lemma would_is_action ev : is_would ev = true -> is_action ev = true.
Proof. unfold is_action. intros ->. apply orb_true_r. Qed.

Lemma is_would_would_of t : is_would (would_of t) = true.
Proof. now destruct t. Qed.

Lemma is_put_put_of t : is_put (put_of t) = true.
Proof. now destruct t. Qed.

Lemma append_assoc (s1 s2 s3 : string) : (s1 ++ s2) ++ s3 = s1 ++ (s2 ++ s3).
Proof. induction s1 as [|c s1 IH]; cbn; [reflexivity|]. now rewrite IH. Qed.

Lemma would_message_names_key t : PyStr.occurs (target_key t) (would_message t).
Proof.
  destruct t as [file key|buffer orig sheet key]; cbn [target_key would_message].
  - exists ("Would upload '" ++ path_str file ++ "' to '"), "'.".
    now rewrite !append_assoc.
  - exists ("Would upload sheet '" ++ sheet ++ "' from '" ++ orig ++ "' to '"),
      "'.".
    now rewrite !append_assoc.
Qed.

(** What a run announces when dry and calls when real, from its targets. *)
Lemma announced_and_called {A} (dry real : Run A) targets :
  actions dry = map (act true) targets ->
  actions real = map (act false) targets ->
  filter is_put (events dry) = []
  /\ filter is_would (events dry) = map would_of targets
  /\ filter is_put (events real) = map put_of targets.
Proof.
  unfold actions. intros Hd Hr. repeat split.
  - rewrite (filter_through is_put is_action _ put_is_action), Hd.
    apply (off_mode_actions true).
  - rewrite (filter_through is_would is_action _ would_is_action), Hd.
    apply filter_map_all, is_would_would_of.
  - rewrite (filter_through is_put is_action _ put_is_action), Hr.
    apply filter_map_all, is_put_put_of.
Qed.

(** C3.  In a dry run neither uploader calls the store: it logs one line,
    which holds the key that the real run passes to the store.  Over a whole
    run of either command, a dry run calls nothing, and its announcements
    are, one for one and in order, the calls of the real run, each line
    naming the key of its call. *)
Theorem dry_run_announces_without_calling :
  (forall env s3_client file s3_path rel c,
      upload_file_to_s3 s3_client file s3_path true rel env c
      = mkRun [would_of (FileTarget file (file_key s3_path rel))] c (Returns tt)
      /\ exists outcome,
           events (upload_file_to_s3 s3_client file s3_path false rel env c)
           = [put_of (FileTarget file (file_key s3_path rel)); Log outcome])
  /\ (forall env s3_client buffer s3_path original_filename sheet_name c,
        let t := SheetTarget buffer original_filename sheet_name
                   (sheet_key s3_path original_filename sheet_name) in
        upload_csv_buffer_to_s3 s3_client buffer s3_path original_filename
          sheet_name true env c
        = mkRun [would_of t] c (Returns tt)
        /\ exists outcome,
             events (upload_csv_buffer_to_s3 s3_client buffer s3_path
                       original_filename sheet_name false env c)
             = [put_of t; Log outcome])
  /\ (forall t, PyStr.occurs (target_key t) (would_message t))
  /\ (forall env dataset path processes,
        exists targets,
          let dry := run (upload dataset path processes true) env in
          let real := run (upload dataset path processes false) env in
          filter is_put (events dry) = []
          /\ filter is_would (events dry) = map would_of targets
          /\ filter is_put (events real) = map put_of targets)
  /\ (forall env processes,
        exists targets,
          let dry := run (upload_dashboard processes true) env in
          let real := run (upload_dashboard processes false) env in
          filter is_put (events dry) = []
          /\ filter is_would (events dry) = map would_of targets
          /\ filter is_put (events real) = map put_of targets).
Proof.
  repeat apply conj.
  - intros env s3_client file s3_path rel c. split; [reflexivity|].
    unfold upload_file_to_s3. unfold_m. cbn [events counters ending].
    destruct (put_outcome env (put_calls c)); eexists; reflexivity.
  - intros env s3_client buffer s3_path orig sheet c. split; [reflexivity|].
    unfold upload_csv_buffer_to_s3. unfold_m. cbn [events counters ending].
    destruct (put_outcome env (put_calls c)); eexists; reflexivity.
  - apply would_message_names_key.
  - intros env dataset path processes.
    exists (upload_targets env dataset path processes).
    apply announced_and_called; apply upload_run.
  - intros env processes. exists (dashboard_targets env).
    apply announced_and_called; apply upload_dashboard_run.
Qed.

(** ** C7: a failed upload *)

(** The answers of the store decide neither what a run sets out to upload
    nor how it ends. *)
Lemma file_args_put_outcome env answers path rels :
  file_args (with_put_outcome env answers) path rels = file_args env path rels.
Proof.
  induction rels as [|rw rels IH]; [reflexivity|]. cbn [file_args].
  rewrite IH. reflexivity.
Qed.

Lemma upload_ending_put_outcome env answers path processes :
  upload_ending (with_put_outcome env answers) path processes
  = upload_ending env path processes.
Proof.
  unfold upload_ending, directory_ending.
  cbn [with_put_outcome disk config_file].
  destruct (disk env path) as [[wb|children]|]; try reflexivity.
  now rewrite file_args_put_outcome.
Qed.

Lemma upload_targets_put_outcome env answers dataset path processes :
  upload_targets (with_put_outcome env answers) dataset path processes
  = upload_targets env dataset path processes.
Proof.
  unfold upload_targets, directory_file_targets.
  cbn [with_put_outcome disk config_file clock].
  destruct (disk env path) as [[wb|children]|]; try reflexivity.
  now rewrite file_args_put_outcome.
Qed.

Lemma mapping_targets_put_outcome env answers n ms :
  mapping_targets (with_put_outcome env answers) n ms = mapping_targets env n ms.
Proof.
  revert n. induction ms as [|m ms IH]; intros n; [reflexivity|].
  cbn [mapping_targets with_put_outcome disk clock].
  destruct (disk env (mapping_file_path m)); rewrite ?IH; reflexivity.
Qed.

Lemma dashboard_targets_put_outcome env answers :
  dashboard_targets (with_put_outcome env answers) = dashboard_targets env.
Proof.
  unfold dashboard_targets. cbn [with_put_outcome config_file].
  now rewrite mapping_targets_put_outcome.
Qed.

(** C7.  Whatever the store answers to a call, the uploader returns: when
    the call raises, the exception is logged at error level with its
    traceback and the stack ([exc_info], [stack_info=True]).  Over a whole
    run of either command, answers of the store change neither the way the
    command ends (hence its exit status) nor the calls it goes on to issue;
    [upload_dashboard] exits with status 0 once it has its credentials. *)
Theorem upload_failure_is_logged_and_not_fatal :
  (forall env s3_client file s3_path rel c,
      upload_file_to_s3 s3_client file s3_path false rel env c
      = mkRun
          [UploadFile S3_BUCKET_NAME (file_key s3_path rel) file;
           Log match put_outcome env (put_calls c) with
               | Some e =>
                   mkLog ERROR ("Error uploading '" ++ path_str file ++ "'")
                     (Some e) true
               | None =>
                   mkLog INFO ("Uploaded '" ++ path_str file ++ "' to 's3://"
                               ++ S3_BUCKET_NAME ++ "/"
                               ++ file_key s3_path rel ++ "'.") None false
               end]
          (mkCounters (now_calls c) (S (put_calls c))) (Returns tt))
  /\ (forall env s3_client buffer s3_path original_filename sheet_name c,
        upload_csv_buffer_to_s3 s3_client buffer s3_path original_filename
          sheet_name false env c
        = mkRun
            [UploadFileobj buffer S3_BUCKET_NAME
               (sheet_key s3_path original_filename sheet_name);
             Log match put_outcome env (put_calls c) with
                 | Some e =>
                     mkLog ERROR ("Error uploading sheet '" ++ sheet_name
                                  ++ "' from '" ++ original_filename ++ "'")
                       (Some e) true
                 | None =>
                     mkLog INFO ("Uploaded sheet '" ++ sheet_name ++ "' from '"
                                 ++ original_filename ++ "' to 's3://"
                                 ++ S3_BUCKET_NAME ++ "/"
                                 ++ sheet_key s3_path original_filename sheet_name
                                 ++ "'.") None false
                 end]
            (mkCounters (now_calls c) (S (put_calls c))) (Returns tt))
  /\ (forall env answers dataset path processes dry_run,
        let r := run (upload dataset path processes dry_run) env in
        let r' := run (upload dataset path processes dry_run)
                    (with_put_outcome env answers) in
        ending r' = ending r
        /\ exit_status (ending r') = exit_status (ending r)
        /\ filter is_put (events r') = filter is_put (events r))
  /\ (forall env answers processes dry_run,
        let r := run (upload_dashboard processes dry_run) env in
        let r' := run (upload_dashboard processes dry_run)
                    (with_put_outcome env answers) in
        ending r' = ending r
        /\ exit_status (ending r')
           = match credentials (config_file env) with
             | Some _ => 0%Z
             | None => 1%Z
             end
        /\ filter is_put (events r') = filter is_put (events r)).
Proof.
  repeat apply conj.
  - intros env s3_client file s3_path rel c.
    unfold upload_file_to_s3. unfold_m. cbn [events counters ending].
    destruct (put_outcome env (put_calls c)); reflexivity.
  - intros env s3_client buffer s3_path orig sheet c.
    unfold upload_csv_buffer_to_s3. unfold_m. cbn [events counters ending].
    destruct (put_outcome env (put_calls c)); reflexivity.
  - intros env answers dataset path processes dry_run r r'.
    destruct (upload_run env dataset path processes dry_run) as (E & A & _).
    destruct (upload_run (with_put_outcome env answers) dataset path processes
                dry_run) as (E' & A' & _).
    fold r in E, A. fold r' in E', A'.
    rewrite upload_ending_put_outcome in E'.
    rewrite upload_targets_put_outcome in A'.
    assert (Hend : ending r' = ending r) by (rewrite E, E'; reflexivity).
    repeat split; [exact Hend | now rewrite Hend |].
    rewrite (filter_through is_put is_action (events r') put_is_action).
    rewrite (filter_through is_put is_action (events r) put_is_action).
    unfold actions in A, A'. rewrite A, A'. reflexivity.
  - intros env answers processes dry_run r r'.
    destruct (upload_dashboard_run env processes dry_run) as (E & A & _).
    destruct (upload_dashboard_run (with_put_outcome env answers) processes
                dry_run) as (E' & A' & _).
    fold r in E, A. fold r' in E', A'. cbn [with_put_outcome config_file] in E'.
    rewrite dashboard_targets_put_outcome in A'.
    repeat split.
    + now rewrite E, E'.
    + rewrite E'. now destruct (credentials (config_file env)).
    + rewrite (filter_through is_put is_action (events r') put_is_action).
      rewrite (filter_through is_put is_action (events r) put_is_action).
      unfold actions in A, A'. rewrite A, A'. reflexivity.
Qed.

(** ** C8: credentials that cannot be had *)

Lemma unusable_credentials cfg :
  credentials_unusable cfg -> credentials cfg = None.
Proof.
  intros H. destruct H as [|sections defaults Hsec
                            |sections defaults d option Hin Hsec Hopt Hdef
                            |sections defaults option Hin Hval];
    unfold credentials; [reflexivity| | |].
  - unfold config_get. rewrite Hsec. reflexivity.
  - assert (Hget : config_get sections defaults "AWS" option
                   = ReadFails (NoOptionError (PyStr.lower option) "AWS")).
    { unfold config_get. now rewrite Hsec, Hopt, Hdef. }
    destruct Hin as [<-|[<-|[]]]; rewrite Hget.
    + reflexivity.
    + now destruct (config_get sections defaults "AWS" "AWS_ACCESS_KEY_ID").
  - destruct Hin as [<-|[<-|[]]]; rewrite Hval.
    + now destruct (config_get sections defaults "AWS" "AWS_SECRET_ACCESS_KEY").
    + destruct (config_get sections defaults "AWS" "AWS_ACCESS_KEY_ID") as [k|];
        [|reflexivity].
      cbn. now rewrite orb_true_r.
Qed.

(** C8.  When [S3.ini] is missing, or lacks the [AWS] section or one of the
    two options, or gives one of them an empty value, [get_s3_client] logs
    one error that names the file and leaves with [sys.exit(1)] before any
    client is built; both commands then end with status 1 (a path refused
    by the command line is refused first, with status 2) having logged
    that error and built no client. *)
Theorem unusable_credentials_exit_1 (env : Env) :
  credentials_unusable (config_file env) ->
  (forall c, exists msg exc,
      get_s3_client env c = mkRun [Log (mkLog ERROR msg exc false)] c (Exits 1)
      /\ PyStr.occurs CONFIG_FILE msg)
  /\ (forall dataset path processes dry_run,
        let r := run (upload dataset path processes dry_run) env in
        exit_status (ending r) = match disk env path with
                                 | Some _ => 1%Z
                                 | None => 2%Z
                                 end
        /\ filter is_client (events r) = []
        /\ filter is_put (events r) = [])
  /\ (forall processes dry_run,
        let r := run (upload_dashboard processes dry_run) env in
        exit_status (ending r) = 1%Z
        /\ filter is_client (events r) = []
        /\ filter is_put (events r) = []
        /\ exists msg exc, events r = [Log (mkLog ERROR msg exc false)]
                           /\ PyStr.occurs CONFIG_FILE msg).
Proof.
  intros H. apply unusable_credentials in H. repeat apply conj.
  - intros c. now apply get_s3_client_refuses.
  - intros dataset path processes dry_run r. subst r.
    destruct (disk env path) as [target|] eqn:Hdisk.
    + destruct (@upload_refused env dataset path processes dry_run target
                  Hdisk H)
        as (msg & exc & -> & _).
      cbn. auto.
    + unfold run, upload. unfold_m. cbn [events counters ending].
      rewrite Hdisk. cbn. auto.
  - intros processes dry_run r. subst r.
    destruct (@upload_dashboard_refused env processes dry_run H)
      as (msg & exc & -> & Hocc).
    cbn. repeat split; auto. now exists msg, exc.
Qed.

Lemma unusable_credentials_exit_1_witness :
  exit_status
    (ending (run (upload_dashboard 3 false) Example.no_config_env)) = 1%Z
  /\ filter is_client
       (events (run (upload_dashboard 3 false) Example.no_config_env)) = [].
Proof.
  destruct (@unusable_credentials_exit_1 Example.no_config_env file_missing)
    as (_ & _ & Hdash).
  destruct (Hdash 3%Z false) as (Hexit & Hclient & _).
  split; [exact Hexit | exact Hclient].
Defined.

(** ** C10: the pool size of [upload_dashboard] *)

(** C10.  [upload_dashboard] makes no use of [processes]: two runs that
    differ only in it log the same records, issue the same calls with the
    same keys, read the clock as often and end the same way. *)
Theorem upload_dashboard_ignores_processes
    (processes processes' : Z) (dry_run : bool) (env : Env) :
  run (upload_dashboard processes dry_run) env
  = run (upload_dashboard processes' dry_run) env.
Proof. reflexivity. Qed.

(** ** C4: the key of a plain file *)

Lemma lstrip_other c s : begins_with c s = false -> PyStr.lstrip c s = s.
Proof. destruct s as [|a s]; cbn; [reflexivity|]. now intros ->. Qed.

Lemma file_key_plain s3_path rel sp :
  begins_with "." (PyStr.join "/" rel) = false ->
  begins_with "/" (PyStr.join "/" rel) = false ->
  file_key s3_path (mkPath "" rel sp) = s3_path ++ PyStr.join "/" rel.
Proof.
  intros Hdot Hslash. unfold file_key, as_posix. cbn [anchor parts append].
  now rewrite (lstrip_other _ _ Hdot), (lstrip_other _ _ Hslash).
Qed.






(** C4 (the defect).  [upload_file_to_s3] strips the leading dots of the
    relative path (and then a leading slash), which drops a leading [./]
    and, with it, the dot of a hidden name: [.env] in the directory is
    uploaded under [<prefix>env], not under the prefix followed by its
    relative path.  The uploader of sheets keeps the leading dot of a file
    name, a dot below the top of the path is kept, and [env] beside [.env]
    gets the same key. *)
Theorem hidden_file_loses_its_dot :
  let evs := events (run (upload WINISTRY Example.data 3 false)
                       Example.hidden_env) in
  plain_rels Example.hidden_tree = [([".env"], Example.not_a_workbook)]
  /\ filter is_upload_file evs
     = [UploadFile S3_BUCKET_NAME (Example.prefix ++ "env")
          (posix ["data"; ".env"])]
  /\ Example.prefix ++ "env"
     <> Example.prefix ++ as_posix (relative [".env"])
  /\ sheet_key Example.prefix ".hidden.xlsx" "Jan"
     = Example.prefix ++ ".hidden_Jan.csv"
  /\ file_key Example.prefix (relative ["a"; ".env"])
     = Example.prefix ++ "a/.env"
  /\ file_key Example.prefix (relative ["env"])
     = file_key Example.prefix (relative [".env"]).
Proof.
  split; [reflexivity|]. split; [vm_compute; reflexivity|].
  split; [vm_compute; discriminate|]. repeat split; reflexivity.
Qed.

(** ** C5: how often the clock is read *)

Lemma excel_targets_keys env s3_path file t :
  In t (excel_targets env s3_path file) ->
  exists rest, target_key t = s3_path ++ rest.
Proof.
  unfold excel_targets. destruct (workbook file) as [xl|]; [|contradiction].
  rewrite in_flat_map. intros (sh & _ & Hin). unfold sheet_targets in Hin.
  destruct (sheet_read sh) as [df|]; [|contradiction].
  destruct (empty df); [contradiction|].
  destruct Hin as [<-|[]]. cbn [target_key]. unfold sheet_key.
  eexists. reflexivity.
Qed.

Lemma single_targets_keys env s3_path path file rel target t :
  In t (single_targets env s3_path path file rel target) ->
  exists rest, target_key t = s3_path ++ rest.
Proof.
  unfold single_targets. destruct (is_excel_file path).
  - apply excel_targets_keys.
  - destruct rel as [rel|]; [|contradiction].
    intros [<-|[]]. cbn [target_key file_target]. unfold file_key.
    eexists. reflexivity.
Qed.

(** [upload] reads the clock once, before the first upload, and every key
    of the run starts with the prefix built from that one reading. *)
Lemma upload_reads_clock_once env dataset path processes dry_run :
  now_calls (counters (run (upload dataset path processes dry_run) env)) <= 1
  /\ forall t, In t (upload_targets env dataset path processes) ->
       exists rest,
         target_key t = s3_path_for (value dataset) (clock env 0) ++ rest.
Proof.
  split; [apply upload_run|].
  intros t. unfold upload_targets.
  destruct (disk env path) as [target|]; [|contradiction].
  destruct (credentials (config_file env)); [|contradiction].
  destruct target as [wb|children]; [apply single_targets_keys|].
  rewrite in_app_iff. intros [Hin|Hin].
  - unfold directory_sheet_targets in Hin. apply in_flat_map in Hin.
    destruct Hin as (rw & _ & Hin). eapply excel_targets_keys; eauto.
  - destruct (processes <? 1)%Z; [contradiction|].
    unfold directory_file_targets in Hin.
    destruct (file_args env path (plain_rels (EDir children)));
      [contradiction|].
    apply in_map_iff in Hin.
    destruct Hin as (a & <- & _). cbn [target_key file_target].
    unfold file_key. eexists. reflexivity.
Qed.

(** C5 (the defect).  [upload_dashboard] builds the prefix inside its loop:
    with both workbooks on disk the clock is read twice, and when midnight
    falls between the readings the two objects of the one run carry
    different [delivery-date] segments. *)
Theorem upload_dashboard_reads_clock_per_mapping :
  let r := run (upload_dashboard 3 false) Example.midnight_env in
  now_calls (counters r) = 2
  /\ put_keys (events r)
     = ["delivery/dataset=winistry/status=staged/delivery-date=2024-12-31/Discover Atlanta KPI Dashboard_KPI_2024.csv";
        "delivery/dataset=sparkloft/status=staged/delivery-date=2025-01-01/Discover Atlanta - Monthly Data Report_KPI_2024.csv"]
  /\ ending r = Returns tt.
Proof. vm_compute. auto. Qed.

(** ** The examples of the specification *)

Example report_txt_dry_run :
  filter (fun ev => is_put ev || is_would ev)
    (events (run (upload WINISTRY (posix ["data"; "report.txt"]) 3 true)
               Example.report_env))
  = [Log (mkLog INFO
            "Would upload '/data/report.txt' to 'delivery/dataset=winistry/status=staged/delivery-date=2024-05-17/report.txt'."
            None false)].
Proof. vm_compute. reflexivity. Qed.

Example q_xlsx_one_upload :
  put_keys (events (run (upload WINISTRY (posix ["data"; "q.xlsx"]) 3 false)
                      Example.q_env))
  = ["delivery/dataset=winistry/status=staged/delivery-date=2024-05-17/q_Jan.csv"].
Proof. vm_compute. reflexivity. Qed.

(* ================================================================== *)
(** * Further properties *)

Unset Implicit Arguments.

(** ** File names: stem and suffix *)

Lemma append_nil_r (s : string) : s ++ "" = s.
Proof. induction s as [|c s IH]; cbn; [reflexivity|]. now rewrite IH. Qed.

Lemma length_append (s t : string) :
  String.length (s ++ t) = String.length s + String.length t.
Proof. induction s as [|c s IH]; cbn; [reflexivity|]. now rewrite IH. Qed.

Lemma substring_all (s : string) : String.substring 0 (String.length s) s = s.
Proof. induction s as [|c s IH]; cbn; [reflexivity|]. now rewrite IH. Qed.

Lemma substring_split k (s : string) :
  k <= String.length s ->
  String.substring 0 k s ++ String.substring k (String.length s - k) s = s.
Proof.
  revert k. induction s as [|c s IH]; intros [|k] H.
  - reflexivity.
  - cbn in H. lia.
  - rewrite Nat.sub_0_r. change (String.substring 0 0 (String c s)) with "".
    cbn [append]. apply substring_all.
  - cbn [String.length String.substring Nat.sub append]. f_equal.
    apply IH. cbn in H. lia.
Qed.

Lemma substring_take_app (s t : string) :
  String.substring 0 (String.length s) (s ++ t) = s.
Proof.
  induction s as [|c s IH]; cbn; [now destruct t|]. now rewrite IH.
Qed.

Lemma substring_drop_app (s t : string) :
  String.substring (String.length s) (String.length t) (s ++ t) = t.
Proof.
  induction s as [|c s IH]; cbn [String.length append String.substring].
  - apply substring_all.
  - exact IH.
Qed.

Lemma length_substring_take k (s : string) :
  k <= String.length s -> String.length (String.substring 0 k s) = k.
Proof.
  revert k. induction s as [|c s IH]; intros [|k] H; cbn in *;
    try reflexivity; try lia.
  rewrite IH; lia.
Qed.

(** [rfind] over a concatenation, and where the last occurrence is. *)
Lemma rfind_from_app c (s t : string) i found :
  PyStr.rfind_from c (s ++ t) i found
  = PyStr.rfind_from c t (i + PyStr.len s)%Z (PyStr.rfind_from c s i found).
Proof.
  revert i found. induction s as [|a s IH]; intros i found.
  - cbn. now rewrite Z.add_0_r.
  - cbn [append PyStr.rfind_from]. rewrite IH. f_equal.
    unfold PyStr.len. cbn [String.length]. lia.
Qed.

Lemma rfind_from_free c (s : string) i found :
  free_of c s = true -> PyStr.rfind_from c s i found = found.
Proof.
  unfold free_of. revert i found.
  induction s as [|a s IH]; intros i found H; [reflexivity|].
  cbn in H. apply negb_true_iff, orb_false_iff in H. destruct H as (Ha & Hs).
  cbn [PyStr.rfind_from]. rewrite Ha. apply IH. now rewrite Hs.
Qed.

Lemma rfind_last c (s t : string) :
  free_of c t = true -> PyStr.rfind c (s ++ String c t) = PyStr.len s.
Proof.
  intros H. unfold PyStr.rfind. rewrite rfind_from_app.
  cbn [PyStr.rfind_from]. rewrite Ascii.eqb_refl.
  now rewrite rfind_from_free.
Qed.

Lemma rfind_from_bounds c (s : string) i found :
  (found < i)%Z ->
  (found <= PyStr.rfind_from c s i found < i + PyStr.len s)%Z.
Proof.
  revert i found. induction s as [|a s IH]; intros i found H.
  - cbn. unfold PyStr.len. cbn. lia.
  - cbn [PyStr.rfind_from]. unfold PyStr.len in *. cbn [String.length].
    destruct (Ascii.eqb a c).
    + specialize (IH (i + 1)%Z i). lia.
    + specialize (IH (i + 1)%Z found). lia.
Qed.

Lemma stem_suffix_of_name n : stem_of_name n ++ suffix_of_name n = n.
Proof.
  unfold stem_of_name, suffix_of_name.
  destruct ((0 <? PyStr.rfind "." n) && (PyStr.rfind "." n <? PyStr.len n - 1))%Z
    eqn:E; [|apply append_nil_r].
  apply andb_prop in E. destruct E as (E1 & E2).
  apply Z.ltb_lt in E1, E2. unfold PyStr.take, PyStr.drop, PyStr.len in *.
  apply substring_split. lia.
Qed.

Lemma lower_ascii_dot c : PyStr.lower_ascii c = "."%char -> c = "."%char.
Proof.
  destruct c as [[] [] [] [] [] [] [] []]; vm_compute; congruence.
Qed.

Lemma lower_ascii_not_dot c x :
  PyStr.lower_ascii c = x -> x <> "."%char -> Ascii.eqb c "." = false.
Proof.
  intros <- H. apply Ascii.eqb_neq. intros ->. now apply H.
Qed.

(** An extension that [is_excel_file] accepts is a dot followed by letters. *)
Lemma excel_extension e :
  PyStr.mem (PyStr.lower e) [".xlsx"; ".xls"] = true ->
  exists t, e = String "." t /\ free_of "." t = true /\ t <> "".
Proof.
  unfold PyStr.mem. cbn [existsb]. rewrite orb_false_r.
  intros H. apply orb_prop in H.
  destruct H as [H|H]; apply String.eqb_eq in H.
  - destruct e as [|c0 [|c1 [|c2 [|c3 [|c4 [|]]]]]]; try discriminate.
    cbn in H. injection H as H0 H1 H2 H3 H4.
    apply lower_ascii_dot in H0. subst c0. eexists. split; [reflexivity|].
    split; [|discriminate]. unfold free_of. cbn [has_char].
    rewrite (@lower_ascii_not_dot _ _ H1), (@lower_ascii_not_dot _ _ H2),
      (@lower_ascii_not_dot _ _ H3), (@lower_ascii_not_dot _ _ H4);
      try reflexivity; discriminate.
  - destruct e as [|c0 [|c1 [|c2 [|c3 [|]]]]]; try discriminate.
    cbn in H. injection H as H0 H1 H2 H3.
    apply lower_ascii_dot in H0. subst c0. eexists. split; [reflexivity|].
    split; [|discriminate]. unfold free_of. cbn [has_char].
    rewrite (@lower_ascii_not_dot _ _ H1), (@lower_ascii_not_dot _ _ H2),
      (@lower_ascii_not_dot _ _ H3); try reflexivity; discriminate.
Qed.

Lemma suffix_stem_of_extension (s t : string) :
  s <> "" -> t <> "" -> free_of "." t = true ->
  suffix_of_name (s ++ String "." t) = String "." t
  /\ stem_of_name (s ++ String "." t) = s.
Proof.
  intros Hs Ht Hfree. unfold suffix_of_name, stem_of_name.
  rewrite (@rfind_last "." s t Hfree).
  assert (Ls : 0 < String.length s) by (destruct s; cbn; [congruence|lia]).
  assert (Lt : 0 < String.length t) by (destruct t; cbn; [congruence|lia]).
  assert (C : ((0 <? PyStr.len s)
               && (PyStr.len s <? PyStr.len (s ++ String "." t) - 1))%Z = true).
  { apply andb_true_intro. unfold PyStr.len. rewrite length_append.
    cbn [String.length]. split; apply Z.ltb_lt; lia. }
  rewrite C. unfold PyStr.drop, PyStr.take, PyStr.len. rewrite Nat2Z.id.
  split.
  - rewrite length_append, Nat.add_comm, Nat.add_sub.
    apply substring_drop_app.
  - apply substring_take_app.
Qed.

(** ** C6: the key and the content of a sheet upload *)

Lemma has_char_weaken (p q : ascii -> bool) s :
  (forall c, p c = true -> q c = true) ->
  has_char q s = false -> has_char p s = false.
Proof.
  intros H. induction s as [|c s IH]; [reflexivity|]. cbn [has_char].
  intros Hq. apply orb_false_elim in Hq. destruct Hq as (Hc & Hs).
  rewrite (IH Hs), orb_false_r.
  destruct (p c) eqn:P; [|reflexivity]. apply H in P. congruence.
Qed.

Lemma csv_field_plain eol newlines s :
  plain_field eol s = true -> csv_field eol newlines s = s.
Proof.
  unfold plain_field, csv_field. intros H. apply negb_true_iff in H.
  assert (Himp : forall c,
             csv_special eol newlines c = true ->
             (Ascii.eqb c "," || Ascii.eqb c dquote || Ascii.eqb c "010"
              || Ascii.eqb c "013" || has_char (Ascii.eqb c) eol)%bool = true).
  { intros c. unfold csv_special. intros Hc.
    destruct (Ascii.eqb c ","); [reflexivity|].
    destruct (Ascii.eqb c dquote); [reflexivity|].
    destruct (has_char (Ascii.eqb c) eol); [now rewrite !orb_true_r|].
    cbn [orb] in *. apply andb_prop in Hc. destruct Hc as (_ & Hc).
    now rewrite Hc. }
  now rewrite (has_char_weaken _ _ s Himp H).
Qed.

Lemma csv_line_plain eol newlines cells :
  plain_record eol cells = true ->
  csv_line eol newlines cells = PyStr.join "," cells ++ eol.
Proof.
  unfold plain_record. intros H. apply andb_prop in H. destruct H as (Hf & Hne).
  assert (Hmap : map (csv_field eol newlines) cells = cells).
  { rewrite <- (map_id cells) at 2. apply map_ext_in. intros x Hx.
    apply csv_field_plain. rewrite forallb_forall in Hf. now apply Hf. }
  unfold csv_line.
  destruct cells as [|[|a f] [|g l]]; try discriminate Hne; now rewrite Hmap.
Qed.

(** C6.  A sheet with at least one data row (and so at least one column),
    of a file named by a base name and a spreadsheet extension, is uploaded
    under the key [<prefix><base name>_<sheet name with '/', '\' and ' '
    replaced by '_' and every other character kept>.csv].  The content is
    one record for the column labels followed by one record per data row,
    made of the cells of that row and nothing before them; when no cell
    needs quoting it is, to the letter, the header row and then the data
    rows, cells separated by commas, each row ended by the line
    terminator. *)
Theorem sheet_upload_key_and_content env s3_client file s3_path sheet df
    base ext c :
  sheet_read sheet = ReadOk df -> rows df <> [] -> columns df <> [] ->
  name (file_path file) = base ++ ext -> base <> "" ->
  PyStr.mem (PyStr.lower ext) [".xlsx"; ".xls"] = true ->
  let key := s3_path ++ base ++ "_"
             ++ map_chars sanitize_char (sheet_title sheet) ++ ".csv" in
  let body := csv_text env df in
  (exists log,
     events (process_sheet s3_client file s3_path false sheet env c)
     = [UploadFileobj body S3_BUCKET_NAME key; Log log])
  /\ events (process_sheet s3_client file s3_path true sheet env c)
     = [would_of (SheetTarget body (name (file_path file)) (sheet_title sheet)
                    key)]
  /\ body
     = String.concat ""
         (map (csv_line (linesep env) (csv_quotes_newlines (library env)))
            (columns df :: rows df))
  /\ (forallb (plain_record (linesep env)) (columns df :: rows df) = true ->
      body = header_and_rows (linesep env) df).
Proof.
  intros Hread Hrows Hcols Hname Hbase Hext key body.
  assert (Hempty : empty df = false).
  { unfold empty. destruct (columns df); [contradiction|].
    destruct (rows df); [contradiction|reflexivity]. }
  assert (Hkey : sheet_key s3_path (name (file_path file)) (sheet_title sheet)
                 = key).
  { destruct (excel_extension ext Hext) as (t & -> & Hfree & Ht).
    destruct (suffix_stem_of_extension base t Hbase Ht Hfree) as (_ & Hstem).
    unfold sheet_key, key. now rewrite Hname, Hstem, safe_sheet_name_map_chars. }
  assert (Hbody : body
                  = String.concat ""
                      (map (csv_line (linesep env)
                              (csv_quotes_newlines (library env)))
                         (columns df :: rows df))).
  { reflexivity. }
  split; [|split; [|split]].
  - unfold process_sheet, upload_csv_buffer_to_s3. rewrite Hread, Hkey.
    unfold_m. cbn [events counters ending]. rewrite Hempty.
    cbn [events counters ending app]. fold body.
    destruct (put_outcome env (put_calls c)); cbn [events counters ending app];
      eexists; reflexivity.
  - unfold process_sheet, upload_csv_buffer_to_s3. rewrite Hread, Hkey.
    unfold_m. cbn [events counters ending]. rewrite Hempty. reflexivity.
  - exact Hbody.
  - intros Hplain. rewrite Hbody. unfold header_and_rows. f_equal.
    apply map_ext_in. intros cells Hin. apply csv_line_plain.
    rewrite forallb_forall in Hplain. now apply Hplain.
Qed.

Lemma sheet_upload_key_and_content_witness :
  let file := mkLocalFile (posix ["data"; "q.xlsx"]) Example.q_xlsx in
  let sheet := mkSheet "Feb 2024/a" (ReadOk Example.frame) in
  let key := Example.prefix ++ "q_Feb_2024_a.csv" in
  let body := "month,visits" ++ Example.newline ++ "Jan,10" ++ Example.newline
              ++ "Feb,12" ++ Example.newline in
  (exists log,
     events (process_sheet Example.client file Example.prefix false sheet
               Example.env (mkCounters 1 0))
     = [UploadFileobj body S3_BUCKET_NAME key; Log log])
  /\ events (process_sheet Example.client file Example.prefix true sheet
               Example.env (mkCounters 1 0))
     = [would_of (SheetTarget body "q.xlsx" "Feb 2024/a" key)]
  /\ csv_text Example.env Example.frame
     = header_and_rows Example.newline Example.frame.
Proof.
  destruct (sheet_upload_key_and_content Example.env Example.client
              (mkLocalFile (posix ["data"; "q.xlsx"]) Example.q_xlsx)
              Example.prefix (mkSheet "Feb 2024/a" (ReadOk Example.frame))
              Example.frame "q" ".xlsx" (mkCounters 1 0))
    as (Hreal & Hdry & _ & Hplain).
  - reflexivity.
  - simpl. discriminate.
  - simpl. discriminate.
  - reflexivity.
  - discriminate.
  - reflexivity.
  - split; [exact Hreal|]. split; [exact Hdry|]. apply Hplain. reflexivity.
Defined.

(** X1.  A file that [is_excel_file] accepts has a name made of a stem that
    is not empty followed by its suffix, and the suffix is [.xlsx] or [.xls]
    in some letter case: the base file name of the sheet keys is never
    empty. *)
Theorem excel_file_name_shape (file_path : Path) :
  is_excel_file file_path = true ->
  stem file_path <> ""
  /\ stem file_path ++ suffix file_path = name file_path
  /\ (PyStr.lower (suffix file_path) = ".xlsx"
      \/ PyStr.lower (suffix file_path) = ".xls").
Proof.
  intros H. unfold is_excel_file, PyStr.mem in H. cbn [existsb] in H.
  rewrite orb_false_r in H.
  assert (Hext : PyStr.lower (suffix file_path) = ".xlsx"
                 \/ PyStr.lower (suffix file_path) = ".xls").
  { apply orb_prop in H. destruct H as [H|H]; apply String.eqb_eq in H; auto. }
  split; [|split; [apply stem_suffix_of_name | exact Hext]].
  unfold suffix, stem, suffix_of_name, stem_of_name in *.
  set (n := name file_path) in *.
  destruct ((0 <? PyStr.rfind "." n) && (PyStr.rfind "." n <? PyStr.len n - 1))%Z
    eqn:E.
  - apply andb_prop in E. destruct E as (E1 & E2).
    apply Z.ltb_lt in E1, E2. unfold PyStr.take, PyStr.len in *.
    intros Hempty. apply (f_equal String.length) in Hempty.
    rewrite length_substring_take in Hempty by lia. cbn in Hempty. lia.
  - destruct Hext as [Hext|Hext]; discriminate Hext.
Qed.

Lemma excel_file_name_shape_witness :
  stem (posix ["data"; "Q1.Report.XLSX"]) <> ""
  /\ stem (posix ["data"; "Q1.Report.XLSX"])
     ++ suffix (posix ["data"; "Q1.Report.XLSX"])
     = name (posix ["data"; "Q1.Report.XLSX"])
  /\ (PyStr.lower (suffix (posix ["data"; "Q1.Report.XLSX"])) = ".xlsx"
      \/ PyStr.lower (suffix (posix ["data"; "Q1.Report.XLSX"])) = ".xls").
Proof.
  apply (@excel_file_name_shape (posix ["data"; "Q1.Report.XLSX"])).
  reflexivity.
Defined.

(** X2.  Whatever the directory, a file named by a stem that is not empty
    followed by [.xlsx] or [.xls] in any letter case is taken for a
    spreadsheet, and that stem is the base name of its sheet keys. *)
Theorem excel_file_accepts (dir : Path) (s e : string) :
  s <> "" ->
  PyStr.mem (PyStr.lower e) [".xlsx"; ".xls"] = true ->
  is_excel_file (joinpath dir [s ++ e]) = true
  /\ stem (joinpath dir [s ++ e]) = s
  /\ forall s3_path sheet_name,
       sheet_key s3_path (name (joinpath dir [s ++ e])) sheet_name
       = s3_path ++ s ++ "_" ++ safe_sheet_name sheet_name ++ ".csv".
Proof.
  intros Hs He. destruct (excel_extension e He) as (t & -> & Hfree & Ht).
  destruct (suffix_stem_of_extension s t Hs Ht Hfree) as (Hsuf & Hstem).
  assert (Hname : name (joinpath dir [s ++ String "." t]) = s ++ String "." t).
  { unfold name, joinpath. cbn [parts]. apply last_last. }
  unfold is_excel_file, suffix, stem, sheet_key. rewrite Hname, Hsuf, Hstem.
  auto.
Qed.

Lemma excel_file_accepts_witness :
  is_excel_file (joinpath (posix ["data"]) ["Monthly Report" ++ ".XlsX"]) = true
  /\ stem (joinpath (posix ["data"]) ["Monthly Report" ++ ".XlsX"])
     = "Monthly Report"
  /\ forall s3_path sheet_name,
       sheet_key s3_path
         (name (joinpath (posix ["data"]) ["Monthly Report" ++ ".XlsX"]))
         sheet_name
       = s3_path ++ "Monthly Report" ++ "_" ++ safe_sheet_name sheet_name
         ++ ".csv".
Proof.
  apply (@excel_file_accepts (posix ["data"]) "Monthly Report" ".XlsX").
  - discriminate.
  - reflexivity.
Defined.

(** X3.  A name without a dot, and a name whose only dot is its first
    character (a hidden file, [.xlsx] itself included), is never taken for a
    spreadsheet: such a file goes to the plain uploader. *)
Theorem dotless_and_hidden_names_are_plain (dir : Path) (t : string) :
  free_of "." t = true ->
  is_excel_file (joinpath dir [t]) = false
  /\ is_excel_file (joinpath dir [String "." t]) = false.
Proof.
  intros Hfree.
  assert (Hplain : forall n, (PyStr.rfind "." n <= 0)%Z ->
                             is_excel_file (joinpath dir [n]) = false).
  { intros n Hn. unfold is_excel_file, suffix, name, joinpath. cbn [parts].
    rewrite last_last. unfold suffix_of_name.
    destruct (Z.ltb_spec 0 (PyStr.rfind "." n)); [lia|reflexivity]. }
  split; apply Hplain.
  - unfold PyStr.rfind. rewrite rfind_from_free by exact Hfree. lia.
  - change (String "." t) with ("" ++ String "." t).
    rewrite (@rfind_last "." "" t Hfree). reflexivity.
Qed.

Lemma dotless_and_hidden_names_are_plain_witness :
  is_excel_file (joinpath (posix ["data"]) ["xlsx"]) = false
  /\ is_excel_file (joinpath (posix ["data"]) [".xlsx"]) = false.
Proof.
  apply (@dotless_and_hidden_names_are_plain (posix ["data"]) "xlsx").
  reflexivity.
Defined.

(** ** Sheet names and keys *)

Lemma map_chars_app f (s t : string) :
  map_chars f (s ++ t) = map_chars f s ++ map_chars f t.
Proof. induction s as [|c s IH]; cbn; [reflexivity|]. now rewrite IH. Qed.

Lemma is_unsafe_sanitize_char c : is_unsafe (sanitize_char c) = false.
Proof.
  unfold sanitize_char. destruct (is_unsafe c) eqn:E; [reflexivity|exact E].
Qed.

(** X4.  The sanitized sheet name has the length of the sheet name and holds
    no slash, backslash or space; a sheet name is left as it is exactly when
    it holds none of the three. *)
Theorem safe_sheet_name_is_safe (sheet_name : string) :
  String.length (safe_sheet_name sheet_name) = String.length sheet_name
  /\ has_char is_unsafe (safe_sheet_name sheet_name) = false
  /\ String.eqb (safe_sheet_name sheet_name) sheet_name
     = negb (has_char is_unsafe sheet_name).
Proof.
  rewrite safe_sheet_name_map_chars.
  induction sheet_name as [|c s (IH1 & IH2 & IH3)]; [cbn; tauto|].
  cbn [map_chars String.length has_char String.eqb].
  rewrite IH1, IH2, IH3, is_unsafe_sanitize_char. repeat split.
  unfold sanitize_char. destruct (is_unsafe c) eqn:Hc; cbn [negb orb].
  - destruct (Ascii.eqb_spec "_" c) as [<-|]; [discriminate Hc|reflexivity].
  - now rewrite Ascii.eqb_refl.
Qed.

Lemma free_of_app c (s t : string) :
  free_of c (s ++ t) = free_of c s && free_of c t.
Proof.
  unfold free_of. induction s as [|a s IH]; cbn; [reflexivity|].
  destruct (Ascii.eqb a c); cbn; [reflexivity|exact IH].
Qed.

Lemma free_of_substring c n m (s : string) :
  free_of c s = true -> free_of c (String.substring n m s) = true.
Proof.
  unfold free_of. revert n m.
  induction s as [|a s IH]; intros [|n] [|m] H; cbn in *; try reflexivity;
    try exact H.
  - apply negb_true_iff, orb_false_iff in H. destruct H as (-> & H). cbn.
    apply IH. now rewrite H.
  - apply IH. apply negb_true_iff, orb_false_iff in H. now rewrite (proj2 H).
  - apply IH. apply negb_true_iff, orb_false_iff in H. now rewrite (proj2 H).
Qed.

Lemma free_of_stem c n : free_of c n = true -> free_of c (stem_of_name n) = true.
Proof.
  intros H. unfold stem_of_name, PyStr.take.
  destruct (_ && _); [now apply free_of_substring | exact H].
Qed.

Lemma free_of_slash_safe s : free_of "/" (safe_sheet_name s) = true.
Proof.
  rewrite safe_sheet_name_map_chars. unfold free_of.
  induction s as [|c s IH]; [reflexivity|]. cbn [map_chars has_char].
  apply negb_true_iff, orb_false_iff. split.
  - pose proof (is_unsafe_sanitize_char c) as H. unfold is_unsafe in H.
    apply orb_false_iff in H. destruct H as (H & _).
    apply orb_false_iff in H. tauto.
  - now apply negb_true_iff.
Qed.

(** X5.  Whatever the sheet name, the object of a sheet lies directly under
    the prefix: what follows the prefix in its key holds no slash (the file
    name, a last path component, holding none) and ends in [.csv]. *)
Theorem sheet_key_is_flat (s3_path original_filename sheet_name : string) :
  free_of "/" original_filename = true ->
  exists base,
    sheet_key s3_path original_filename sheet_name = s3_path ++ base ++ ".csv"
    /\ free_of "/" (base ++ ".csv") = true.
Proof.
  intros H. exists (stem_of_name original_filename ++ "_"
                    ++ safe_sheet_name sheet_name).
  unfold sheet_key. split; [now rewrite !append_assoc|].
  rewrite !free_of_app, (free_of_stem _ _ H), free_of_slash_safe. reflexivity.
Qed.

Lemma sheet_key_is_flat_witness :
  exists base,
    sheet_key Example.prefix "q.xlsx" "2024/Q1 totals"
    = Example.prefix ++ base ++ ".csv"
    /\ free_of "/" (base ++ ".csv") = true.
Proof.
  apply (@sheet_key_is_flat Example.prefix "q.xlsx" "2024/Q1 totals").
  reflexivity.
Defined.

(** X6.  Sheet names that differ only by which of slash, backslash, space
    and underscore stands at some place get the same key: of two such sheets
    of one workbook the second upload replaces the first. *)
Theorem sheet_keys_collide (s3_path original_filename a b : string) :
  sheet_key s3_path original_filename (a ++ "/" ++ b)
  = sheet_key s3_path original_filename (a ++ "_" ++ b)
  /\ sheet_key s3_path original_filename (a ++ "\" ++ b)
     = sheet_key s3_path original_filename (a ++ "_" ++ b)
  /\ sheet_key s3_path original_filename (a ++ " " ++ b)
     = sheet_key s3_path original_filename (a ++ "_" ++ b).
Proof.
  unfold sheet_key. rewrite !safe_sheet_name_map_chars, !map_chars_app.
  repeat split; reflexivity.
Qed.

Lemma put_keys_app l1 l2 : put_keys (l1 ++ l2) = (put_keys l1 ++ put_keys l2)%list.
Proof. unfold put_keys. apply flat_map_app. Qed.

Lemma put_keys_actions evs : put_keys (filter is_action evs) = put_keys evs.
Proof.
  induction evs as [|ev evs IH]; [reflexivity|].
  cbn [filter]. destruct (is_action ev) eqn:E.
  - change (ev :: filter is_action evs) with ([ev] ++ filter is_action evs)%list.
    change (ev :: evs) with ([ev] ++ evs)%list.
    now rewrite !put_keys_app, IH.
  - rewrite IH. destruct ev; try reflexivity; discriminate E.
Qed.

Lemma put_keys_of_targets ts : put_keys (map put_of ts) = map target_key ts.
Proof.
  induction ts as [|t ts IH]; [reflexivity|].
  destruct t; cbn; now rewrite <- IH.
Qed.

(** X7.  The keys of the sheets of a workbook depend on the name of the
    file, not on the directory it is in: two copies of a workbook under one
    name in two directories are uploaded under the same keys, whatever the
    store answers. *)
Theorem sheet_keys_ignore_directory env s3_client s3_path
    (file file' : LocalFile) c c' :
  name (file_path file) = name (file_path file') ->
  workbook file = workbook file' ->
  put_keys (events (process_excel_file s3_client file s3_path false env c))
  = put_keys (events (process_excel_file s3_client file' s3_path false env c')).
Proof.
  intros Hname Hwb.
  destruct (process_excel_file_acts env s3_client file s3_path false c)
    as (_ & F & _).
  destruct (process_excel_file_acts env s3_client file' s3_path false c')
    as (_ & F' & _).
  rewrite <- (put_keys_actions (events (process_excel_file _ file _ _ _ _))).
  rewrite <- (put_keys_actions (events (process_excel_file _ file' _ _ _ _))).
  rewrite F, F'. f_equal. f_equal.
  unfold excel_targets. rewrite Hwb.
  destruct (workbook file') as [xl|]; [|reflexivity].
  apply flat_map_ext. intros sh. unfold sheet_targets. now rewrite Hname.
Qed.

Lemma sheet_keys_ignore_directory_witness :
  put_keys (events (process_excel_file Example.client
                      (mkLocalFile (posix ["data"; "north"; "q.xlsx"])
                         Example.q_xlsx)
                      Example.prefix false Example.env (mkCounters 1 0)))
  = put_keys (events (process_excel_file Example.client
                        (mkLocalFile (posix ["data"; "south"; "q.xlsx"])
                           Example.q_xlsx)
                        Example.prefix false Example.env (mkCounters 1 1))).
Proof.
  apply (@sheet_keys_ignore_directory Example.env Example.client Example.prefix
           (mkLocalFile (posix ["data"; "north"; "q.xlsx"]) Example.q_xlsx)
           (mkLocalFile (posix ["data"; "south"; "q.xlsx"]) Example.q_xlsx)
           (mkCounters 1 0) (mkCounters 1 1)); reflexivity.
Defined.

(** ** Keys of plain files *)

(** X8.  A leading dot of the first component of a relative path is dropped
    from the key: a file and its hidden namesake, or the contents of a
    directory and of its hidden namesake, get the same keys. *)
Theorem hidden_namesakes_collide (s3_path n sp : string) (rest : list string) :
  file_key s3_path (mkPath "" (String "." n :: rest) sp)
  = file_key s3_path (mkPath "" (n :: rest) sp).
Proof. destruct rest; reflexivity. Qed.

Lemma append_inj_l (p a b : string) : p ++ a = p ++ b -> a = b.
Proof. induction p as [|c p IH]; cbn; [auto|]. intros [= H]. auto. Qed.

Lemma free_of_cons c a (s : string) :
  free_of c (String a s) = negb (Ascii.eqb a c) && free_of c s.
Proof. unfold free_of. cbn. now destruct (Ascii.eqb a c). Qed.

(** Two texts cut at their first slash agree piece by piece. *)
Lemma cut_at_slash (x y r1 r2 : string) :
  free_of "/" x = true -> free_of "/" y = true ->
  x ++ String "/" r1 = y ++ String "/" r2 -> x = y /\ r1 = r2.
Proof.
  revert y. induction x as [|a x IH]; intros [|b y] Hx Hy H; cbn in H.
  - injection H as ->. auto.
  - injection H as <- _. rewrite free_of_cons in Hy. discriminate.
  - injection H as -> _. rewrite free_of_cons in Hx. discriminate.
  - injection H as -> H. rewrite free_of_cons in Hx, Hy.
    apply andb_prop in Hx, Hy. destruct (IH y (proj2 Hx) (proj2 Hy) H) as (-> & ->).
    auto.
Qed.

Lemma no_slash_inside (x y r : string) :
  free_of "/" x = true -> x <> y ++ String "/" r.
Proof.
  intros Hx ->. rewrite free_of_app, free_of_cons in Hx.
  cbn in Hx. now rewrite andb_false_r in Hx.
Qed.

Lemma join_cons2 sep x y (l : list string) :
  PyStr.join sep (x :: y :: l) = x ++ sep ++ PyStr.join sep (y :: l).
Proof. reflexivity. Qed.

Lemma join_slash_injective (l1 l2 : list string) :
  is_relative_path l1 = true -> is_relative_path l2 = true ->
  PyStr.join "/" l1 = PyStr.join "/" l2 -> l1 = l2.
Proof.
  revert l2. induction l1 as [|x l1 IH]; intros l2 H1 H2 H; [discriminate|].
  destruct l2 as [|y l2]; [discriminate|].
  unfold is_relative_path in H1, H2. cbn [forallb] in H1, H2.
  apply andb_prop in H1, H2. destruct H1 as (Hx & Hl1), H2 as (Hy & Hl2).
  unfold is_file_name in Hx, Hy. apply andb_prop in Hx, Hy.
  destruct Hx as (_ & Hx), Hy as (_ & Hy).
  destruct l1 as [|x' l1], l2 as [|y' l2].
  - cbn in H. now subst.
  - rewrite join_cons2 in H. cbn [PyStr.join String.concat] in H.
    now apply no_slash_inside in H.
  - rewrite join_cons2 in H. cbn [PyStr.join String.concat] in H.
    symmetry in H. now apply no_slash_inside in H.
  - rewrite !join_cons2 in H. cbn [append] in H.
    destruct (cut_at_slash _ _ _ _ Hx Hy H) as (-> & Hrest).
    f_equal. apply IH; auto.
Qed.

Lemma join_begins c (rel : list string) :
  is_relative_path rel = true ->
  begins_with c (PyStr.join "/" rel) = begins_with c (hd "" rel).
Proof.
  destruct rel as [|x rel]; [discriminate|]. intros H.
  unfold is_relative_path in H. cbn [forallb] in H. apply andb_prop in H.
  destruct H as (Hx & _). unfold is_file_name in Hx. apply andb_prop in Hx.
  destruct Hx as (Hx & _). destruct x as [|a x]; [discriminate|].
  destruct rel; reflexivity.
Qed.

Lemma relative_path_no_leading_slash (rel : list string) :
  is_relative_path rel = true -> begins_with "/" (PyStr.join "/" rel) = false.
Proof.
  intros H. rewrite (join_begins _ _ H).
  destruct rel as [|x rel]; [discriminate|].
  unfold is_relative_path in H. cbn [forallb] in H. apply andb_prop in H.
  destruct H as (Hx & _). unfold is_file_name in Hx. apply andb_prop in Hx.
  destruct Hx as (_ & Hx). destruct x as [|a x]; [reflexivity|].
  rewrite free_of_cons in Hx. apply andb_prop in Hx. destruct Hx as (Ha & _).
  cbn. now apply negb_true_iff in Ha.
Qed.

(** X9.  Among relative paths that are not hidden at their top, the key
    tells the path: two plain files of one run with different relative paths
    are stored under different keys. *)
Theorem plain_file_keys_are_distinct (s3_path sp sp' : string)
    (rel rel' : list string) :
  is_relative_path rel = true -> is_relative_path rel' = true ->
  visible rel = true -> visible rel' = true ->
  file_key s3_path (mkPath "" rel sp) = file_key s3_path (mkPath "" rel' sp') ->
  rel = rel'.
Proof.
  intros Hrel Hrel' Hvis Hvis' Hkey.
  unfold visible in Hvis, Hvis'. apply negb_true_iff in Hvis, Hvis'.
  rewrite <- (join_begins "." rel Hrel) in Hvis.
  rewrite <- (join_begins "." rel' Hrel') in Hvis'.
  rewrite (file_key_plain s3_path rel sp Hvis
             (relative_path_no_leading_slash rel Hrel)) in Hkey.
  rewrite (file_key_plain s3_path rel' sp' Hvis'
             (relative_path_no_leading_slash rel' Hrel')) in Hkey.
  apply append_inj_l in Hkey. now apply join_slash_injective.
Qed.

Lemma plain_file_keys_are_distinct_witness :
  is_relative_path ["archive"; "notes.md"] = true
  /\ visible ["archive"; "notes.md"] = true
  /\ ["archive"; "notes.md"] = ["archive"; "notes.md"].
Proof.
  split; [reflexivity|]. split; [reflexivity|].
  apply (@plain_file_keys_are_distinct Example.prefix "/" "\"
           ["archive"; "notes.md"] ["archive"; "notes.md"]); reflexivity.
Defined.

(** ** Prefixes *)

(** X10.  The prefix tells the dataset and the date: two runs write under
    the same prefix only for the same dataset on the same day. *)
Theorem s3_path_for_injective (d d' : Dataset) (now now' : Date) :
  valid_date now -> valid_date now' ->
  s3_path_for (value d) now = s3_path_for (value d') now' ->
  d = d' /\ now = now'.
Proof.
  intros (Hy & Hm & Hd) (Hy' & Hm' & Hd') H.
  unfold s3_path_for in H. apply append_inj_l in H.
  assert (Hd0 : d = d').
  { destruct d, d'; try reflexivity; cbn [value append] in H; discriminate H. }
  subst d'. split; [reflexivity|].
  do 2 apply append_inj_l in H.
  unfold strftime_Ymd, pad4, pad2 in H. cbn [append] in H.
  injection H as Y1 Y2 Y3 Y4 M1 M2 D1 D2.
  assert (HY : pad4 (year now) = pad4 (year now'))
    by (cbv [pad4 Nat.div]; congruence).
  assert (HM : pad2 (month now) = pad2 (month now'))
    by (cbv [pad2 Nat.div]; congruence).
  assert (HD : pad2 (day now) = pad2 (day now'))
    by (cbv [pad2 Nat.div]; congruence).
  apply (f_equal decimal_value) in HY, HM, HD.
  rewrite !decimal_value_pad4 in HY by lia.
  rewrite !decimal_value_pad2 in HM, HD by lia.
  destruct now, now'. cbn in *. congruence.
Qed.

Lemma s3_path_for_injective_witness :
  valid_date (mkDate 2024 5 17)
  /\ (WINISTRY = WINISTRY /\ mkDate 2024 5 17 = mkDate 2024 5 17).
Proof.
  assert (H : valid_date (mkDate 2024 5 17)) by (unfold valid_date; cbn; lia).
  split; [exact H|].
  apply (@s3_path_for_injective WINISTRY WINISTRY (mkDate 2024 5 17)
           (mkDate 2024 5 17) H H). reflexivity.
Defined.

(** ** What a run never emits *)

Section Emits.

Variable env : Env.
Variable q : Event -> bool.

Lemma emits_bind {A B} (m : M A) (f : A -> M B) :
  emits env q m -> (forall a, emits env q (f a)) -> emits env q (bind m f).
Proof.
  intros Hm Hf c. unfold bind. specialize (Hm c).
  destruct (ending (m env c)) as [a| |]; cbn [events]; [|exact Hm|exact Hm].
  rewrite forallb_app, Hm. apply Hf.
Qed.

Lemma emits_try {A} (body : M A) (handler : exn -> M A) :
  emits env q body -> (forall e, emits env q (handler e)) ->
  emits env q (try_except body handler).
Proof.
  intros Hb Hh c. unfold try_except. specialize (Hb c).
  destruct (ending (body env c)) as [a|e|]; cbn [events]; [exact Hb| |exact Hb].
  rewrite forallb_app, Hb. apply Hh.
Qed.

Lemma emits_for_each {A} (xs : list A) (body : A -> M unit) :
  (forall x, emits env q (body x)) -> emits env q (for_each xs body).
Proof.
  intros H. induction xs as [|x xs IH]; cbn [for_each]; [now intros c|].
  apply emits_bind; auto.
Qed.

Lemma emits_emit ev : q ev = true -> emits env q (emit ev).
Proof. intros H c. cbn. now rewrite H. Qed.

Lemma emits_ret {A} (a : A) : emits env q (ret a).
Proof. now intros c. Qed.

Lemma emits_raise {A} e : emits env q (@raise A e).
Proof. now intros c. Qed.

Lemma emits_sys_exit {A} n : emits env q (@sys_exit A n).
Proof. now intros c. Qed.

Lemma emits_ask : emits env q ask.
Proof. now intros c. Qed.

Lemma emits_datetime_now : emits env q datetime_now.
Proof. now intros c. Qed.

Lemma emits_store_answer : emits env q store_answer.
Proof. now intros c. Qed.

Lemma emits_of_read {A} (r : Read A) : emits env q (of_read r).
Proof. destruct r; now intros c. Qed.

Lemma emits_map_m {A B} (f : A -> M B) xs :
  (forall x, emits env q (f x)) -> emits env q (map_m f xs).
Proof.
  intros H. induction xs as [|x xs IH]; cbn [map_m]; [apply emits_ret|].
  apply emits_bind; [apply H|]. intros y.
  apply emits_bind; [exact IH|]. intros ys. apply emits_ret.
Qed.

Lemma emits_pool_run tasks :
  (forall t, In t tasks -> emits env q t) -> emits env q (pool_run tasks).
Proof.
  induction tasks as [|t ts IH]; intros H; cbn [pool_run]; [apply emits_ret|].
  apply emits_bind.
  - unfold run_task. apply emits_try.
    + apply emits_bind; [apply H; now left|]. intros _. apply emits_ret.
    + intros e. apply emits_ret.
  - intros r. apply emits_bind.
    + apply IH. intros t' Ht'. apply H. now right.
    + intros rs. apply emits_ret.
Qed.

Lemma emits_starmap {A} (f : A -> M unit) args :
  (forall a, emits env q (f a)) -> emits env q (starmap f args).
Proof.
  intros H. unfold starmap. apply emits_bind.
  - apply emits_pool_run. intros t Ht. apply in_map_iff in Ht.
    destruct Ht as (a & <- & _). apply H.
  - intros [e|]; [apply emits_raise | apply emits_ret].
Qed.

Lemma emits_relative_to_m p base : emits env q (relative_to_m p base).
Proof.
  unfold relative_to_m. destruct (relative_to p base);
    [apply emits_ret | apply emits_raise].
Qed.

End Emits.

(** One step of the proof that a command emits only events of a kind. *)
Ltac emits_step :=
  match goal with
  | |- emits _ _ (bind _ _) => apply emits_bind; [|intros ?]
  | |- emits _ _ (try_except _ _) => apply emits_try; [|intros ?]
  | |- emits _ _ (for_each _ _) => apply emits_for_each; intros ?
  | |- emits _ _ (map_m _ _) => apply emits_map_m; intros ?
  | |- emits _ _ (starmap _ _) => apply emits_starmap; intros ?
  | |- emits _ _ (ret _) => apply emits_ret
  | |- emits _ _ (raise _) => apply emits_raise
  | |- emits _ _ (sys_exit _) => apply emits_sys_exit
  | |- emits _ _ ask => apply emits_ask
  | |- emits _ _ datetime_now => apply emits_datetime_now
  | |- emits _ _ store_answer => apply emits_store_answer
  | |- emits _ _ (of_read _) => apply emits_of_read
  | |- emits _ _ (relative_to_m _ _) => apply emits_relative_to_m
  | |- emits _ _ (emit _) => apply emits_emit; reflexivity
  | |- emits _ _ (if ?b then _ else _) => destruct b
  | |- emits _ _ (match ?x with _ => _ end) => destruct x
  end.

Ltac emits_auto :=
  unfold upload_file_call, upload_fileobj_call, logger_info, logger_warning,
    logger_error, with_ThreadPool;
  repeat emits_step.

Lemma upload_file_to_s3_ordinary env s3_client file s3_path dry_run rel :
  emits env ordinary (upload_file_to_s3 s3_client file s3_path dry_run rel).
Proof. unfold upload_file_to_s3. emits_auto. Qed.

Lemma upload_csv_buffer_to_s3_ordinary env s3_client buffer s3_path orig
    sheet dry_run :
  emits env ordinary
    (upload_csv_buffer_to_s3 s3_client buffer s3_path orig sheet dry_run).
Proof. unfold upload_csv_buffer_to_s3. emits_auto. Qed.

Lemma process_excel_file_ordinary env s3_client file s3_path dry_run :
  emits env ordinary (process_excel_file s3_client file s3_path dry_run).
Proof.
  unfold process_excel_file, process_sheet. emits_auto;
    apply upload_csv_buffer_to_s3_ordinary.
Qed.

Lemma upload_directory_ordinary env s3_client dataset path target s3_path
    processes dry_run :
  emits env ordinary
    (upload_directory s3_client dataset path target s3_path processes dry_run).
Proof.
  unfold upload_directory. emits_auto;
    first [apply process_excel_file_ordinary | apply upload_file_to_s3_ordinary].
Qed.

Lemma upload_single_ordinary env s3_client dataset path target s3_path dry_run :
  emits env ordinary
    (upload_single s3_client dataset path target s3_path dry_run).
Proof.
  unfold upload_single. emits_auto;
    first [apply process_excel_file_ordinary | apply upload_file_to_s3_ordinary].
Qed.

Lemma upload_mapping_ordinary env s3_client dry_run mapping :
  emits env ordinary (upload_mapping s3_client dry_run mapping).
Proof.
  unfold upload_mapping, upload_mapping_file. emits_auto;
    first [apply process_excel_file_ordinary | apply upload_file_to_s3_ordinary].
Qed.

Lemma emits_weaken env (q q' : Event -> bool) {A} (m : M A) :
  (forall ev, q ev = true -> q' ev = true) -> emits env q m -> emits env q' m.
Proof.
  intros H Hm c. specialize (Hm c). rewrite forallb_forall in *.
  intros ev Hin. apply H, Hm, Hin.
Qed.

Lemma ordinary_expected ev : ordinary ev = true -> expected ev = true.
Proof. unfold expected. now intros ->. Qed.

Lemma get_s3_client_expected env : emits env expected get_s3_client.
Proof.
  unfold get_s3_client, read_credentials. emits_auto.
Qed.

Lemma upload_expected env dataset path processes dry_run :
  emits env expected (upload dataset path processes dry_run).
Proof.
  unfold upload. emits_auto;
    first [ apply get_s3_client_expected
          | apply (@emits_weaken env ordinary expected _ _ ordinary_expected);
            first [apply upload_single_ordinary | apply upload_directory_ordinary] ].
Qed.

Lemma upload_dashboard_expected env processes dry_run :
  emits env expected (upload_dashboard processes dry_run).
Proof.
  unfold upload_dashboard. emits_auto;
    first [ apply get_s3_client_expected
          | apply (@emits_weaken env ordinary expected _ _ ordinary_expected);
            apply upload_mapping_ordinary ].
Qed.

(** ** X14: the verbose flag *)

Lemma handle_configured verbose rd n r :
  is_debug r = false ->
  handle (configure_logging verbose logger) rd n r = [format rd n r].
Proof.
  intros H. unfold handle, configure_logging, effective_level, is_debug in *.
  destruct verbose, (levelname r); try discriminate H; reflexivity.
Qed.

Lemma stdout_from_printed verbose rd evs :
  forallb expected evs = true ->
  forall n,
    stdout_from (configure_logging verbose logger) rd n evs = printed rd n evs.
Proof.
  induction evs as [|ev evs IH]; intros H n; [reflexivity|].
  cbn [forallb] in H. apply andb_prop in H. destruct H as (Hev & H).
  destruct ev as [r| | |]; cbn [stdout_from printed]; try (now apply IH).
  rewrite handle_configured, IH; [reflexivity|exact H|].
  unfold expected, ordinary in Hev. cbn in Hev. rewrite orb_false_r in Hev.
  now apply negb_true_iff.
Qed.

(** X14.  No record of either command is below [INFO]: with or without
    [--verbose], standard output is every record of the run, once, in the
    format of the script, and the exit status is the same. *)
Theorem verbose_changes_nothing (verbose : bool) (env : Env) (rd : Rendering) :
  (forall dataset path processes dry_run,
      let command := upload dataset path processes dry_run in
      cli verbose command env rd
      = (printed rd 0 (events (run command env)),
         exit_status (ending (run command env))))
  /\ (forall processes dry_run,
        let command := upload_dashboard processes dry_run in
        cli verbose command env rd
        = (printed rd 0 (events (run command env)),
           exit_status (ending (run command env)))).
Proof.
  split; intros; unfold cli; f_equal; apply stdout_from_printed.
  - apply upload_expected.
  - apply upload_dashboard_expected.
Qed.

(** ** X11 to X13: where the calls go, and the client *)

Lemma action_of_target (dry_run : bool) evs targets ev :
  filter is_action evs = map (act dry_run) targets ->
  In ev evs -> is_put ev = true ->
  exists t, In t targets /\ ev = put_of t.
Proof.
  intros F Hin Hput.
  assert (Hact : In ev (filter is_action evs)).
  { apply filter_In. split; [exact Hin | now apply put_is_action]. }
  rewrite F in Hact. apply in_map_iff in Hact. destruct Hact as (t & <- & Ht).
  exists t. split; [exact Ht|]. destruct dry_run; [|reflexivity].
  destruct t; discriminate Hput.
Qed.

Lemma call_within_targets s3_path (dry_run : bool) evs targets :
  filter is_action evs = map (act dry_run) targets ->
  (forall t, In t targets -> exists rest, target_key t = s3_path ++ rest) ->
  Forall (call_within s3_path) evs.
Proof.
  intros F Hkeys. apply Forall_forall. intros ev Hin.
  destruct ev as [r|cl|b k f|o b k]; cbn; trivial.
  - destruct (action_of_target dry_run _ _ _ F Hin eq_refl) as (t & Ht & E).
    destruct t; [|discriminate E]. injection E as -> -> ->.
    split; [reflexivity|]. exact (Hkeys _ Ht).
  - destruct (action_of_target dry_run _ _ _ F Hin eq_refl) as (t & Ht & E).
    destruct t; [discriminate E|]. injection E as -> -> ->.
    split; [reflexivity|]. exact (Hkeys _ Ht).
Qed.

(** X11.  Every call of the store in a run of [upload] goes to the bucket of
    the script, under a key that starts with the prefix of the dataset given
    on the command line and of the one reading of the clock. *)
Theorem upload_calls_stay_in_the_partition env dataset path processes dry_run :
  Forall (call_within (s3_path_for (value dataset) (clock env 0)))
    (events (run (upload dataset path processes dry_run) env)).
Proof.
  destruct (upload_run env dataset path processes dry_run) as (_ & A & _).
  apply (call_within_targets _ dry_run _ _ A).
  apply upload_reads_clock_once. exact dry_run.
Qed.

Lemma mapping_targets_keys env ms n t :
  In t (mapping_targets env n ms) ->
  exists m i rest,
    In m ms /\ n <= i < n + List.length ms
    /\ target_key t
       = s3_path_for (mapping_dataset m) (clock env i) ++ rest.
Proof.
  revert n. induction ms as [|m ms IH]; intros n; cbn [mapping_targets];
    [contradiction|].
  assert (Hlater : forall k, k = n \/ k = S n ->
            In t (mapping_targets env k ms) ->
            exists m0 i rest,
              In m0 (m :: ms) /\ n <= i < n + List.length (m :: ms)
              /\ target_key t
                 = s3_path_for (mapping_dataset m0) (clock env i) ++ rest).
  { intros k Hk Hin. destruct (IH k Hin) as (m0 & i & rest & Hm0 & Hi & Hkey).
    exists m0, i, rest. cbn [List.length]. split; [now right|].
    split; [lia | exact Hkey]. }
  destruct (disk env (mapping_file_path m)) as [entry|]; [|apply Hlater; auto].
  rewrite in_app_iff. intros [Hin|Hin]; [|apply (Hlater (S n)); auto].
  destruct (@single_targets_keys _ _ _ _ _ _ _ Hin) as (rest & Hkey).
  exists m, n, rest. cbn [List.length]. split; [now left|].
  split; [lia | exact Hkey].
Qed.

(** X12.  Every call of the store in a run of [upload_dashboard] goes to the
    bucket of the script, under a key that starts with the prefix of
    [winistry] or of [sparkloft] for the first or the second reading of the
    clock. *)
Theorem upload_dashboard_calls_stay_in_the_partitions env processes dry_run :
  Forall (fun ev =>
            exists d i, i < 2
                        /\ call_within (s3_path_for (value d) (clock env i)) ev)
    (events (run (upload_dashboard processes dry_run) env)).
Proof.
  destruct (upload_dashboard_run env processes dry_run) as (_ & A & _).
  unfold actions in A. apply Forall_forall. intros ev Hin.
  destruct (is_put ev) eqn:Hput.
  - destruct (action_of_target dry_run _ _ _ A Hin Hput) as (t & Ht & ->).
    unfold dashboard_targets in Ht.
    destruct (credentials (config_file env)); [|contradiction].
    destruct (mapping_targets_keys _ _ _ _ Ht)
      as (m & i & rest & Hm & Hi & Hkey).
    assert (Hd : exists d, mapping_dataset m = value d).
    { destruct Hm as [<-|[<-|[]]]; [now exists WINISTRY | now exists SPARKLOFT]. }
    destruct Hd as (d & Hd). exists d, i. cbn [List.length file_mappings] in Hi.
    split; [lia|]. rewrite Hd in Hkey.
    destruct t; cbn in *; (split; [reflexivity | now exists rest]).
  - exists WINISTRY, 0. split; [lia|]. destruct ev; cbn; trivial; discriminate.
Qed.

Lemma ordinary_not_client evs :
  forallb ordinary evs = true -> filter is_client evs = [].
Proof.
  induction evs as [|ev evs IH]; [reflexivity|]. cbn [forallb filter].
  intros H. apply andb_prop in H. destruct H as (Hev & H).
  destruct ev; cbn; try (now apply IH). discriminate Hev.
Qed.


(** X13.  A run of either command builds the client at most once: not at
    all when the path designates nothing or the credentials are refused,
    else once, for region [us-east-1] with the two values of [S3.ini]. *)
Theorem client_is_built_once (env : Env) :
  (forall dataset path processes dry_run,
      filter is_client
        (events (run (upload dataset path processes dry_run) env))
      = match disk env path, credentials (config_file env) with
        | Some _, Some (k, s) => [Boto3Client (mkClient "us-east-1" k s)]
        | _, _ => []
        end)
  /\ (forall processes dry_run,
        filter is_client (events (run (upload_dashboard processes dry_run) env))
        = match credentials (config_file env) with
          | Some (k, s) => [Boto3Client (mkClient "us-east-1" k s)]
          | None => []
          end).
Proof.
  split.
  - intros dataset path processes dry_run. unfold run, upload. unfold_m.
    cbn [events counters ending].
    destruct (disk env path) as [target|]; [|reflexivity].
    destruct (credentials (config_file env)) as [[k s]|] eqn:Hcred.
    + rewrite (get_s3_client_loaded env _ Hcred).
      cbn [events counters ending now_calls put_calls].
      rewrite !filter_app. rewrite (ordinary_not_client (events _)).
      * reflexivity.
      * destruct target; [apply upload_single_ordinary
                         | apply upload_directory_ordinary].
    + destruct (get_s3_client_refuses env (mkCounters 0 0) Hcred)
        as (msg & exc & -> & _).
      reflexivity.
  - intros processes dry_run. unfold run, upload_dashboard. unfold_m.
    cbn [events counters ending].
    destruct (credentials (config_file env)) as [[k s]|] eqn:Hcred.
    + rewrite (get_s3_client_loaded env _ Hcred).
      cbn [events counters ending now_calls put_calls].
      destruct (for_each_mappings_run env (mkClient S3_REGION k s) dry_run
                  file_mappings (mkCounters 0 0)) as (E & _).
      cbn zeta in E. rewrite E. cbn [events counters ending].
      rewrite !filter_app.
      rewrite (ordinary_not_client (events (for_each _ _ _ _))).
      * reflexivity.
      * apply emits_for_each. intros m. apply upload_mapping_ordinary.
    + destruct (get_s3_client_refuses env (mkCounters 0 0) Hcred)
        as (msg & exc & -> & _).
      reflexivity.
Qed.

(** ** Edge behaviour of the commands *)

Lemma for_each_events_in env {A} (body : A -> M unit) xs :
  (forall x c, ending (body x env c) = Returns tt) ->
  forall x, In x xs -> forall c,
    exists c', incl (events (body x env c')) (events (for_each xs body env c)).
Proof.
  intros Hret. induction xs as [|y xs IH]; intros x Hin c; [contradiction|].
  cbn [for_each]. rewrite (bind_returns env _ _ c (Hret y c)). cbn [events].
  destruct Hin as [->|Hin].
  - exists c. apply incl_appl, incl_refl.
  - destruct (IH x Hin (counters (body y env c))) as (c' & Hc').
    exists c'. now apply incl_appr.
Qed.






(** X17.  For a single file that is not a spreadsheet and not a link (it
    resolves to its own name in what its parent resolves to) the pool size
    plays no part: whatever it is, [upload] ends normally after one upload
    (or one announcement) of the resolved file under the prefix followed by
    its name, the name not beginning with a dot. *)
Theorem upload_single_plain_file env dataset path processes dry_run wb k s :
  disk env path = Some (EFile wb) ->
  credentials (config_file env) = Some (k, s) ->
  is_excel_file path = false ->
  resolve env path = joinpath (resolve env (parent path)) [name path] ->
  begins_with "." (name path) = false ->
  begins_with "/" (name path) = false ->
  let r := run (upload dataset path processes dry_run) env in
  ending r = Returns tt
  /\ actions r
     = [act dry_run
          (FileTarget (resolve env path)
             (s3_path_for (value dataset) (clock env 0) ++ name path))].
Proof.
  intros Hdisk Hcred Hplain Hlink Hdot Hslash r.
  destruct (upload_run env dataset path processes dry_run) as (E & A & _).
  fold r in E, A. unfold upload_ending, single_ending in E.
  unfold upload_targets, upload_single_targets, single_targets in A.
  rewrite Hdisk, Hcred, Hplain in E, A.
  assert (Hrel : relative_to (resolve env path) (resolve env (parent path))
                 = Some (mkPath "" [name path]
                           (sep (resolve env (parent path))))).
  { rewrite Hlink at 1. apply relative_to_joinpath. }
  rewrite Hrel in E, A. split; [exact E|]. rewrite A.
  cbn [map]. unfold file_target.
  now rewrite (file_key_plain _ [name path] _ Hdot Hslash).
Qed.

Lemma upload_single_plain_file_witness :
  let r := run (upload WINISTRY (posix ["data"; "report.txt"]) 0 false)
             Example.report_env in
  ending r = Returns tt
  /\ actions r
     = [UploadFile S3_BUCKET_NAME (Example.prefix ++ "report.txt")
          (posix ["data"; "report.txt"])].
Proof.
  apply (upload_single_plain_file Example.report_env WINISTRY
           (posix ["data"; "report.txt"]) 0 false Example.not_a_workbook
           "AKIAEXAMPLE" "secret"); reflexivity.
Defined.


(** A plain file of the directory that is a link leading out of it stops
    the run before any plain file is uploaded: [relative_to] raises while
    the arguments of the tasks are built. *)
Example link_out_of_the_directory :
  let r := run (upload WINISTRY Example.data 3 false) Edge.link_env in
  exit_status (ending r) = 1%Z
  /\ filter is_file_action (events r) = []
  /\ upload_exit_status Edge.link_env Example.data 3 = 1%Z.
Proof. vm_compute. auto. Qed.

(** The same link as the single file of the command: the run stops on the
    [ValueError] of [relative_to] after its announcement, with nothing
    uploaded. *)
Example link_as_single_file :
  let r := run (upload WINISTRY (posix ["data"; "out.txt"]) 3 false)
             Edge.link_file_env in
  ending r
  = Raises (ValueError
              "'/srv/out.txt' is not in the subpath of '/data'")
  /\ exit_status (ending r) = 1%Z
  /\ actions r = [].
Proof. vm_compute. auto. Qed.

(** A link that stays inside the directory is uploaded as the file it leads
    to: twice the same file under the same key. *)
Example link_inside_the_directory :
  let r := run (upload WINISTRY Example.data 3 false) Edge.alias_env in
  ending r = Returns tt
  /\ actions r
     = [UploadFile S3_BUCKET_NAME (Example.prefix ++ "report.txt")
          (posix ["data"; "report.txt"]);
        UploadFile S3_BUCKET_NAME (Example.prefix ++ "report.txt")
          (posix ["data"; "report.txt"])].
Proof. vm_compute. auto. Qed.

(** ** Edge behaviour of the credential loader *)

(** X19.  An option that the [AWS] section lacks is taken from the
    [DEFAULT] section: with both values found there (and not empty) the
    client is built with them. *)
Theorem default_section_supplies_the_options env sections defaults
    sectiondict k s c :
  config_file env = Ini sections defaults ->
  assoc "AWS" sections = Some sectiondict ->
  assoc "aws_access_key_id" sectiondict = None ->
  assoc "aws_secret_access_key" sectiondict = None ->
  assoc "aws_access_key_id" defaults = Some (ReadOk k) ->
  assoc "aws_secret_access_key" defaults = Some (ReadOk s) ->
  k <> "" -> s <> "" ->
  get_s3_client env c
  = mkRun [Log (mkLog INFO "Using credentials from 'S3.ini' for S3 access."
                  None false);
           Boto3Client (mkClient "us-east-1" k s)]
      c (Returns (mkClient "us-east-1" k s)).
Proof.
  intros Hcfg Hsec Hk1 Hs1 Hk2 Hs2 Hk Hs.
  apply get_s3_client_loaded. rewrite Hcfg. unfold credentials, config_get.
  rewrite Hsec.
  change (PyStr.lower "AWS_ACCESS_KEY_ID") with "aws_access_key_id".
  change (PyStr.lower "AWS_SECRET_ACCESS_KEY") with "aws_secret_access_key".
  rewrite Hk1, Hs1, Hk2, Hs2.
  apply String.eqb_neq in Hk, Hs. now rewrite Hk, Hs.
Qed.

Lemma default_section_supplies_the_options_witness :
  get_s3_client Edge.defaults_env (mkCounters 0 0)
  = mkRun [Log (mkLog INFO "Using credentials from 'S3.ini' for S3 access."
                  None false);
           Boto3Client (mkClient "us-east-1" "AKIAEXAMPLE" "secret")]
      (mkCounters 0 0) (Returns (mkClient "us-east-1" "AKIAEXAMPLE" "secret")).
Proof.
  apply (default_section_supplies_the_options Edge.defaults_env
           [("AWS", [])]
           [("aws_access_key_id", ReadOk "AKIAEXAMPLE");
            ("aws_secret_access_key", ReadOk "secret")]
           [] "AKIAEXAMPLE" "secret" (mkCounters 0 0));
    try reflexivity; discriminate.
Defined.

(** X20.  Without an [AWS] section the loader gives up whatever the
    [DEFAULT] section holds: one error record that quotes the
    [NoSectionError] and names what the file must contain, no traceback,
    then [sys.exit(1)]. *)
Theorem aws_section_is_required env sections defaults c :
  config_file env = Ini sections defaults ->
  assoc "AWS" sections = None ->
  get_s3_client env c
  = mkRun [Log (mkLog ERROR
                  "Error reading 'S3.ini': No section: 'AWS'. Ensure it has an [AWS] section with AWS_ACCESS_KEY_ID and AWS_SECRET_ACCESS_KEY."
                  None false)]
      c (Exits 1).
Proof.
  intros Hcfg Hsec. unfold get_s3_client. unfold_m.
  cbn beta iota delta [events counters ending]. rewrite Hcfg.
  cbn beta iota delta [config_exists negb].
  rewrite !read_credentials_run. unfold credentials_read, config_get.
  rewrite Hsec. reflexivity.
Qed.

Lemma aws_section_is_required_witness :
  get_s3_client Edge.only_defaults_env (mkCounters 0 0)
  = mkRun [Log (mkLog ERROR
                  "Error reading 'S3.ini': No section: 'AWS'. Ensure it has an [AWS] section with AWS_ACCESS_KEY_ID and AWS_SECRET_ACCESS_KEY."
                  None false)]
      (mkCounters 0 0) (Exits 1).
Proof.
  apply (aws_section_is_required Edge.only_defaults_env []
           [("aws_access_key_id", ReadOk "AKIAEXAMPLE");
            ("aws_secret_access_key", ReadOk "secret")]
           (mkCounters 0 0)); reflexivity.
Defined.

(** ** Edge behaviour of the workbook expander *)

Lemma process_sheet_returns env s3_client file s3_path dry_run sheet c :
  ending (process_sheet s3_client file s3_path dry_run sheet env c) = Returns tt.
Proof. apply process_sheet_acts. Qed.

Lemma for_each_sheets_returns env s3_client file s3_path dry_run xl c :
  ending (for_each xl (process_sheet s3_client file s3_path dry_run) env c)
  = Returns tt.
Proof.
  apply (@acts_for_each env _
           (process_sheet s3_client file s3_path dry_run)
           (fun sh => map (act dry_run)
                        (sheet_targets env s3_path file sh)) xl).
  intros sh _. apply process_sheet_acts.
Qed.

(** The events of the expander on a workbook that opens and has sheets. *)
Lemma process_excel_file_events env s3_client file s3_path dry_run sh xl c :
  workbook file = ReadOk (sh :: xl) ->
  events (process_excel_file s3_client file s3_path dry_run env c)
  = Log (mkLog INFO ("Processing Excel file '" ++ path_str (file_path file)
                     ++ "' and uploading individual sheets.") None false)
    :: Log (mkLog INFO
              ("Found "
               ++ PyStr.of_nat (List.length (map sheet_title (sh :: xl)))
               ++ " sheets: "
               ++ PyStr.join ", " (map sheet_title (sh :: xl))) None false)
    :: events (for_each (sh :: xl)
                 (process_sheet s3_client file s3_path dry_run) env c).
Proof.
  intros Hwb. unfold process_excel_file. rewrite Hwb. unfold_m.
  cbn [events counters ending map].
  rewrite for_each_sheets_returns. reflexivity.
Qed.

(** X21.  A sheet that cannot be read is logged at error level with its
    exception and costs nothing else: the expander returns, and its uploads
    are those of the sheets before it followed by those of the sheets after
    it. *)
Theorem failing_sheet_is_skipped env s3_client file s3_path dry_run
    before bad after e c :
  workbook file = ReadOk (before ++ bad :: after)%list ->
  sheet_read bad = ReadFails e ->
  let r := process_excel_file s3_client file s3_path dry_run env c in
  ending r = Returns tt
  /\ In (Log (mkLog ERROR
                ("Error processing sheet '" ++ sheet_title bad ++ "' in '"
                 ++ path_str (file_path file) ++ "'")
                (Some e) false))
       (events r)
  /\ filter is_action (events r)
     = map (act dry_run)
         (flat_map (sheet_targets env s3_path file) before
          ++ flat_map (sheet_targets env s3_path file) after)%list.
Proof.
  intros Hwb Hbad r.
  destruct (process_excel_file_acts env s3_client file s3_path dry_run c)
    as (E & F & _).
  fold r in E, F. split; [exact E|]. split.
  - assert (Hlog : forall c',
              events (process_sheet s3_client file s3_path dry_run bad env c')
              = [Log (mkLog ERROR
                        ("Error processing sheet '" ++ sheet_title bad
                         ++ "' in '" ++ path_str (file_path file) ++ "'")
                        (Some e) false)]).
    { intros c'. unfold process_sheet. rewrite Hbad. reflexivity. }
    destruct (for_each_events_in env
                (process_sheet s3_client file s3_path dry_run)
                (before ++ bad :: after)%list
                (process_sheet_returns env s3_client file s3_path dry_run)
                bad (in_elt bad before after) c)
      as (c' & Hincl).
    rewrite Hlog in Hincl. specialize (Hincl _ (or_introl eq_refl)).
    subst r. destruct (before ++ bad :: after)%list as [|sh xl] eqn:Hxl.
    { destruct before; discriminate Hxl. }
    rewrite (process_excel_file_events env s3_client file s3_path dry_run
               sh xl c Hwb).
    right. right. exact Hincl.
  - rewrite F. unfold excel_targets. rewrite Hwb, flat_map_app.
    cbn [flat_map]. unfold sheet_targets at 2. rewrite Hbad. reflexivity.
Qed.

Lemma failing_sheet_is_skipped_witness :
  put_keys (events (process_excel_file Example.client Edge.q_file
                      Example.prefix false Example.env (mkCounters 1 0)))
  = [Example.prefix ++ "q_Jan.csv"; Example.prefix ++ "q_Mar.csv"]
  /\ In (Log (mkLog ERROR "Error processing sheet 'Feb' in '/data/q.xlsx'"
                (Some (Exn "ValueError" "bad cell")) false))
       (events (process_excel_file Example.client Edge.q_file
                  Example.prefix false Example.env (mkCounters 1 0))).
Proof.
  destruct (failing_sheet_is_skipped Example.env Example.client Edge.q_file
              Example.prefix false [mkSheet "Jan" (ReadOk Example.frame)]
              Edge.broken_sheet [mkSheet "Mar" (ReadOk Example.frame)]
              (Exn "ValueError" "bad cell") (mkCounters 1 0)
              eq_refl eq_refl) as (_ & Hlog & _).
  split; [reflexivity | exact Hlog].
Defined.

(** X22.  A file that pandas cannot open costs two records and no call:
    the expander logs that it starts, then the error with the exception and
    the stack, and returns to its caller with the counters as they were. *)
Theorem unreadable_workbook_is_logged env s3_client file s3_path dry_run e c :
  workbook file = ReadFails e ->
  process_excel_file s3_client file s3_path dry_run env c
  = mkRun
      [Log (mkLog INFO ("Processing Excel file '"
                        ++ path_str (file_path file)
                        ++ "' and uploading individual sheets.") None false);
       Log (mkLog ERROR ("Error processing Excel file '"
                         ++ path_str (file_path file) ++ "'")
              (Some e) true)]
      c (Returns tt).
Proof.
  intros Hwb. unfold process_excel_file. now rewrite Hwb.
Qed.

Lemma unreadable_workbook_is_logged_witness :
  log_records
    (events (process_excel_file Example.client Edge.corrupt_file
               Example.prefix false Example.env (mkCounters 1 0)))
  = [mkLog INFO
       "Processing Excel file '/data/q.xlsx' and uploading individual sheets."
       None false;
     mkLog ERROR "Error processing Excel file '/data/q.xlsx'"
       (Some (Exn "BadZipFile" "File is not a zip file")) true].
Proof.
  rewrite (unreadable_workbook_is_logged Example.env Example.client
             Edge.corrupt_file Example.prefix false
             (Exn "BadZipFile" "File is not a zip file")
             (mkCounters 1 0) eq_refl).
  reflexivity.
Defined.
Lemma count_glob_files (p : string -> bool) l :
  List.length
    (filter (fun rw : list string * Workbook => p (last (fst rw) ""))
       (flat_map (fun pe : list string * Entry =>
                    match snd pe with
                    | EFile wb => [(fst pe, wb)]
                    | EDir _ => []
                    end) l))
  = files_sum (fun x _ => if p x then 1 else 0) l.
Proof.
  induction l as [|[rel e] l IH]; [reflexivity|].
  rewrite files_sum_cons. cbn [flat_map fst snd].
  destruct e as [wb|cs]; cbn [app filter fst]; [|exact IH].
  destruct (p (last rel "")); cbn [List.length]; now rewrite IH.
Qed.

Lemma count_names_directory (p : string -> bool) n children :
  files_sum (fun x _ => if p x then 1 else 0) (glob_all [] (EDir children))
  = count_names p n (EDir children).
Proof. now rewrite files_sum_glob_all. Qed.

Lemma tree_sum_plus f g h n e :
  (forall x wb, f x wb + g x wb = h x wb) ->
  tree_sum f n e + tree_sum g n e = tree_sum h n e.
Proof.
  intros H. revert n.
  induction e as [wb|children IH] using Entry_nested_ind; intros n;
    cbn [tree_sum]; [apply H|].
  induction children as [|[x e] cs IHcs]; [reflexivity|].
  cbn [map fst snd]. rewrite !sum_list_cons.
  inversion IH as [|? ? Hx Hcs]; subst.
  cbn [snd] in Hx. specialize (Hx x). specialize (IHcs Hcs). lia.
Qed.

(** X23.  The two announcements that open the directory branch count the
    files below the directory: all of them, those with a spreadsheet
    extension and the others, and the last two add up to the first. *)
Theorem directory_announcements env s3_client dataset path n children s3_path
    processes dry_run c :
  let target := EDir children in
  let total := count_names (fun _ => true) n target in
  let excel := count_names excel_name n target in
  let regular := plain_files n target in
  excel + regular = total
  /\ exists rest,
       events (upload_directory s3_client dataset path target s3_path
                 processes dry_run env c)
       = Log (mkLog INFO
                ("Uploading " ++ PyStr.of_nat total ++ " files from '"
                 ++ path_str (resolve env path) ++ "' for '" ++ value dataset
                 ++ "'.") None false)
         :: Log (mkLog INFO
                   ("Found " ++ PyStr.of_nat excel ++ " Excel files and "
                    ++ PyStr.of_nat regular ++ " regular files.") None false)
         :: rest.
Proof.
  intros target total excel regular. split.
  - apply tree_sum_plus. intros x wb. now destruct (excel_name x).
  - unfold upload_directory.
    rewrite excel_files_of_directory, regular_files_of_directory.
    rewrite list_files_glob_files, !length_map.
    assert (HN : List.length (glob_files target) = total).
    { rewrite <- (filter_all (fun _ => true) (glob_files target)) at 1.
      - unfold glob_files.
        rewrite (count_glob_files (fun _ => true)).
        exact (count_names_directory (fun _ => true) n children).
      - induction (glob_files target); [reflexivity|assumption]. }
    assert (HE : List.length (filter is_excel_rel (glob_files target)) = excel).
    { unfold glob_files, is_excel_rel.
      rewrite (count_glob_files excel_name).
      exact (count_names_directory excel_name n children). }
    assert (HR : List.length
                   (filter (fun rw => negb (is_excel_rel rw))
                      (glob_files target)) = regular).
    { pose proof (plain_rels_count target) as H. unfold plain_rels in H.
      rewrite H. unfold target. now rewrite files_sum_glob_all. }
    rewrite HN, HE, HR. unfold_m. cbn [events counters ending].
    eexists. reflexivity.
Qed.
